(** * SeeWasm instruction emulators: a shallow embedding

    The instruction-level symbolic execution core of SeeWasm
    ([seewasm/arch/wasm/instructions/*.py], [seewasm/arch/wasm/lib/utils.py])
    written as Rocq functions over an explicit execution state.

    - [Py]    : the fragment of Python the emulators rely on (exceptions,
                string slicing/splitting, integer parsing, list indexing).
    - [Z3]    : the fragment of the z3py term language the emulators build,
                with its sorts, a ground-folding [simplify] and a denotational
                semantics.
    - [VM]    : the execution state and the stack primitives.
    - one module per Python file, each with its [emulate]:
      [ParametricInstructions], [VariableInstructions],
      [ArithmeticInstructions], [BitwiseInstructions],
      [ConversionInstructions], [ConstantInstructions],
      [ControlInstructions], and [Utils] for [lib/utils.py].
    - [Core]  : the seven emulators behind one entry point.
    - [Inv]   : the predicates on states and outcomes the statements use.
    - [Sample]: a small concrete solver and configuration to run the
                emulators on examples.

    Python mutates the state in place and returns a list of states; here
    [emulate] maps a state to an [outcome], and [copy.deepcopy(state)] is
    the state itself.  What lives outside these files (the solver query
    cache, the configuration, the library models, z3's printer) is a
    section variable of the emulator that uses it. *)

From Stdlib Require Import ZArith String Ascii List Bool Lia DecimalString DecimalPos.
From stdpp Require Import base gmap strings list.

Local Open Scope string_scope.
Local Open Scope Z_scope.

(* ===================================================================== *)
(** * Python preliminaries                                                *)
(* ===================================================================== *)

Module Py.

(** Exceptions that can leave an [emulate] call.  [SystemExit] is what
    the builtin [exit(msg)] raises. *)
Inductive exn :=
| AssertionError (msg : string)
| AttributeError
| IndexError
| KeyError
| TypeError
| ValueError
| StructError
| UnboundLocalError (var : string)
| Z3Exception
| UnsupportInstructionError
| UnsupportGlobalTypeError
| UninitializedLocalVariableError
| ProcSuccessTermination (code : Z)
| ProcFailTermination (code : Z)
| SystemExit (msg : string).

(** Computations that either produce a value or raise. *)
Inductive res (A : Type) :=
| Ok (a : A)
| Err (e : exn).
Arguments Ok {A} a.
Arguments Err {A} e.

Definition bind {A B} (m : res A) (k : A -> res B) : res B :=
  match m with
  | Ok a => k a
  | Err e => Err e
  end.

(** [assert c, msg] *)
Definition assert (c : bool) (msg : string) : res unit :=
  if c then Ok tt else Err (AssertionError msg).

(** ** Strings *)

(** [sub in s] *)
Fixpoint contains (sub s : string) : bool :=
  if String.prefix sub s then true
  else match s with
       | EmptyString => false
       | String _ s' => contains sub s'
       end.

(** [s.startswith(p)] *)
Definition startswith (p s : string) : bool := String.prefix p s.

(** [s[:n]] *)
Definition take (n : nat) (s : string) : string := String.substring 0 n s.

(** [s[n:]] *)
Fixpoint drop (n : nat) (s : string) : string :=
  match n, s with
  | O, _ => s
  | S n', EmptyString => EmptyString
  | S n', String _ s' => drop n' s'
  end.

(** [s.split(sep)] for a one-character separator: always at least one
    piece, empty pieces are kept. *)
Fixpoint split (sep : ascii) (s : string) : list string :=
  match s with
  | EmptyString => [EmptyString]
  | String c s' =>
      if Ascii.eqb c sep then EmptyString :: split sep s'
      else match split sep s' with
           | [] => [String c EmptyString]
           | p :: ps => String c p :: ps
           end
  end.

(** ['0' * n + s]; a non-positive count repeats nothing. *)
Fixpoint zeros (n : nat) : string :=
  match n with
  | O => EmptyString
  | S n' => String "0" (zeros n')
  end.

Definition str_of_int (z : Z) : string := NilZero.string_of_int (Z.to_int z).

(** ** Integer literals *)

Definition digit_of (base : Z) (c : ascii) : option Z :=
  let n := Z.of_N (N_of_ascii c) in
  let d := if (48 <=? n) && (n <=? 57) then Some (n - 48)
           else if (97 <=? n) && (n <=? 102) then Some (n - 87)
           else if (65 <=? n) && (n <=? 70) then Some (n - 55)
           else None in
  match d with
  | Some v => if v <? base then Some v else None
  | None => None
  end.

Fixpoint digits (base : Z) (acc : Z) (s : string) : option Z :=
  match s with
  | EmptyString => Some acc
  | String c s' =>
      match digit_of base c with
      | Some d => digits base (acc * base + d) s'
      | None => None
      end
  end.

Definition unsigned_lit (base : Z) (s : string) : option Z :=
  match s with
  | EmptyString => None
  | _ => digits base 0 s
  end.

(** An optional sign followed by at least one digit of [base].  This is
    the literal form [int(s)] accepts for instruction operands; [int(s, 16)]
    also admits a [0x] prefix. *)
Definition signed_lit (base : Z) (s : string) : option Z :=
  match s with
  | String "-" s' => option_map Z.opp (unsigned_lit base s')
  | String "+" s' => unsigned_lit base s'
  | _ => unsigned_lit base s
  end.

Definition strip_0x (s : string) : string :=
  if String.prefix "0x" s || String.prefix "0X" s then drop 2 s else s.

(** [int(s)] and [int(s, 16)]; a malformed literal raises [ValueError]. *)
Definition int (s : string) : res Z :=
  match signed_lit 10 s with
  | Some z => Ok z
  | None => Err ValueError
  end.

Definition int16 (s : string) : res Z :=
  let r := match s with
           | String "-" s' => option_map Z.opp (unsigned_lit 16 (strip_0x s'))
           | String "+" s' => unsigned_lit 16 (strip_0x s')
           | _ => unsigned_lit 16 (strip_0x s)
           end in
  match r with
  | Some z => Ok z
  | None => Err ValueError
  end.

(** ** Lists *)

(** [l[i]] with Python's negative indices. *)
Definition getitem {A} (l : list A) (i : Z) : res A :=
  let n := Z.of_nat (length l) in
  let j := if i <? 0 then i + n else i in
  if (0 <=? j) && (j <? n)
  then match nth_error l (Z.to_nat j) with
       | Some a => Ok a
       | None => Err IndexError
       end
  else Err IndexError.

(** [range(a, b)] over the integers. *)
Definition range (a b : Z) : list Z :=
  map (fun k => a + Z.of_nat k) (seq 0 (Z.to_nat (b - a))).

(** [int.from_bytes(bs, byteorder='little')] *)
Fixpoint from_bytes_little (bs : list Z) : Z :=
  match bs with
  | [] => 0
  | b :: bs' => b + 256 * from_bytes_little bs'
  end.

End Py.

#[global] Instance res_ret : MRet Py.res := @Py.Ok.
#[global] Instance res_bind : MBind Py.res := fun A B k m => Py.bind m k.

(* ===================================================================== *)
(** * The z3py fragment used by the emulators                             *)
(* ===================================================================== *)

Module Z3.

(** z3 is a library the emulators call; the part of it they use is
    modelled here.  Terms are first-order syntax trees over bit-vectors,
    Booleans and floating-point numbers.  Every term has a sort, read off
    its head symbol ([get_sort]).  [simplify] is modelled by the
    evaluation of operators applied to numerals; its result always has
    the value ([eval_simplify]) and the sort ([simplify_sort]) of its
    argument.  Rounding floating-point operators are kept symbolic; their
    meaning is a parameter of the semantics ([theory]). *)

Inductive sort :=
| BoolSort
| BitVecSort (w : N)
| FPSort (ebits sbits : N).

Definition sort_eqb (s t : sort) : bool :=
  match s, t with
  | BoolSort, BoolSort => true
  | BitVecSort w, BitVecSort w' => N.eqb w w'
  | FPSort e s, FPSort e' s' => N.eqb e e' && N.eqb s s'
  | _, _ => false
  end.

Definition Float32 : sort := FPSort 8 24.
Definition Float64 : sort := FPSort 11 53.

Inductive rounding := RNE | RTN | RTP | RTZ.

(** Floating-point numerals.  The FloatingPoint theory has a single NaN
    per sort; every other value is identified by its IEEE-754 bit pattern
    (sign, biased exponent, trailing significand). *)
Inductive fpnum :=
| FNaN
| FBits (bits : Z).

Inductive unop :=
| ONot
| OExtract (hi lo : N)
| OSignExt (n : N)
| OZeroExt (n : N)
| OfpNeg
| OfpAbs
| OfpSqrt (rm : rounding)
| OfpRoundToIntegral (rm : rounding)
| OfpToSBV (rm : rounding) (w : N)
| OfpToUBV (rm : rounding) (w : N)
| OfpFPToFP (rm : rounding) (ebits sbits : N)
| OfpSignedToFP (rm : rounding) (ebits sbits : N)
| OfpUnsignedToFP (rm : rounding) (ebits sbits : N)
| OfpToIEEEBV
| OfpBVToFP (ebits sbits : N).

Inductive binop :=
| OEq | ODistinct | OOr
| Obvadd | Obvsub | Obvmul | Obvsdiv | Obvudiv | Obvsrem | Obvurem | Obvsmod
| Obvand | Obvor | Obvxor | Obvashr | Obvlshr | Obvshl | Orotl | Orotr
| Obvsge | Obvslt
| OfpAdd (rm : rounding) | OfpSub (rm : rounding)
| OfpMul (rm : rounding) | OfpDiv (rm : rounding)
| OfpMin | OfpMax.

(** Terms.  [BitVecVal], [BoolVal] and [FPVal] are the numerals;
    [BitVec], [BoolSym] and [FP] are named constants of their sort. *)
Inductive expr :=
| BitVecVal (v : Z) (w : N)
| BitVec (name : string) (w : N)
| BoolVal (b : bool)
| BoolSym (name : string)
| FPVal (f : fpnum) (ebits sbits : N)
| FP (name : string) (ebits sbits : N)
| Un (op : unop) (a : expr)
| Bin (op : binop) (a b : expr).

(** z3py spellings. *)
Abbreviation Not := (Un ONot).
Abbreviation Or := (Bin OOr).
Abbreviation Extract hi lo := (Un (OExtract hi lo)).
Abbreviation SignExt n := (Un (OSignExt n)).
Abbreviation ZeroExt n := (Un (OZeroExt n)).
Abbreviation UDiv := (Bin Obvudiv).
Abbreviation URem := (Bin Obvurem).
Abbreviation SRem := (Bin Obvsrem).
Abbreviation LShR := (Bin Obvlshr).
Abbreviation RotateLeft := (Bin Orotl).
Abbreviation RotateRight := (Bin Orotr).
Abbreviation fpNeg := (Un OfpNeg).
Abbreviation fpAbs := (Un OfpAbs).
Abbreviation fpSqrt rm := (Un (OfpSqrt rm)).
Abbreviation fpRoundToIntegral rm := (Un (OfpRoundToIntegral rm)).
Abbreviation fpToIEEEBV := (Un OfpToIEEEBV).
Abbreviation fpAdd rm := (Bin (OfpAdd rm)).
Abbreviation fpSub rm := (Bin (OfpSub rm)).
Abbreviation fpMul rm := (Bin (OfpMul rm)).
Abbreviation fpDiv rm := (Bin (OfpDiv rm)).
Abbreviation fpMin := (Bin OfpMin).
Abbreviation fpMax := (Bin OfpMax).

(** [Or(l)] on a Python list: the n-ary disjunction is kept as a
    right-nested binary one ending in [False]. *)
Definition OrList (l : list expr) : expr := fold_right (Bin OOr) (BoolVal false) l.

(** ** Sorts of terms *)

Definition un_sort (op : unop) (s : sort) : sort :=
  match op with
  | ONot => BoolSort
  | OExtract hi lo => BitVecSort (hi - lo + 1)
  | OSignExt n | OZeroExt n =>
      match s with
      | BitVecSort w => BitVecSort (w + n)
      | _ => BitVecSort n
      end
  | OfpNeg | OfpAbs | OfpSqrt _ | OfpRoundToIntegral _ => s
  | OfpToSBV _ w | OfpToUBV _ w => BitVecSort w
  | OfpFPToFP _ e m | OfpSignedToFP _ e m | OfpUnsignedToFP _ e m
  | OfpBVToFP e m => FPSort e m
  | OfpToIEEEBV =>
      match s with
      | FPSort e m => BitVecSort (e + m)
      | _ => BitVecSort 0
      end
  end.

Definition bin_sort (op : binop) (s : sort) : sort :=
  match op with
  | OEq | ODistinct | OOr | Obvsge | Obvslt => BoolSort
  | _ => s
  end.

Fixpoint get_sort (e : expr) : sort :=
  match e with
  | BitVecVal _ w | BitVec _ w => BitVecSort w
  | BoolVal _ | BoolSym _ => BoolSort
  | FPVal _ e m | FP _ e m => FPSort e m
  | Un op a => un_sort op (get_sort a)
  | Bin op a _ => bin_sort op (get_sort a)
  end.

(** ** The z3py predicates and accessors the emulators call *)

Definition is_bool (e : expr) : bool :=
  match get_sort e with BoolSort => true | _ => false end.
Definition is_bv (e : expr) : bool :=
  match get_sort e with BitVecSort _ => true | _ => false end.
Definition is_fp (e : expr) : bool :=
  match get_sort e with FPSort _ _ => true | _ => false end.
Definition is_bv_value (e : expr) : bool :=
  match e with BitVecVal _ _ => true | _ => false end.
Definition is_true (e : expr) : bool :=
  match e with BoolVal true => true | _ => false end.
Definition is_false (e : expr) : bool :=
  match e with BoolVal false => true | _ => false end.

(** ** Bit-vector arithmetic *)

Definition wrap (w : N) (z : Z) : Z := z mod 2 ^ Z.of_N w.

Definition signed (w : N) (z : Z) : Z :=
  let u := wrap w z in
  if u <? 2 ^ (Z.of_N w - 1) then u else u - 2 ^ Z.of_N w.

Definition bv_udiv (w : N) (x y : Z) : Z :=
  if y =? 0 then 2 ^ Z.of_N w - 1 else x / y.
Definition bv_urem (x y : Z) : Z :=
  if y =? 0 then x else x mod y.
Definition bv_sdiv (w : N) (x y : Z) : Z :=
  if y =? 0 then (if signed w x <? 0 then 1 else 2 ^ Z.of_N w - 1)
  else Z.quot (signed w x) (signed w y).
Definition bv_srem (w : N) (x y : Z) : Z :=
  if y =? 0 then x else Z.rem (signed w x) (signed w y).
Definition bv_smod (w : N) (x y : Z) : Z :=
  if y =? 0 then x else (signed w x) mod (signed w y).
Definition bv_shl (w : N) (x y : Z) : Z :=
  if Z.of_N w <=? y then 0 else Z.shiftl x y.
Definition bv_lshr (w : N) (x y : Z) : Z :=
  if Z.of_N w <=? y then 0 else Z.shiftr x y.
Definition bv_ashr (w : N) (x y : Z) : Z :=
  Z.shiftr (signed w x) (Z.min y (Z.of_N w)).
Definition bv_rotl (w : N) (x y : Z) : Z :=
  let k := y mod Z.of_N w in
  Z.lor (Z.shiftl x k) (Z.shiftr x (Z.of_N w - k)).
Definition bv_rotr (w : N) (x y : Z) : Z :=
  let k := y mod Z.of_N w in
  Z.lor (Z.shiftr x k) (Z.shiftl x (Z.of_N w - k)).

(** ** Floating-point bit patterns *)

(** A pattern is a NaN when its exponent field is all ones and its
    trailing significand ([sbits - 1] bits) is not zero. *)
Definition is_nan_bits (e m : N) (z : Z) : bool :=
  let frac := 2 ^ (Z.of_N m - 1) in
  ((z / frac) mod 2 ^ Z.of_N e =? 2 ^ Z.of_N e - 1) && negb (z mod frac =? 0).

Definition fp_of_bits (e m : N) (z : Z) : fpnum :=
  let u := wrap (e + m) z in
  if is_nan_bits e m u then FNaN else FBits u.

Definition fnorm (e m : N) (f : fpnum) : fpnum :=
  match f with
  | FNaN => FNaN
  | FBits z => fp_of_bits e m z
  end.

Definition sign_bit (e m : N) (z : Z) : bool := Z.testbit z (Z.of_N (e + m) - 1).

Definition fp_neg (e m : N) (f : fpnum) : fpnum :=
  match f with
  | FNaN => FNaN
  | FBits z => fp_of_bits e m (Z.lxor z (2 ^ (Z.of_N (e + m) - 1)))
  end.

Definition fp_abs (e m : N) (f : fpnum) : fpnum :=
  match f with
  | FNaN => FNaN
  | FBits z => fp_of_bits e m (z mod 2 ^ (Z.of_N (e + m) - 1))
  end.

(** [FPNumRef.isPositive] / [isNegative]: NaN is neither. *)
Definition fp_isPositive (e m : N) (f : fpnum) : bool :=
  match f with
  | FNaN => false
  | FBits z => negb (sign_bit e m z)
  end.

Definition fp_isNegative (e m : N) (f : fpnum) : bool :=
  match f with
  | FNaN => false
  | FBits z => sign_bit e m z
  end.

(** ** Values *)

Inductive val :=
| VBool (b : bool)
| VBV (w : N) (z : Z)
| VFP (ebits sbits : N) (f : fpnum).

Definition val_sort (v : val) : sort :=
  match v with
  | VBool _ => BoolSort
  | VBV w _ => BitVecSort w
  | VFP e m _ => FPSort e m
  end.

Definition default (s : sort) : val :=
  match s with
  | BoolSort => VBool false
  | BitVecSort w => VBV w 0
  | FPSort e m => VFP e m FNaN
  end.

(** [cast s v]: [v] in canonical form when it has sort [s]. *)
Definition cast (s : sort) (v : val) : val :=
  match s, v with
  | BoolSort, VBool b => VBool b
  | BitVecSort w, VBV w' z => if N.eqb w w' then VBV w (wrap w z) else default s
  | FPSort e m, VFP e' m' f =>
      if N.eqb e e' && N.eqb m m' then VFP e m (fnorm e m f) else default s
  | _, _ => default s
  end.

Definition val_eqb (x y : val) : bool :=
  match x, y with
  | VBool a, VBool b => Bool.eqb a b
  | VBV w a, VBV w' b => N.eqb w w' && (a =? b)
  | VFP e m FNaN, VFP e' m' FNaN => N.eqb e e' && N.eqb m m'
  | VFP e m (FBits a), VFP e' m' (FBits b) => N.eqb e e' && N.eqb m m' && (a =? b)
  | _, _ => false
  end.

(** Operators whose result on values is determined without rounding.
    [fp.to_ieee_bv] of NaN is unspecified by the theory, hence [None]. *)
Definition compute_un (op : unop) (v : val) : option val :=
  match op, v with
  | ONot, VBool b => Some (VBool (negb b))
  | OExtract hi lo, VBV w z =>
      Some (VBV (hi - lo + 1) (wrap (hi - lo + 1) (Z.shiftr z (Z.of_N lo))))
  | OSignExt n, VBV w z => Some (VBV (w + n) (wrap (w + n) (signed w z)))
  | OZeroExt n, VBV w z => Some (VBV (w + n) (wrap w z))
  | OfpNeg, VFP e m f => Some (VFP e m (fp_neg e m f))
  | OfpAbs, VFP e m f => Some (VFP e m (fp_abs e m f))
  | OfpToIEEEBV, VFP e m (FBits z) => Some (VBV (e + m) z)
  | OfpBVToFP e m, VBV w z => Some (VFP e m (fp_of_bits e m z))
  | _, _ => None
  end.

Definition bv_bin (op : binop) (w : N) (x y : Z) : option val :=
  match op with
  | Obvadd => Some (VBV w (x + y))
  | Obvsub => Some (VBV w (x - y))
  | Obvmul => Some (VBV w (x * y))
  | Obvsdiv => Some (VBV w (bv_sdiv w x y))
  | Obvudiv => Some (VBV w (bv_udiv w x y))
  | Obvsrem => Some (VBV w (bv_srem w x y))
  | Obvurem => Some (VBV w (bv_urem x y))
  | Obvsmod => Some (VBV w (bv_smod w x y))
  | Obvand => Some (VBV w (Z.land x y))
  | Obvor => Some (VBV w (Z.lor x y))
  | Obvxor => Some (VBV w (Z.lxor x y))
  | Obvashr => Some (VBV w (bv_ashr w x y))
  | Obvlshr => Some (VBV w (bv_lshr w x y))
  | Obvshl => Some (VBV w (bv_shl w x y))
  | Orotl => Some (VBV w (bv_rotl w x y))
  | Orotr => Some (VBV w (bv_rotr w x y))
  | Obvsge => Some (VBool (signed w y <=? signed w x))
  | Obvslt => Some (VBool (signed w x <? signed w y))
  | _ => None
  end.

Definition compute_bin (op : binop) (x y : val) : option val :=
  match op with
  | OEq => if sort_eqb (val_sort x) (val_sort y) then Some (VBool (val_eqb x y)) else None
  | ODistinct =>
      if sort_eqb (val_sort x) (val_sort y) then Some (VBool (negb (val_eqb x y))) else None
  | OOr =>
      match x, y with
      | VBool a, VBool b => Some (VBool (a || b))
      | _, _ => None
      end
  | _ =>
      match x, y with
      | VBV w a, VBV w' b => if N.eqb w w' then bv_bin op w a b else None
      | _, _ => None
      end
  end.

(** ** Ground folding: the model of [z3.simplify] *)

Definition as_val (e : expr) : option val :=
  match e with
  | BitVecVal v w => Some (VBV w (wrap w v))
  | BoolVal b => Some (VBool b)
  | FPVal f e m => Some (VFP e m (fnorm e m f))
  | _ => None
  end.

Definition of_val (v : val) : expr :=
  match v with
  | VBool b => BoolVal b
  | VBV w z => BitVecVal z w
  | VFP e m f => FPVal f e m
  end.

Definition fold_un (op : unop) (a : expr) : expr :=
  match as_val a with
  | Some v =>
      match compute_un op v with
      | Some r => of_val (cast (un_sort op (get_sort a)) r)
      | None => Un op a
      end
  | None => Un op a
  end.

(** A disjunction absorbs [True] and drops [False]. *)
Definition fold_or (a b : expr) : expr :=
  if is_true a && is_bool b then BoolVal true
  else if is_true b && is_bool a then BoolVal true
  else if is_false a && is_bool b then b
  else if is_false b && is_bool a then a
  else Bin OOr a b.

Definition fold_bin (op : binop) (a b : expr) : expr :=
  match as_val a, as_val b with
  | Some x, Some y =>
      match compute_bin op x y with
      | Some r => of_val (cast (bin_sort op (get_sort a)) r)
      | None => Bin op a b
      end
  | _, _ =>
      match op with
      | OOr => fold_or a b
      | _ => Bin op a b
      end
  end.

(** [simplify]: numerals are put in canonical form, an operator applied
    to numerals is replaced by its value when that value is determined
    without rounding, and a disjunction absorbs [True] and drops [False].
    Everything else is rebuilt unchanged. *)
Fixpoint simplify (e : expr) : expr :=
  match e with
  | BitVecVal v w => BitVecVal (wrap w v) w
  | FPVal f e m => FPVal (fnorm e m f) e m
  | Un op a => fold_un op (simplify a)
  | Bin op a b => fold_bin op (simplify a) (simplify b)
  | _ => e
  end.

(** ** Semantics *)

(** The operators that involve rounding are interpreted by an arbitrary
    but fixed floating-point algebra; [th_decimal] reads a decimal
    literal into a numeral of the given sort (or rejects it). *)
Record theory := {
  th_un : unop -> val -> val;
  th_bin : binop -> val -> val -> val;
  th_decimal : string -> N -> N -> option fpnum
}.

Record valuation := {
  bv_of : string -> N -> Z;
  bool_of : string -> bool;
  fp_of : string -> N -> N -> fpnum
}.

Section Semantics.
Variable T : theory.
Variable rho : valuation.

Definition apply_un (op : unop) (v : val) : val :=
  match compute_un op v with
  | Some r => r
  | None => th_un T op v
  end.

Definition apply_bin (op : binop) (x y : val) : val :=
  match compute_bin op x y with
  | Some r => r
  | None => th_bin T op x y
  end.

Fixpoint eval (e : expr) : val :=
  match e with
  | BitVecVal v w => VBV w (wrap w v)
  | BitVec x w => VBV w (wrap w (bv_of rho x w))
  | BoolVal b => VBool b
  | BoolSym x => VBool (bool_of rho x)
  | FPVal f e m => VFP e m (fnorm e m f)
  | FP x e m => VFP e m (fnorm e m (fp_of rho x e m))
  | Un op a => cast (un_sort op (get_sort a)) (apply_un op (eval a))
  | Bin op a b => cast (bin_sort op (get_sort a)) (apply_bin op (eval a) (eval b))
  end.

(** [rho] satisfies the Boolean term [e]. *)
Definition holds (e : expr) : Prop := eval e = VBool true.

Definition holdsb (e : expr) : bool :=
  match eval e with VBool true => true | _ => false end.

End Semantics.

(** ** Solvers *)

(** A [Solver] object is the sequence of its assertions; [s.add(e)]
    appends. *)
Definition solver := list expr.
Definition add (s : solver) (e : expr) : solver := (s ++ [e])%list.

Definition models (T : theory) (rho : valuation) (s : solver) : Prop :=
  Forall (holds T rho) s.

Inductive CheckSatResult := sat | unsat | unknown.

Definition is_unsat (r : CheckSatResult) : bool :=
  match r with unsat => true | _ => false end.

End Z3.


(* ===================================================================== *)
(** * Execution states                                                    *)
(* ===================================================================== *)

Module VM.
Import Py Z3.

(** What a stack slot, a local or a global can hold: a z3 term, or one of
    the plain Python values the emulators test for. *)
Inductive pyval :=
| PyNone
| PyInt (z : Z)
| PyStr (s : string)
| PyExpr (e : expr).

(** [state.instr]: the block the instruction sits in and its cross
    references (truthy when not empty). *)
Record instr_info := {
  cur_bb : string;
  xref : list Z
}.

(** An element of [context_stack]:
    [(caller_func_name, return_block, saved_stack, saved_locals, has_return_value)]. *)
Record frame := {
  caller_func_name : string;
  return_block : string;
  saved_stack : list pyval;
  saved_locals : gmap Z pyval;
  require_return : bool
}.

(** The execution state.  [symbolic_stack] and [context_stack] are Python
    lists used as stacks ([append] / [pop]); here the head of the list is
    the top, i.e. the last element of the Python list. *)
Record State := {
  symbolic_stack : list pyval;
  local_var : gmap Z pyval;
  globals : gmap Z pyval;
  solver : Z3.solver;
  context_stack : list frame;
  current_func_name : string;
  current_bb_name : string;
  edge_type : string;
  instr : instr_info;
  call_indirect_callee : string
}.

Definition set_symbolic_stack (s : list pyval) (st : State) : State :=
  {| symbolic_stack := s; local_var := local_var st; globals := globals st;
     solver := solver st; context_stack := context_stack st;
     current_func_name := current_func_name st;
     current_bb_name := current_bb_name st; edge_type := edge_type st;
     instr := instr st; call_indirect_callee := call_indirect_callee st |}.

Definition set_local_var (l : gmap Z pyval) (st : State) : State :=
  {| symbolic_stack := symbolic_stack st; local_var := l; globals := globals st;
     solver := solver st; context_stack := context_stack st;
     current_func_name := current_func_name st;
     current_bb_name := current_bb_name st; edge_type := edge_type st;
     instr := instr st; call_indirect_callee := call_indirect_callee st |}.

Definition set_globals (g : gmap Z pyval) (st : State) : State :=
  {| symbolic_stack := symbolic_stack st; local_var := local_var st; globals := g;
     solver := solver st; context_stack := context_stack st;
     current_func_name := current_func_name st;
     current_bb_name := current_bb_name st; edge_type := edge_type st;
     instr := instr st; call_indirect_callee := call_indirect_callee st |}.

Definition set_solver (s : Z3.solver) (st : State) : State :=
  {| symbolic_stack := symbolic_stack st; local_var := local_var st;
     globals := globals st; solver := s; context_stack := context_stack st;
     current_func_name := current_func_name st;
     current_bb_name := current_bb_name st; edge_type := edge_type st;
     instr := instr st; call_indirect_callee := call_indirect_callee st |}.

Definition set_context_stack (c : list frame) (st : State) : State :=
  {| symbolic_stack := symbolic_stack st; local_var := local_var st;
     globals := globals st; solver := solver st; context_stack := c;
     current_func_name := current_func_name st;
     current_bb_name := current_bb_name st; edge_type := edge_type st;
     instr := instr st; call_indirect_callee := call_indirect_callee st |}.

Definition set_current_func_name (n : string) (st : State) : State :=
  {| symbolic_stack := symbolic_stack st; local_var := local_var st;
     globals := globals st; solver := solver st; context_stack := context_stack st;
     current_func_name := n;
     current_bb_name := current_bb_name st; edge_type := edge_type st;
     instr := instr st; call_indirect_callee := call_indirect_callee st |}.

Definition set_current_bb_name (n : string) (st : State) : State :=
  {| symbolic_stack := symbolic_stack st; local_var := local_var st;
     globals := globals st; solver := solver st; context_stack := context_stack st;
     current_func_name := current_func_name st;
     current_bb_name := n; edge_type := edge_type st;
     instr := instr st; call_indirect_callee := call_indirect_callee st |}.

Definition set_edge_type (t : string) (st : State) : State :=
  {| symbolic_stack := symbolic_stack st; local_var := local_var st;
     globals := globals st; solver := solver st; context_stack := context_stack st;
     current_func_name := current_func_name st;
     current_bb_name := current_bb_name st; edge_type := t;
     instr := instr st; call_indirect_callee := call_indirect_callee st |}.

Definition set_call_indirect_callee (n : string) (st : State) : State :=
  {| symbolic_stack := symbolic_stack st; local_var := local_var st;
     globals := globals st; solver := solver st; context_stack := context_stack st;
     current_func_name := current_func_name st;
     current_bb_name := current_bb_name st; edge_type := edge_type st;
     instr := instr st; call_indirect_callee := n |}.

(** [state.solver.add(e)] *)
Definition solver_add (e : expr) (st : State) : State :=
  set_solver (Z3.add (solver st) e) st.

(** [state.symbolic_stack.pop()] *)
Definition pop (st : State) : res (pyval * State) :=
  match symbolic_stack st with
  | [] => Err IndexError
  | v :: s => Ok (v, set_symbolic_stack s st)
  end.

(** [state.symbolic_stack.append(v)] *)
Definition push (v : pyval) (st : State) : State :=
  set_symbolic_stack (v :: symbolic_stack st) st.

(** [[state.symbolic_stack.pop() for _ in range(n)]] *)
Fixpoint popn (n : nat) (st : State) : res (list pyval * State) :=
  match n with
  | O => Ok ([], st)
  | S n' =>
      '(v, st1) ← pop st;
      '(vs, st2) ← popn n' st1;
      Ok (v :: vs, st2)
  end.

(** What a call to [emulate] produces: the returned list of states, the
    value [None] when the function body ends without [return], or an
    exception. *)
Inductive outcome :=
| Returns (states : list State)
| ReturnsNone
| Raises (e : exn).

Definition run (r : res outcome) : outcome :=
  match r with
  | Ok o => o
  | Err e => Raises e
  end.

(** [o] hands back at most [n] states (nothing is said when it raises or
    returns [None]). *)
Definition at_most (n : nat) (o : outcome) : Prop :=
  match o with
  | Returns l => (length l <= n)%nat
  | _ => True
  end.

(** The states handed back (none when the call raised). *)
Definition successors (o : outcome) : list State :=
  match o with
  | Returns l => l
  | _ => []
  end.

(** Feeding the single successor of one instruction to the next one. *)
Definition and_then (o : outcome) (k : State -> outcome) : outcome :=
  match o with
  | Returns [st] => k st
  | _ => o
  end.

(** ** z3py calls on arbitrary Python values *)

Definition is_bv (v : pyval) : bool :=
  match v with PyExpr e => Z3.is_bv e | _ => false end.
Definition is_bool (v : pyval) : bool :=
  match v with PyExpr e => Z3.is_bool e | _ => false end.
Definition is_bv_value (v : pyval) : bool :=
  match v with PyExpr e => Z3.is_bv_value e | _ => false end.

(** [v.size()] exists on bit-vector terms only. *)
Definition size (v : pyval) : res N :=
  match v with
  | PyExpr e => match get_sort e with BitVecSort w => Ok w | _ => Err AttributeError end
  | _ => Err AttributeError
  end.

(** [v.ebits()], [v.sbits()] exist on floating-point terms only. *)
Definition ebits (v : pyval) : res N :=
  match v with
  | PyExpr e => match get_sort e with FPSort eb _ => Ok eb | _ => Err AttributeError end
  | _ => Err AttributeError
  end.

Definition sbits (v : pyval) : res N :=
  match v with
  | PyExpr e => match get_sort e with FPSort _ sb => Ok sb | _ => Err AttributeError end
  | _ => Err AttributeError
  end.

(** [v.isPositive()] is a method of floating-point numerals ([FPNumRef])
    only. *)
Definition isPositive (v : pyval) : res bool :=
  match v with
  | PyExpr (FPVal f e m) => Ok (fp_isPositive e m (fnorm e m f))
  | _ => Err AttributeError
  end.

(** The term behind a value known to be a z3 expression. *)
Definition the_expr (v : pyval) : res expr :=
  match v with
  | PyExpr e => Ok e
  | _ => Err AttributeError
  end.

(** A Python integer coerced to the bit-vector sort of its z3 partner. *)
Definition bv (i : Z) (w : N) : expr := BitVecVal (wrap w i) w.

(** [a == i], [a != i], [a >= i], [a < i] for a bit-vector term [a] and a
    Python integer [i]. *)
Definition eq_int (a : expr) (w : N) (i : Z) : expr := Bin OEq a (bv i w).
Definition ne_int (a : expr) (w : N) (i : Z) : expr := Bin ODistinct a (bv i w).
Definition ge_int (a : expr) (w : N) (i : Z) : expr := Bin Obvsge a (bv i w).
Definition lt_int (a : expr) (w : N) (i : Z) : expr := Bin Obvslt a (bv i w).

(** [d[k]] on the mappings [state.local_var] and [state.globals].  Their
    class is declared outside these files: a dict, with or without a
    default factory ([collections.defaultdict]).  [default] is [Some v]
    when a missing key is answered with [v], which is then stored under
    the key, and [None] when a missing key raises [KeyError]. *)
Definition subscript (default : option pyval) (d : gmap Z pyval) (k : Z)
    : res (pyval * gmap Z pyval) :=
  match d !! k with
  | Some v => Ok (v, d)
  | None =>
      match default with
      | Some v => Ok (v, <[k := v]> d)
      | None => Err KeyError
      end
  end.

(** [BitVecVal(s, w)] for a string [s]: z3 reads a decimal numeral. *)
Definition BitVecVal_of_str (s : string) (w : N) : res expr :=
  match signed_lit 10 s with
  | Some z => Ok (bv z w)
  | None => Err Z3Exception
  end.

(** An instruction object as the emulator classes are constructed:
    [(instr_name, instr_operand, instr_string)].  The operand is a byte
    string (or, for [br_table], the sequence of its integer operands).
    Where an emulator assigns to [self.instr_operand] (the stripped marker
    of the variable instructions, the callee offset of [call]) the new
    value is local to the call. *)
Record Instruction := {
  instr_name : string;
  instr_operand : list Z;
  instr_string : string
}.

(** [x in l] for a list of strings. *)
Definition in_list (x : string) (l : list string) : bool :=
  existsb (String.eqb x) l.

End VM.


(* ===================================================================== *)
(** * ParametricInstructions.py                                           *)
(* ===================================================================== *)

Module ParametricInstructions.
Import Py Z3 VM.

Section Emulate.
(** [seewasm.arch.wasm.utils.one_time_query_cache(solver, con)]: the
    (memoised) satisfiability check of the solver's assertions together
    with [con]. *)
Variable one_time_query_cache : Z3.solver -> expr -> CheckSatResult.

Definition emulate (i : Instruction) (st : State) : outcome :=
  if String.eqb (instr_name i) "drop" then
    run ('(_, st) ← pop st; Ok (Returns [st]))
  else if String.eqb (instr_name i) "select" then
    run (
      '(arg0, st) ← pop st;
      '(arg1, st) ← pop st;
      '(arg2, st) ← pop st;
      Py.assert (is_bv arg0 || is_bool arg0) "in select, arg0 type is not bv or bool";;
      op ← (if is_bv arg0
            then a ← the_expr arg0; w ← size arg0; Ok (simplify (eq_int a w 0))
            else Err (UnboundLocalError "op"));
      if is_true op then Ok (Returns [push arg1 st])
      else if is_false op then Ok (Returns [push arg2 st])
      else if negb (is_true op) && negb (is_false op) then
        let no_need_true := is_unsat (one_time_query_cache (solver st) op) in
        let no_need_false := is_unsat (one_time_query_cache (solver st) (Not op)) in
        if no_need_true && no_need_false then Ok ReturnsNone
        else if negb no_need_true && negb no_need_false then
          let new_state := st in
          Ok (Returns [push arg1 (solver_add op st);
                       push arg2 (solver_add (Not op) new_state)])
        else if no_need_true then Ok (Returns [push arg2 (solver_add (Not op) st)])
        else Ok (Returns [push arg1 (solver_add op st)])
      else Err (SystemExit "select instruction error"))
  else Raises UnsupportInstructionError.

End Emulate.
End ParametricInstructions.

(* ===================================================================== *)
(** * VariableInstructions.py                                             *)
(* ===================================================================== *)

Module VariableInstructions.
Import Py Z3 VM.

(** [operand.startswith(b'\x80\x80\x80\x80')] on a byte string. *)
Definition has_marker (bs : list Z) : bool :=
  match bs with
  | 128 :: 128 :: 128 :: 128 :: _ => true
  | _ => false
  end.

(** The operand with the four marker bytes stripped when present. *)
Definition strip_marker (bs : list Z) : list Z :=
  if has_marker bs then skipn 4 bs else bs.

(** [d.get(k, None) is not None] *)
Definition get_is_not_None (d : gmap Z pyval) (k : Z) : bool :=
  match d !! k with
  | Some PyNone | None => false
  | Some _ => true
  end.

Section Emulate.
(** What [state.local_var] and [state.globals] answer for a missing key
    (see [VM.subscript]). *)
Variable local_default : option pyval.
Variable global_default : option pyval.

Definition emulate (i : Instruction) (st : State) : outcome :=
  let operand := strip_marker (instr_operand i) in
  let op := from_bytes_little operand in
  let name := instr_name i in
  if String.eqb name "get_local" then
    if get_is_not_None (local_var st) op
    then run ('(v, l) ← subscript local_default (local_var st) op;
              Ok (Returns [push v (set_local_var l st)]))
    else run ('(v, l) ← subscript local_default (local_var st) op;
              Ok (Returns [push v (set_local_var l st)]))
  else if String.eqb name "set_local" then
    run ('(var, st) ← pop st;
         Ok (Returns [set_local_var (<[op := var]> (local_var st)) st]))
  else if String.eqb name "get_global" then
    run ('(global_operand, g) ← subscript global_default (globals st) op;
         let st := set_globals g st in
         match global_operand with
         | PyStr s => e ← BitVecVal_of_str s 32; Ok (Returns [push (PyExpr e) st])
         | PyInt z => Ok (Returns [push (PyExpr (bv z 32)) st])
         | _ =>
             if is_bv global_operand || is_bv_value global_operand
             then Ok (Returns [push global_operand st])
             else Err UnsupportGlobalTypeError
         end)
  else if String.eqb name "set_global" then
    run ('(global_operand, st) ← pop st;
         Ok (Returns [set_globals (<[op := global_operand]> (globals st)) st]))
  else if String.eqb name "tee_local" then
    match symbolic_stack st with
    | [] => Raises IndexError
    | var :: _ => Returns [set_local_var (<[op := var]> (local_var st)) st]
    end
  else Raises UnsupportInstructionError.

End Emulate.
End VariableInstructions.

(* ===================================================================== *)
(** * ArithmeticInstructions.py                                           *)
(* ===================================================================== *)

Module ArithmeticInstructions.
Import Py Z3 VM.

(** An entry of [helper_map]: a bit width, or an [[ebits, sbits]] pair. *)
Inductive helper_entry :=
| HInt (w : N)
| HList (eb sb : N).

Definition helper_map (instr_type : string) : res helper_entry :=
  if String.eqb instr_type "i32" then Ok (HInt 32)
  else if String.eqb instr_type "i64" then Ok (HInt 64)
  else if String.eqb instr_type "f32" then Ok (HList 8 24)
  else if String.eqb instr_type "f64" then Ok (HList 11 53)
  else Err KeyError.

(** [helper_map[instr_type]] used as a bit width. *)
Definition helper_width (instr_type : string) : res N :=
  h ← helper_map instr_type;
  match h with
  | HInt w => Ok w
  | HList _ _ => Err TypeError
  end.

(** [helper_map[instr_type][0]], [helper_map[instr_type][1]] *)
Definition helper_shape (instr_type : string) : res (N * N) :=
  h ← helper_map instr_type;
  match h with
  | HList eb sb => Ok (eb, sb)
  | HInt _ => Err TypeError
  end.

Section Emulate.
(** [str(e)] of a z3 term (z3's pretty printer). *)
Variable expr_str : expr -> string.

(** [if is_bool(arg): arg = BitVec(str(arg), helper_map[instr_type])] *)
Definition coerce_bool (instr_type : string) (arg : pyval) : res pyval :=
  if is_bool arg
  then a ← the_expr arg; w ← helper_width instr_type; Ok (PyExpr (BitVec (expr_str a) w))
  else Ok arg.

(** [assert arg.size() == helper_map[instr_type]] *)
Definition check_size (instr_type : string) (arg : pyval) (msg : string) : res unit :=
  n ← size arg;
  w ← helper_width instr_type;
  Py.assert (N.eqb n w) msg.

Definition do_emulate_arithmetic_int_instruction (i : Instruction) (st : State) : outcome :=
  let name := instr_name i in
  let instr_type := take 3 name in
  if contains ".clz" name || contains ".ctz" name then
    run ('(_, st) ← pop st;
         w ← helper_width instr_type;
         Ok (Returns [push (PyExpr (bv (Z.of_N w) w)) st]))
  else if contains ".popcnt" name then
    run ('(_, st) ← pop st;
         w ← helper_width instr_type;
         Ok (Returns [push (PyExpr (bv 0 w)) st]))
  else
    run ('(arg1, st) ← pop st;
         '(arg2, st) ← pop st;
         arg1 ← coerce_bool instr_type arg1;
         arg2 ← coerce_bool instr_type arg2;
         check_size instr_type arg1 "in arithmetic instruction, arg1 size mismatch";;
         check_size instr_type arg2 "in arithmetic instruction, arg2 size mismatch";;
         a1 ← the_expr arg1;
         a2 ← the_expr arg2;
         result ← (if contains ".sub" name then Ok (Bin Obvsub a2 a1)
                   else if contains ".add" name then Ok (Bin Obvadd a2 a1)
                   else if contains ".mul" name then Ok (Bin Obvmul a2 a1)
                   else if contains ".div_s" name then Ok (Bin Obvsdiv a2 a1)
                   else if contains ".div_u" name then Ok (UDiv a2 a1)
                   else if contains ".rem_s" name then Ok (SRem a2 a1)
                   else if contains ".rem_u" name then Ok (URem a2 a1)
                   else Err UnsupportInstructionError);
         Ok (Returns [push (PyExpr (simplify result)) st])).

(** [assert arg.ebits() == helper_map[t][0] and arg.sbits() == helper_map[t][1]] *)
Definition check_shape (instr_type : string) (arg : pyval) (msg : string) : res unit :=
  eb ← ebits arg;
  '(heb, hsb) ← helper_shape instr_type;
  if N.eqb eb heb
  then sb ← sbits arg; Py.assert (N.eqb sb hsb) msg
  else Py.assert false msg.

Definition do_emulate_arithmetic_float_instruction (i : Instruction) (st : State) : outcome :=
  let rm := RNE in
  let name := instr_name i in
  let instr_type := take 3 name in
  let two_arguments_instrs :=
    map (fun s => instr_type +:+ "." +:+ s)
        ["add"; "sub"; "mul"; "div"; "min"; "max"; "copysign"] in
  let one_argument_instrs :=
    map (fun s => instr_type +:+ "." +:+ s)
        ["sqrt"; "floor"; "ceil"; "trunc"; "nearest"; "abs"; "neg"] in
  if in_list name two_arguments_instrs then
    run ('(arg1, st) ← pop st;
         '(arg2, st) ← pop st;
         check_shape instr_type arg1
           "In do_emulate_arithmetic_float_instruction, arg1 type mismatch";;
         check_shape instr_type arg2
           "In do_emulate_arithmetic_float_instruction, arg2 type mismatch";;
         a1 ← the_expr arg1;
         a2 ← the_expr arg2;
         result ← (if contains ".add" name then Ok (fpAdd rm a2 a1)
                   else if contains ".sub" name then Ok (fpSub rm a2 a1)
                   else if contains ".mul" name then Ok (fpMul rm a2 a1)
                   else if contains ".div" name then Ok (fpDiv rm a2 a1)
                   else if contains ".min" name then Ok (fpMin a2 a1)
                   else if contains ".max" name then Ok (fpMax a2 a1)
                   else if contains ".copysign" name && String.eqb name "f32.copysign" then
                     p2 ← isPositive arg2;
                     p1 ← isPositive arg1;
                     if xorb p2 p1 then Ok (fpNeg a1)
                     else Err (UnboundLocalError "result")
                   else Err (UnboundLocalError "result"));
         Ok (Returns [push (PyExpr (simplify result)) st]))
  else if in_list name one_argument_instrs then
    run ('(arg1, st) ← pop st;
         check_shape instr_type arg1
           "In do_emulate_arithmetic_float_instruction, arg1 type mismatch";;
         a1 ← the_expr arg1;
         result ← (if contains ".sqrt" name then Ok (fpSqrt rm a1)
                   else if contains ".floor" name then Ok (fpRoundToIntegral RTN a1)
                   else if contains ".ceil" name then Ok (fpRoundToIntegral RTP a1)
                   else if contains ".trunc" name then Ok (fpRoundToIntegral RTZ a1)
                   else if contains ".nearest" name then Ok (fpRoundToIntegral RNE a1)
                   else if contains ".abs" name then Ok (fpAbs a1)
                   else if contains ".neg" name then Ok (fpNeg a1)
                   else Err (UnboundLocalError "result"));
         Ok (Returns [push (PyExpr (simplify result)) st]))
  else Raises UnsupportInstructionError.

Definition emulate (i : Instruction) (st : State) : outcome :=
  let op_type := take 1 (instr_name i) in
  if String.eqb op_type "i"
  then do_emulate_arithmetic_int_instruction i st
  else do_emulate_arithmetic_float_instruction i st.

End Emulate.
End ArithmeticInstructions.

(* ===================================================================== *)
(** * BitwiseInstructions.py                                              *)
(* ===================================================================== *)

Module BitwiseInstructions.
Import Py Z3 VM.

Definition helper_map (instr_type : string) : res N :=
  if String.eqb instr_type "i32" then Ok 32%N
  else if String.eqb instr_type "i64" then Ok 64%N
  else Err KeyError.

Section Emulate.
Variable expr_str : expr -> string.

Definition coerce_bool (instr_type : string) (arg : pyval) : res pyval :=
  if is_bool arg
  then a ← the_expr arg; w ← helper_map instr_type; Ok (PyExpr (BitVec (expr_str a) w))
  else Ok arg.

Definition check_size (instr_type : string) (arg : pyval) (msg : string) : res unit :=
  n ← size arg;
  w ← helper_map instr_type;
  Py.assert (N.eqb n w) msg.

Definition emulate (i : Instruction) (st : State) : outcome :=
  let name := instr_name i in
  run ('(arg1, st) ← pop st;
       '(arg2, st) ← pop st;
       let instr_type := take 3 name in
       arg1 ← coerce_bool instr_type arg1;
       arg2 ← coerce_bool instr_type arg2;
       check_size instr_type arg1 "arg1 size mismatch in do_emulate_bitwise_instruction";;
       check_size instr_type arg2 "arg2 size mismatch in do_emulate_bitwise_instruction";;
       a1 ← the_expr arg1;
       a2 ← the_expr arg2;
       result ← (if contains ".and" name then Ok (simplify (Bin Obvand a1 a2))
                 else if contains ".or" name then Ok (simplify (Bin Obvor a1 a2))
                 else if contains ".xor" name then Ok (simplify (Bin Obvxor a1 a2))
                 else if contains ".shr_s" name then Ok (simplify (Bin Obvashr a2 a1))
                 else if contains ".shr_u" name then Ok (simplify (LShR a2 a1))
                 else if contains ".shl" name then Ok (simplify (Bin Obvshl a2 a1))
                 else if contains ".rotl" name then Ok (simplify (RotateLeft a2 a1))
                 else if contains ".rotr" name then Ok (simplify (RotateRight a2 a1))
                 else Err UnsupportInstructionError);
       let result :=
         if Z3.is_bool result then
           if is_true result then BitVecVal 1 32
           else if is_false result then BitVecVal 0 32
           else result
         else result in
       Py.assert (Z3.is_bv result || Z3.is_bool result)
         "in bitwise instruction, the value to be pushed is not BitVec or Bool";;
       Ok (Returns [push (PyExpr result) st])).

End Emulate.
End BitwiseInstructions.

(* ===================================================================== *)
(** * ConversionInstructions.py                                           *)
(* ===================================================================== *)

Module ConversionInstructions.
Import Py Z3 VM.

(** [assert arg0.size() == w, msg] *)
Definition assert_size (arg0 : pyval) (w : N) (msg : string) : res unit :=
  n ← size arg0;
  Py.assert (N.eqb n w) msg.

(** [assert arg0.ebits() == eb, msg] followed by
    [assert arg0.sbits() == sb, msg] *)
Definition assert_shape (arg0 : pyval) (eb sb : N) (msg : string) : res unit :=
  e ← ebits arg0;
  Py.assert (N.eqb e eb) msg;;
  m ← sbits arg0;
  Py.assert (N.eqb m sb) msg.

(** One branch of the dispatch: check the operand, build and simplify the
    term, check the shape of the result. *)
Definition from_bv (name : string) (arg0 : pyval) (w : N) (build : expr -> expr)
    (post : string -> pyval -> res unit) : res expr :=
  assert_size arg0 w (name +:+ " has wrong arg type");;
  a ← the_expr arg0;
  let result := simplify (build a) in
  post name (PyExpr result);;
  Ok result.

Definition from_fp (name : string) (arg0 : pyval) (eb sb : N) (build : expr -> expr)
    (post : string -> pyval -> res unit) : res expr :=
  assert_shape arg0 eb sb (name +:+ " has wrong arg type");;
  a ← the_expr arg0;
  let result := simplify (build a) in
  post name (PyExpr result);;
  Ok result.

Definition no_post (_ : string) (_ : pyval) : res unit := Ok tt.
Definition bv_post (w : N) (name : string) (r : pyval) : res unit :=
  assert_size r w (name +:+ " convert fail").
Definition fp_post (eb sb : N) (name : string) (r : pyval) : res unit :=
  assert_shape r eb sb (name +:+ " conversion fail").

Definition convert (name : string) (arg0 : pyval) : res expr :=
  if String.eqb name "i32.wrap/i64" then
    from_bv name arg0 64 (fun a => Extract 31 0 (Bin Obvsmod a (bv (2 ^ 32) 64))) no_post
  else if String.eqb name "i64.extend_s/i32" then
    from_bv name arg0 32 (fun a => SignExt 32 a) no_post
  else if String.eqb name "i64.extend_u/i32" then
    from_bv name arg0 32 (fun a => ZeroExt 32 a) no_post
  else if String.eqb name "i32.trunc_s/f32" then
    from_fp name arg0 8 24 (Un (OfpToSBV RTZ 32)) (bv_post 32)
  else if String.eqb name "i32.trunc_s/f64" then
    from_fp name arg0 11 53 (Un (OfpToSBV RTZ 32)) (bv_post 32)
  else if String.eqb name "i64.trunc_s/f32" then
    from_fp name arg0 8 24 (Un (OfpToSBV RTZ 64)) (bv_post 64)
  else if String.eqb name "i64.trunc_s/f64" then
    from_fp name arg0 11 53 (Un (OfpToSBV RTZ 64)) (bv_post 64)
  else if String.eqb name "i32.trunc_u/f32" then
    from_fp name arg0 8 24 (Un (OfpToUBV RTZ 32)) (bv_post 32)
  else if String.eqb name "i32.trunc_u/f64" then
    from_fp name arg0 11 53 (Un (OfpToUBV RTZ 32)) (bv_post 32)
  else if String.eqb name "i64.trunc_u/f32" then
    from_fp name arg0 8 24 (Un (OfpToUBV RTZ 64)) (bv_post 64)
  else if String.eqb name "i64.trunc_u/f64" then
    from_fp name arg0 11 53 (Un (OfpToUBV RTZ 64)) (bv_post 64)
  else if String.eqb name "f32.demote/f64" then
    from_fp name arg0 11 53 (Un (OfpFPToFP RNE 8 24)) (fp_post 8 24)
  else if String.eqb name "f64.promote/f32" then
    from_fp name arg0 8 24 (Un (OfpFPToFP RNE 11 53)) (fp_post 11 53)
  else if String.eqb name "f32.convert_s/i32" then
    from_bv name arg0 32 (Un (OfpSignedToFP RNE 8 24)) (fp_post 8 24)
  else if String.eqb name "f32.convert_s/i64" then
    from_bv name arg0 64 (Un (OfpSignedToFP RNE 8 24)) (fp_post 8 24)
  else if String.eqb name "f64.convert_s/i32" then
    from_bv name arg0 32 (Un (OfpSignedToFP RNE 11 53)) (fp_post 11 53)
  else if String.eqb name "f64.convert_s/i64" then
    from_bv name arg0 64 (Un (OfpSignedToFP RNE 11 53)) (fp_post 11 53)
  else if String.eqb name "f32.convert_u/i32" then
    from_bv name arg0 32 (Un (OfpUnsignedToFP RNE 8 24)) (fp_post 8 24)
  else if String.eqb name "f32.convert_u/i64" then
    from_bv name arg0 64 (Un (OfpUnsignedToFP RNE 8 24)) (fp_post 8 24)
  else if String.eqb name "f64.convert_u/i32" then
    from_bv name arg0 32 (Un (OfpUnsignedToFP RNE 11 53)) (fp_post 11 53)
  else if String.eqb name "f64.convert_u/i64" then
    from_bv name arg0 64 (Un (OfpUnsignedToFP RNE 11 53)) (fp_post 11 53)
  else if String.eqb name "i32.reinterpret/f32" then
    from_fp name arg0 8 24 (fun a => fpToIEEEBV a) (bv_post 32)
  else if String.eqb name "i64.reinterpret/f64" then
    from_fp name arg0 11 53 (fun a => fpToIEEEBV a) (bv_post 64)
  else if String.eqb name "f32.reinterpret/i32" then
    from_bv name arg0 32 (Un (OfpBVToFP 8 24)) (fp_post 8 24)
  else if String.eqb name "f64.reinterpret/i64" then
    from_bv name arg0 64 (Un (OfpBVToFP 11 53)) (fp_post 11 53)
  else if String.eqb name "i32.extend_s/i8" then
    from_bv name arg0 8 (fun a => SignExt 24 a) no_post
  else Err UnsupportInstructionError.

Definition emulate (i : Instruction) (st : State) : outcome :=
  run ('(arg0, st) ← pop st;
       result ← convert (instr_name i) arg0;
       Ok (Returns [push (PyExpr result) st])).

End ConversionInstructions.

(* ===================================================================== *)
(** * ConstantInstructions.py                                             *)
(* ===================================================================== *)

Module ConstantInstructions.
Import Py Z3 VM.

(** [re.search(';=([0-9.-]+);', s)] and its group 1. *)
Definition is_num_char (c : ascii) : bool :=
  let n := N_of_ascii c in
  ((48 <=? n) && (n <=? 57))%N || N.eqb n 46 || N.eqb n 45.

Fixpoint span_num (s : string) : string * string :=
  match s with
  | EmptyString => (EmptyString, EmptyString)
  | String c s' =>
      if is_num_char c
      then let '(r, rest) := span_num s' in (String c r, rest)
      else (EmptyString, s)
  end.

Definition match_here (s : string) : option string :=
  match s with
  | String ";" (String "=" r) =>
      match span_num r with
      | (String c g, String ";" _) => Some (String c g)
      | _ => None
      end
  | _ => None
  end.

Fixpoint re_search (s : string) : option string :=
  match match_here s with
  | Some g => Some g
  | None =>
      match s with
      | EmptyString => None
      | String _ s' => re_search s'
      end
  end.

(** [l[-1]] of a non-empty list of pieces. *)
Definition last_piece (l : list string) : string := List.last l EmptyString.

(** [unpack(fmt, bytes.fromhex(h))[0]] as the bit pattern read: [fromhex]
    wants an even number of hexadecimal digits, [unpack] exactly [nbytes]
    bytes. *)
Definition unpack_hex (nbytes : nat) (h : string) : res Z :=
  match digits 16 0 h with
  | None => Err ValueError
  | Some z =>
      if Nat.even (String.length h)
      then if Nat.eqb (String.length h) (2 * nbytes) then Ok z else Err StructError
      else Err ValueError
  end.

Section Emulate.
(** How z3 reads a decimal literal into a floating-point numeral. *)
Variable T : theory.

(** [FPVal(s, sort)] for a decimal string *)
Definition FPVal_of_str (s : string) (eb sb : N) : res expr :=
  match th_decimal T s eb sb with
  | Some f => Ok (FPVal (fnorm eb sb f) eb sb)
  | None => Err Z3Exception
  end.

Definition emulate (i : Instruction) (st : State) : outcome :=
  let pieces := split " " (instr_string i) in
  let mnemonic := hd EmptyString pieces in
  let const_num := last_piece pieces in
  match split "." mnemonic with
  | [const_type_prefix; _] =>
      if String.eqb const_type_prefix "i32" then
        run (e ← BitVecVal_of_str const_num 32; Ok (Returns [push (PyExpr e) st]))
      else if String.eqb const_type_prefix "i64" then
        run (e ← BitVecVal_of_str const_num 64; Ok (Returns [push (PyExpr e) st]))
      else if String.eqb const_type_prefix "f32" || String.eqb const_type_prefix "f64" then
        match re_search const_num with
        | Some float_num =>
            if String.eqb const_type_prefix "f32"
            then run (e ← FPVal_of_str float_num 8 24; Ok (Returns [push (PyExpr e) st]))
            else run (e ← FPVal_of_str float_num 11 53; Ok (Returns [push (PyExpr e) st]))
        | None =>
            if String.eqb (take 2 const_num) "0x" then
              let const_num := Py.drop 2 const_num in
              let current_const_num_length := String.length const_num in
              let need_zero :=
                if String.eqb const_type_prefix "f32"
                then (8 - current_const_num_length)%nat
                else (16 - current_const_num_length)%nat in
              let const_num := zeros need_zero +:+ const_num in
              if String.eqb const_type_prefix "f32"
              then run (z ← unpack_hex 4 const_num;
                        Ok (Returns [push (PyExpr (FPVal (fp_of_bits 8 24 z) 8 24)) st]))
              else run (z ← unpack_hex 8 const_num;
                        Ok (Returns [push (PyExpr (FPVal (fp_of_bits 11 53 z) 11 53)) st]))
            else Raises UnsupportInstructionError
        end
      else Raises UnsupportInstructionError
  | _ => Raises ValueError
  end.

End Emulate.
End ConstantInstructions.

(* ===================================================================== *)
(** * lib/utils.py                                                        *)
(* ===================================================================== *)

Module Utils.
Import Py Z3 VM.

(** [MODELED_FUNCS]: the modelled functions per source language.  In the
    ['go'] entry two adjacent string literals are not separated by a comma
    and therefore form one name. *)
Definition MODELED_FUNCS (lang : string) : res (list string) :=
  if String.eqb lang "c" then
    Ok ["__small_printf"; "abs"; "atof"; "atoi"; "exp"; "getchar";
        "iprintf"; "printf"; "putchar"; "puts"; "scanf"; "swap";
        "system"; "emscripten_resize_heap"; "fopen"; "vfprintf";
        "open"; "exit"; "setlocale"; "hard_locale"; "strstr"]
  else if String.eqb lang "go" then
    Ok ["fmt.Scanf"; "fmt.Printf"; "runtime.divideByZeroPanic"; "runtime.lookupPanic";
        "runtime.nilPanicruntime.slicePanic"; "runtime.sliceToArrayPointerPanic";
        "runtime.unsafeSlicePanic"; "runtime.chanMakePanic";
        "runtime.negativeShiftPanic"; "runtime.blockingPanic";
        "runtime.calculateHeapAddresses"; "memset"; "runtime.alloc"; "memcpy";
        "syscall/js.valueGet"; "runtime.putchar"]
  else if String.eqb lang "rust" then Ok []
  else if String.eqb lang "wasi" then
    Ok ["args_sizes_get"; "args_get"; "environ_sizes_get";
        "fd_advise"; "fd_fdstat_get"; "fd_tell"; "fd_seek";
        "fd_close"; "fd_read"; "fd_write"; "proc_exit";
        "fd_prestat_get"; "fd_prestat_dir_name"; "path_open"]
  else Err KeyError.

(** [is_modeled(func_name, specify_lang)]; [source_type] stands for
    [Configuration.get_source_type()]. *)
Definition is_modeled (source_type : string) (func_name : string)
    (specify_lang : option string) : res bool :=
  match specify_lang with
  | Some lang => l ← MODELED_FUNCS lang; Ok (in_list func_name l)
  | None =>
      w ← MODELED_FUNCS "wasi";
      if in_list func_name w then Ok true
      else l ← MODELED_FUNCS source_type; Ok (in_list func_name l)
  end.

(** [_extract_params(param_str, state)]: pop one value per declared
    parameter; bit-vector numerals are turned into Python integers. *)
Definition _extract_params (param_str : string) (st : State) : res (list pyval * State) :=
  let param_cnt := length (split " " param_str) in
  '(params, st) ← popn param_cnt st;
  Ok (map (fun v => match v with
                    | PyExpr (BitVecVal z w) => PyInt (wrap w z)
                    | _ => v
                    end) params, st).

End Utils.

(* ===================================================================== *)
(** * ControlInstructions.py                                              *)
(* ===================================================================== *)

Module ControlInstructions.
Import Py Z3 VM.

Definition TERMINATED_FUNCS : list string :=
  ["__assert_fail"; "runtime.divideByZeroPanic"].
Definition skip_command : list string := ["loop"; "end"; "br"; "else"; "block"].
Definition term_command : list string := ["unreachable"; "return"].

(** An entry of [analyzer.func_prototypes]:
    [(func_name, param_str, return_str, func_type)]. *)
Record prototype := {
  proto_name : string;
  proto_param_str : string;
  proto_return_str : string;
  proto_type : string
}.

(** The parts of the analyzer the emulator reads: the function prototypes
    and the ['offset'] of each element segment. *)
Record Analyzer := {
  func_prototypes : list prototype;
  elements : list Z
}.

(** The parts of [Configuration] the emulator reads. *)
Record Configuration := {
  get_dsl_flag : bool;
  get_source_type : string;
  get_elem_index_to_func : gmap Z string
}.

(** The truth value of a string: empty is false. *)
Definition truthy (s : string) : bool :=
  match s with EmptyString => false | _ => true end.

(** [for x in range(num_arg): state.local_var[num_arg - 1 - x] = arg[x]] *)
Definition assign_args (num_arg : Z) (arg : list pyval) (l : gmap Z pyval) : gmap Z pyval :=
  fold_left (fun m '(x, a) => <[num_arg - 1 - x := a]> m)
            (combine (range 0 num_arg) arg) l.

(** [for x in range(num_arg, len(state.local_var)): state.local_var.pop(x)],
    a missing key being skipped.  The bound is the number of entries
    of the map when the loop starts. *)
Definition clear_locals (num_arg : Z) (l : gmap Z pyval) : gmap Z pyval :=
  fold_left (fun m x => delete x m) (range num_arg (Z.of_nat (base.size l))) l.

(** [num_arg]: zero for an empty [param_str], else the number of pieces
    [param_str.split(' ')] has. *)
Definition num_params (param_str : string) : nat :=
  if truthy param_str then length (split " " param_str) else O.

Definition store_context (param_str return_str : string) (st : State)
    (callee_func_name : string) : res State :=
  '(num_arg, arg, st) ←
     (if truthy param_str
      then let num_arg := length (split " " param_str) in
           '(arg, st) ← popn num_arg st;
           Ok (Z.of_nat num_arg, arg, st)
      else Ok (0, [], st));
  let st := set_context_stack
              ({| caller_func_name := current_func_name st;
                  return_block := cur_bb (instr st);
                  saved_stack := symbolic_stack st;
                  saved_locals := local_var st;
                  require_return := truthy return_str |} :: context_stack st) st in
  let st := set_local_var (assign_args num_arg arg (local_var st)) st in
  let st := set_local_var (clear_locals num_arg (local_var st)) st in
  Ok (set_current_func_name callee_func_name st).

Definition restore_context (st : State) : res State :=
  match context_stack st with
  | [] => Err (ProcSuccessTermination 0)
  | f :: rest =>
      let st := set_context_stack rest st in
      '(return_val, st) ←
         (if require_return f
          then '(v, st) ← pop st; Ok (Some v, st)
          else Ok (None, st));
      let st := set_current_func_name (caller_func_name f) st in
      let st := set_current_bb_name (return_block f) st in
      let st := set_symbolic_stack (saved_stack f) st in
      let st := set_local_var (saved_locals f) st in
      Ok (match return_val with
          | Some v => push v st
          | None => st
          end)
  end.

(** [target_branch2index]: the indices of [br_lis] grouped by target, in
    the order the targets first occur. *)
Fixpoint group_add (target index : Z) (g : list (Z * list Z)) : list (Z * list Z) :=
  match g with
  | [] => [(target, [index])]
  | (t, l) :: g' =>
      if t =? target then (t, (l ++ [index])%list) :: g'
      else (t, l) :: group_add target index g'
  end.

Definition target_branch2index (br_lis : list Z) : list (Z * list Z) :=
  fold_left (fun g '(index, target) => group_add target index g)
            (combine (range 0 (Z.of_nat (length br_lis))) br_lis) [].

(** [ops[1:-1]] *)
Definition inner (ops : list Z) : list Z := removelast (tl ops).

(** Index of the first prototype whose readable name is [callee]. *)
Fixpoint find_callee (readable : string -> string) (callee : string)
    (ps : list prototype) (func_offset : Z) : option Z :=
  match ps with
  | [] => None
  | item :: ps' =>
      if String.eqb callee (readable (proto_name item)) then Some func_offset
      else find_callee readable callee ps' (func_offset + 1)
  end.

(** The callee offset of a [call]: the second word of the instruction
    text, read as a decimal and, should that fail, as a hexadecimal
    number. *)
Definition call_offset (instr_string : string) : res Z :=
  instr_operand ← getitem (split " " instr_string) 1;
  match Py.int instr_operand with
  | Ok z => Ok z
  | Err _ => Py.int16 instr_operand
  end.

(** [is_modeled(name, specify_lang=lang)] as a truth value. *)
Definition modeled_in (lang name : string) : bool :=
  match Utils.is_modeled lang name (Some lang) with
  | Ok b => b
  | Err _ => false
  end.

(** The callees [deal_with_call] treats as ordinary internal functions:
    the ones none of the earlier dispatch cases claims. *)
Definition is_ordinary_internal (cfg : Configuration) (name : string) : bool :=
  negb (get_dsl_flag cfg && startswith "checker" name)
  && negb (String.eqb (get_source_type cfg) "c" && modeled_in "c" name)
  && negb (String.eqb (get_source_type cfg) "go" && modeled_in "go" name)
  && negb (String.eqb (get_source_type cfg) "rust" && modeled_in "rust" name)
  && negb (modeled_in "wasi" name)
  && negb (in_list name TERMINATED_FUNCS).

Section Emulate.
(** Collaborators that live outside these files. *)
Variable cfg : Configuration.
(** [readable_internal_func_name(Configuration.get_func_index_to_func_name(), name)] *)
Variable readable_internal_func_name : string -> string.
(** [one_time_query_cache(solver, con)] *)
Variable one_time_query_cache : Z3.solver -> expr -> CheckSatResult.
(** The library models: [Model(name, state.current_func_name).emul(state,
    param_str, return_str, ...)], given the readable callee name, the
    state and the two signature strings. *)
Variable CPredefinedFunction_emul : string -> State -> string -> string -> outcome.
Variable GoPredefinedFunction_emul : string -> State -> string -> string -> outcome.
Variable WASIImportFunction_emul : string -> State -> string -> string -> outcome.
(** The exit code [ASSERT_FAIL] of [seewasm.arch.wasm.exceptions]. *)
Variable ASSERT_FAIL : Z.

Definition deal_with_call (st : State) (f_offset : Z) (analyzer : Analyzer) : outcome :=
  run (
    target_func ← getitem (func_prototypes analyzer) f_offset;
    let callee_func_name := proto_name target_func in
    let param_str := proto_param_str target_func in
    let return_str := proto_return_str target_func in
    let readable_callee_func_name := readable_internal_func_name callee_func_name in
    let source := get_source_type cfg in
    if get_dsl_flag cfg && startswith "checker" readable_callee_func_name then
      piece ← getitem (split "$" readable_callee_func_name) 1;
      idx ← Py.int piece;
      Ok (Returns [st])
    else
      in_c ← (if String.eqb source "c"
              then Utils.is_modeled source readable_callee_func_name (Some "c")
              else Ok false);
      if (in_c : bool) then Ok (CPredefinedFunction_emul readable_callee_func_name st param_str return_str)
      else
        in_go ← (if String.eqb source "go"
                 then Utils.is_modeled source readable_callee_func_name (Some "go")
                 else Ok false);
        if (in_go : bool) then Ok (GoPredefinedFunction_emul readable_callee_func_name st param_str return_str)
        else
          in_rust ← (if String.eqb source "rust"
                     then Utils.is_modeled source readable_callee_func_name (Some "rust")
                     else Ok false);
          if (in_rust : bool) then Err (UnboundLocalError "states")
          else
            in_wasi ← Utils.is_modeled source readable_callee_func_name (Some "wasi");
            if (in_wasi : bool) then Ok (WASIImportFunction_emul readable_callee_func_name st param_str return_str)
            else if in_list readable_callee_func_name TERMINATED_FUNCS then
              Err (ProcFailTermination ASSERT_FAIL)
            else
              st ← store_context param_str return_str st readable_callee_func_name;
              Ok (Returns [st])).

(** The [br_if] / [if] branch, once the condition [op] is a Boolean term. *)
Definition branch (op : expr) (st : State) : outcome :=
  if is_true op then Returns [set_edge_type "conditional_true_0" st]
  else if is_false op then Returns [set_edge_type "conditional_false_0" st]
  else if negb (is_true op) && negb (is_false op) then
    let no_need_true := is_unsat (one_time_query_cache (solver st) op) in
    let no_need_false := is_unsat (one_time_query_cache (solver st) (Not op)) in
    if no_need_true && no_need_false then Returns []
    else if negb no_need_true && negb no_need_false then
      let new_state := st in
      Returns [solver_add op (set_edge_type "conditional_true_0" st);
               solver_add (Not op) (set_edge_type "conditional_false_0" new_state)]
    else if no_need_true then
      Returns [solver_add (Not op) (set_edge_type "conditional_false_0" st)]
    else
      Returns [solver_add op (set_edge_type "conditional_true_0" st)]
  else Raises (SystemExit "br_if/if instruction error").

(** The successors of [br_table] for the grouped targets: one copy of the
    state per group whose condition is not [False]. *)
Definition table_states (a : expr) (w : N) (st : State)
    (groups : list (Z * list Z)) : list State :=
  flat_map (fun '(target, index_list) =>
    let index_list := map (fun i => simplify (eq_int a w i)) index_list in
    let cond := simplify (OrList index_list) in
    if is_false cond then []
    else if is_true cond then
      [set_edge_type ("conditional_true_" +:+ str_of_int target) st]
    else
      [set_edge_type ("conditional_true_" +:+ str_of_int target) (solver_add cond st)])
    groups.

(** The default successor of [br_table]. *)
Definition default_states (a : expr) (w : N) (n_br : Z) (st : State) : list State :=
  let cond := simplify (Or (ge_int a w n_br) (lt_int a w 0)) in
  if is_false cond then []
  else if is_true cond then [set_edge_type "conditional_false_0" st]
  else [set_edge_type "conditional_false_0" (solver_add cond st)].

Definition emulate (i : Instruction) (st : State) (analyzer : Analyzer) : outcome :=
  let name := instr_name i in
  if in_list name skip_command then Returns [st]
  else if in_list name term_command then Returns [st]
  else if String.eqb name "nop" then
    match xref (instr st) with
    | [] => Returns [st]
    | _ => run (st ← restore_context st; Ok (Returns [st]))
    end
  else if String.eqb name "br_if" || String.eqb name "if" then
    run ('(op, st) ← pop st;
         Py.assert (is_bv op || is_bool op)
           "the type of op popped from stack in `br_if`/`if` is not bv or bool";;
         a ← the_expr op;
         op ← (if is_bv op then w ← size op; Ok (simplify (ne_int a w 0)) else Ok a);
         Ok (branch op st))
  else if String.eqb name "call_indirect" then
    run (let elem_index_to_func := get_elem_index_to_func cfg in
         '(op, st) ← pop st;
         Py.assert (is_bv_value op) "in call_indirect, op is a symbol, not support yet";;
         a ← the_expr op;
         w ← size op;
         let op := match a with BitVecVal v _ => wrap w v | _ => 0 end in
         offset ← getitem (elements analyzer) 0;
         callee_func_name ← match elem_index_to_func !! (op - offset) with
                            | Some n => Ok n
                            | None => Err KeyError
                            end;
         match find_callee readable_internal_func_name callee_func_name
                 (func_prototypes analyzer) 0 with
         | None => Err (SystemExit "no valid callee in call_indirect")
         | Some callee_func_offset =>
             Ok (deal_with_call (set_call_indirect_callee callee_func_name st)
                   callee_func_offset analyzer)
         end)
  else if String.eqb name "br_table" then
    run ('(op, st) ← pop st;
         let ops := instr_operand i in
         n_br ← getitem ops 0;
         let br_lis := inner ops in
         a ← match op with PyExpr e => Ok e | _ => Err Z3Exception end;
         w ← match get_sort a with BitVecSort w => Ok w | _ => Err Z3Exception end;
         let states :=
           (table_states a w st (target_branch2index br_lis)
            ++ default_states a w n_br st)%list in
         Py.assert (negb (Nat.eqb (length states) 0)) "in br_table, no branch is selected";;
         Ok (Returns states))
  else if String.eqb name "call" then
    run (f_offset ← call_offset (instr_string i);
         Ok (deal_with_call st f_offset analyzer))
  else Raises UnsupportInstructionError.

End Emulate.
End ControlInstructions.

(* ===================================================================== *)
(** * The seven emulators side by side                                    *)
(* ===================================================================== *)

Module Core.
Import Py Z3 VM.

(** The emulator classes; the driver constructs the one matching the
    instruction and calls its [emulate]. *)
Inductive instruction_class :=
| Arithmetic
| Bitwise
| Constant
| Conversion
| Parametric
| Variable_
| Control.

(** Everything an [emulate] call reads besides the instruction and the
    state. *)
Record Env := {
  env_cfg : ControlInstructions.Configuration;
  env_readable : string -> string;
  env_check : Z3.solver -> expr -> CheckSatResult;
  env_c_emul : string -> State -> string -> string -> outcome;
  env_go_emul : string -> State -> string -> string -> outcome;
  env_wasi_emul : string -> State -> string -> string -> outcome;
  env_assert_fail : Z;
  env_expr_str : expr -> string;
  env_theory : theory;
  env_analyzer : ControlInstructions.Analyzer;
  env_local_default : option pyval;
  env_global_default : option pyval
}.

Definition emulate (E : Env) (c : instruction_class) (i : Instruction) (st : State) : outcome :=
  match c with
  | Arithmetic => ArithmeticInstructions.emulate (env_expr_str E) i st
  | Bitwise => BitwiseInstructions.emulate (env_expr_str E) i st
  | Constant => ConstantInstructions.emulate (env_theory E) i st
  | Conversion => ConversionInstructions.emulate i st
  | Parametric => ParametricInstructions.emulate (env_check E) i st
  | Variable_ =>
      VariableInstructions.emulate (env_local_default E) (env_global_default E) i st
  | Control =>
      ControlInstructions.emulate (env_cfg E) (env_readable E) (env_check E)
        (env_c_emul E) (env_go_emul E) (env_wasi_emul E) (env_assert_fail E)
        i st (env_analyzer E)
  end.

(** [f32.reinterpret/i32] followed by [i32.reinterpret/f32] on the state
    whose top of stack is the 32-bit numeral [b]. *)
Definition reinterpret_roundtrip (b : Z) (st : State) : outcome :=
  and_then
    (ConversionInstructions.emulate {| instr_name := "f32.reinterpret/i32"; instr_operand := [];
                instr_string := "f32.reinterpret/i32" |}
       (push (PyExpr (BitVecVal b 32)) st))
    (ConversionInstructions.emulate {| instr_name := "i32.reinterpret/f32"; instr_operand := [];
                instr_string := "i32.reinterpret/f32" |}).

(** The library models return at most [n] states. *)
Definition lib_bounded (n : nat) (E : Env) : Prop :=
  forall (emul : string -> State -> string -> string -> outcome),
    emul = env_c_emul E \/ emul = env_go_emul E \/ emul = env_wasi_emul E ->
    forall name st p r states, emul name st p r = Returns states -> (length states <= n)%nat.

(** The bound on the number of successors: one per group of [br_table]
    targets plus the default, two for everything else. *)
Definition max_successors (c : instruction_class) (i : Instruction) : nat :=
  match c with
  | Control =>
      if String.eqb (instr_name i) "br_table"
      then S (length (ControlInstructions.target_branch2index
                        (ControlInstructions.inner (instr_operand i))))
      else 2
  | _ => 2
  end.

End Core.

(* ===================================================================== *)
(** * A small concrete solver, used to run the emulators on examples      *)
(* ===================================================================== *)

Module Sample.
Import Py Z3 VM.

(** The degenerate floating-point algebra: rounding operators return their
    first argument and no decimal literal is read. *)
Definition theory : Z3.theory :=
  {| th_un := fun _ v => v;
     th_bin := fun _ x _ => x;
     th_decimal := fun _ _ _ => None |}.

(** The valuation sending every bit-vector name to [k], every Boolean name
    to the parity of [k], every floating-point name to [+0]. *)
Definition const_valuation (k : Z) : valuation :=
  {| bv_of := fun _ _ => k;
     bool_of := fun _ => Z.odd k;
     fp_of := fun _ _ _ => FBits 0 |}.

Definition candidates : list valuation := map const_valuation [0; 1; 2; 3].

(** The equations [x == c] between a bit-vector name and a numeral of the
    same width found among the assertions. *)
Fixpoint bindings (s : Z3.solver) : list (string * N * Z) :=
  match s with
  | [] => []
  | Bin OEq (BitVec x w) (BitVecVal c w') :: s' =>
      if N.eqb w w' then (x, w, wrap w c) :: bindings s' else bindings s'
  | _ :: s' => bindings s'
  end.

Definition conflict (b1 b2 : string * N * Z) : bool :=
  let '(x1, w1, c1) := b1 in
  let '(x2, w2, c2) := b2 in
  String.eqb x1 x2 && N.eqb w1 w2 && negb (c1 =? c2).

(** Assertions that no valuation satisfies: a literal [False], or two
    equations giving one name two different values. *)
Definition contradictory (s : Z3.solver) : bool :=
  existsb is_false s
  || existsb (fun b1 => existsb (conflict b1) (bindings s)) (bindings s).

(** A sound but very incomplete satisfiability check: [unsat] on a
    syntactic contradiction, [sat] when one of the candidate valuations is
    a model, [unknown] otherwise. *)
Definition one_time_query_cache (s : Z3.solver) (con : expr) : CheckSatResult :=
  let all := add s con in
  if contradictory all then unsat
  else if existsb (fun rho => forallb (holdsb theory rho) all) candidates then sat
  else unknown.

(** A printer in the style of z3py's [str]. *)
Definition un_str (op : unop) : string :=
  match op with
  | ONot => "Not"
  | OExtract _ _ => "Extract"
  | OSignExt _ => "SignExt"
  | OZeroExt _ => "ZeroExt"
  | OfpNeg => "fpNeg"
  | OfpAbs => "fpAbs"
  | OfpSqrt _ => "fpSqrt"
  | OfpRoundToIntegral _ => "fpRoundToIntegral"
  | OfpToSBV _ _ => "fpToSBV"
  | OfpToUBV _ _ => "fpToUBV"
  | OfpFPToFP _ _ _ | OfpBVToFP _ _ => "fpToFP"
  | OfpSignedToFP _ _ _ => "fpSignedToFP"
  | OfpUnsignedToFP _ _ _ => "fpUnsignedToFP"
  | OfpToIEEEBV => "fpToIEEEBV"
  end.

Definition bin_str (op : binop) : string :=
  match op with
  | OEq => "==" | ODistinct => "!=" | OOr => "Or"
  | Obvadd => "+" | Obvsub => "-" | Obvmul => "*" | Obvsdiv => "/"
  | Obvudiv => "UDiv" | Obvsrem => "SRem" | Obvurem => "URem" | Obvsmod => "%"
  | Obvand => "&" | Obvor => "|" | Obvxor => "^" | Obvashr => ">>"
  | Obvlshr => "LShR" | Obvshl => "<<" | Orotl => "RotateLeft" | Orotr => "RotateRight"
  | Obvsge => ">=" | Obvslt => "<"
  | OfpAdd _ => "fpAdd" | OfpSub _ => "fpSub" | OfpMul _ => "fpMul" | OfpDiv _ => "fpDiv"
  | OfpMin => "fpMin" | OfpMax => "fpMax"
  end.

Fixpoint expr_str (e : expr) : string :=
  match e with
  | BitVecVal v _ => str_of_int v
  | BitVec x _ | BoolSym x | FP x _ _ => x
  | BoolVal true => "True"
  | BoolVal false => "False"
  | FPVal FNaN _ _ => "NaN"
  | FPVal (FBits z) _ _ => "fpBits(" +:+ str_of_int z +:+ ")"
  | Un op a => un_str op +:+ "(" +:+ expr_str a +:+ ")"
  | Bin op a b => bin_str op +:+ "(" +:+ expr_str a +:+ ", " +:+ expr_str b +:+ ")"
  end.

Definition cfg : ControlInstructions.Configuration :=
  {| ControlInstructions.get_dsl_flag := false;
     ControlInstructions.get_source_type := "c";
     ControlInstructions.get_elem_index_to_func := ∅ |}.

(** Library models that leave the state as it is. *)
Definition lib_emul (_ : string) (st : State) (_ _ : string) : outcome := Returns [st].

(** An empty state in function [main]. *)
Definition init : State :=
  {| symbolic_stack := []; local_var := ∅; globals := ∅; solver := [];
     context_stack := []; current_func_name := "main"; current_bb_name := "";
     edge_type := ""; instr := {| cur_bb := "block_0"; xref := [] |};
     call_indirect_callee := "" |}.

(** [ControlInstructions.emulate] with the sample collaborators. *)
Definition control (i : Instruction) (st : State)
    (analyzer : ControlInstructions.Analyzer) : outcome :=
  ControlInstructions.emulate cfg (fun n => n) one_time_query_cache
    lib_emul lib_emul lib_emul 1 i st analyzer.

Definition no_analyzer : ControlInstructions.Analyzer :=
  {| ControlInstructions.func_prototypes := []; ControlInstructions.elements := [] |}.

Definition x32 : expr := BitVec "x" 32.

(** A 32-bit numeral as a stack value. *)
Definition num (z : Z) : pyval := PyExpr (BitVecVal z 32).

(** Locals kept in a [defaultdict] whose factory returns the 32-bit
    zero. *)
Definition local_default : option pyval := Some (num 0).

(** A caller about to call a two-parameter function: stack [2, 1, 7] (top
    first), locals [{0: 9, 1: 8, 2: 6}]. *)
Definition caller : State :=
  set_local_var (<[0 := num 9]> (<[1 := num 8]> (<[2 := num 6]> ∅)))
    (set_symbolic_stack [num 2; num 1; num 7] init).

Definition env : Core.Env :=
  {| Core.env_cfg := cfg; Core.env_readable := fun n => n;
     Core.env_check := one_time_query_cache;
     Core.env_c_emul := lib_emul; Core.env_go_emul := lib_emul;
     Core.env_wasi_emul := lib_emul; Core.env_assert_fail := 1;
     Core.env_expr_str := expr_str; Core.env_theory := theory;
     Core.env_analyzer := no_analyzer;
     Core.env_local_default := local_default;
     Core.env_global_default := None |}.

End Sample.

(* ===================================================================== *)
(** * Predicates on strings, states and outcomes                          *)
(* ===================================================================== *)

Module Inv.
Import Py Z3 VM.

(** No character of [s] is [c]. *)
Definition lacks (c : ascii) (s : string) : bool :=
  forallb (fun x => negb (Ascii.eqb x c)) (list_ascii_of_string s).

(** Every state an [emulate] call hands back satisfies [P] (nothing is
    said when the call raises or returns [None]). *)
Definition every_successor (P : State -> Prop) (o : outcome) : Prop :=
  match o with
  | Returns l => Forall P l
  | _ => True
  end.

(** [st'] differs from [st] in its stack and its path constraint only. *)
Definition frame_kept (st st' : State) : Prop :=
  local_var st' = local_var st
  /\ globals st' = globals st
  /\ context_stack st' = context_stack st
  /\ current_func_name st' = current_func_name st
  /\ current_bb_name st' = current_bb_name st
  /\ edge_type st' = edge_type st
  /\ instr st' = instr st
  /\ call_indirect_callee st' = call_indirect_callee st.

(** The path constraint of [st'] is that of [st], possibly with further
    assertions appended. *)
Definition constraint_extends (st st' : State) : Prop :=
  exists extra, solver st' = (solver st ++ extra)%list.

(** A satisfiability check whose [unsat] answers are right. *)
Definition sound_check (T : theory) (check : Z3.solver -> expr -> CheckSatResult) : Prop :=
  forall s e, check s e = unsat -> forall rho, ~ models T rho (Z3.add s e).

(** The bit-vector numeral [z] of width [w] as a stack value. *)
Definition numeral (w : N) (z : Z) : pyval := PyExpr (BitVecVal z w).


(** The unsigned value of a bit-vector term under a valuation. *)
Definition unsigned_value (T : theory) (rho : valuation) (a : expr) : Z :=
  match eval T rho a with
  | VBV _ z => z
  | _ => 0
  end.

(** Whether a branch condition (a bit-vector or a Boolean term) counts as
    true under a valuation: non-zero, respectively true. *)
Definition taken (T : theory) (rho : valuation) (a : expr) : bool :=
  match eval T rho a with
  | VBool b => b
  | VBV _ z => negb (z =? 0)
  | _ => false
  end.

(** The sort of the values of a WebAssembly number type. *)
Definition sort_of_type (ty : string) : option sort :=
  if String.eqb ty "i32" then Some (BitVecSort 32)
  else if String.eqb ty "i64" then Some (BitVecSort 64)
  else if String.eqb ty "f32" then Some Float32
  else if String.eqb ty "f64" then Some Float64
  else None.

(** The library models a call may dispatch to leave the assertions of
    the path constraint in place. *)
Definition lib_extends (E : Core.Env) : Prop :=
  forall (emul : string -> State -> string -> string -> outcome),
    emul = Core.env_c_emul E \/ emul = Core.env_go_emul E \/ emul = Core.env_wasi_emul E ->
    forall name st p r, every_successor (constraint_extends st) (emul name st p r).

End Inv.

(* ===================================================================== *)
(** * Facts about the term language                                       *)
(* ===================================================================== *)

Section Z3Facts.
Import Py Z3 VM.

Lemma wrap_wrap (w : N) (z : Z) : wrap w (wrap w z) = wrap w z.
Proof. unfold wrap. apply Zmod_mod. Qed.

Lemma wrap_0 (w : N) : wrap w 0 = 0.
Proof. unfold wrap. apply Zmod_0_l. Qed.

Lemma wrap_small (w : N) (z : Z) : 0 <= z < 2 ^ Z.of_N w -> wrap w z = z.
Proof. intros H. unfold wrap. now apply Z.mod_small. Qed.

Lemma fnorm_fp_of_bits (e m : N) (z : Z) :
  fnorm e m (fp_of_bits e m z) = fp_of_bits e m z.
Proof.
  unfold fp_of_bits.
  destruct (is_nan_bits e m (wrap (e + m) z)) eqn:Hnan; simpl; [reflexivity|].
  unfold fp_of_bits. rewrite wrap_wrap, Hnan. reflexivity.
Qed.

Lemma fnorm_idem (e m : N) (f : fpnum) : fnorm e m (fnorm e m f) = fnorm e m f.
Proof. destruct f; simpl; [reflexivity | apply fnorm_fp_of_bits]. Qed.

Lemma cast_sort (s : sort) (v : val) : val_sort (cast s v) = s.
Proof.
  destruct s as [|w|e m], v as [b|w' z|e' m' f]; simpl; try reflexivity.
  - destruct (N.eqb w w'); reflexivity.
  - destruct (N.eqb e e' && N.eqb m m'); reflexivity.
Qed.

Lemma of_val_sort (v : val) : get_sort (of_val v) = val_sort v.
Proof. destruct v; reflexivity. Qed.

(** The value of a term always has the sort of the term. *)
Lemma eval_sort (T : theory) (rho : valuation) (e : expr) :
  val_sort (eval T rho e) = get_sort e.
Proof. destruct e; simpl; try reflexivity; apply cast_sort. Qed.

Lemma eval_bool (T : theory) (rho : valuation) (e : expr) :
  Z3.is_bool e = true -> exists b, eval T rho e = VBool b.
Proof.
  unfold Z3.is_bool. intros H.
  pose proof (eval_sort T rho e) as Hs.
  destruct (get_sort e); try discriminate.
  destruct (eval T rho e); try discriminate. eauto.
Qed.

Lemma fold_un_sort (op : unop) (a : expr) :
  get_sort (fold_un op a) = un_sort op (get_sort a).
Proof.
  unfold fold_un.
  destruct (as_val a); [|reflexivity].
  destruct (compute_un op v); [|reflexivity].
  now rewrite of_val_sort, cast_sort.
Qed.

Lemma is_bool_sort (c : expr) : Z3.is_bool c = true -> get_sort c = BoolSort.
Proof. unfold Z3.is_bool. now destruct (get_sort c). Qed.

Lemma fold_or_sort (a b : expr) : get_sort (fold_or a b) = BoolSort.
Proof.
  unfold fold_or.
  destruct (is_true a), (is_true b), (is_false a), (is_false b),
    (Z3.is_bool a) eqn:Ha, (Z3.is_bool b) eqn:Hb; simpl;
    auto using is_bool_sort.
Qed.

Lemma fold_bin_sort (op : binop) (a b : expr) :
  get_sort (fold_bin op a b) = bin_sort op (get_sort a).
Proof.
  unfold fold_bin.
  destruct (as_val a) eqn:Ha, (as_val b) eqn:Hb;
    try (destruct op; try reflexivity; apply fold_or_sort).
  destruct (compute_bin op v v0); [|reflexivity].
  now rewrite of_val_sort, cast_sort.
Qed.

(** [simplify] keeps the sort of a term. *)
Lemma simplify_sort (e : expr) : get_sort (simplify e) = get_sort e.
Proof.
  induction e; simpl; try reflexivity.
  - now rewrite fold_un_sort, IHe.
  - now rewrite fold_bin_sort, IHe1.
Qed.

Lemma is_true_inv (e : expr) : is_true e = true -> e = BoolVal true.
Proof. destruct e as [| | [] | | | | |]; simpl; congruence. Qed.

Lemma is_false_inv (e : expr) : is_false e = true -> e = BoolVal false.
Proof. destruct e as [| | [] | | | | |]; simpl; congruence. Qed.

Section Soundness.
Variable T : theory.
Variable rho : valuation.

Lemma as_val_eval (e : expr) (v : val) : as_val e = Some v -> eval T rho e = v.
Proof. destruct e; simpl; congruence. Qed.

Lemma eval_of_val_cast (s : sort) (r : val) :
  eval T rho (of_val (cast s r)) = cast s r.
Proof.
  destruct s as [|w|e m], r as [b|w' z|e' m' f]; simpl;
    try reflexivity; try (now rewrite wrap_0).
  - destruct (N.eqb w w'); simpl; [now rewrite wrap_wrap | now rewrite wrap_0].
  - destruct (N.eqb e e' && N.eqb m m'); simpl; [now rewrite fnorm_idem | reflexivity].
Qed.

Lemma fold_un_eval (op : unop) (a : expr) :
  eval T rho (fold_un op a) = eval T rho (Un op a).
Proof.
  unfold fold_un.
  destruct (as_val a) eqn:Ha; [|reflexivity].
  destruct (compute_un op v) eqn:Hc; [|reflexivity].
  rewrite eval_of_val_cast. simpl.
  rewrite (as_val_eval _ _ Ha). unfold apply_un. now rewrite Hc.
Qed.

Lemma fold_or_eval (a b : expr) :
  eval T rho (fold_or a b) = eval T rho (Bin OOr a b).
Proof.
  unfold fold_or.
  destruct (is_true a) eqn:Hta, (is_true b) eqn:Htb,
    (is_false a) eqn:Hfa, (is_false b) eqn:Hfb,
    (Z3.is_bool a) eqn:Hba, (Z3.is_bool b) eqn:Hbb;
    simpl andb; cbv iota; try reflexivity;
    repeat match goal with
           | H : is_true _ = true |- _ => apply is_true_inv in H; subst
           | H : is_false _ = true |- _ => apply is_false_inv in H; subst
           end;
    try discriminate;
    repeat match goal with
           | H : Z3.is_bool ?c = true |- _ =>
               let y := fresh "y" in
               let Hy := fresh "Hy" in
               destruct (eval_bool T rho c H) as [y Hy]; clear H;
               simpl in Hy; simpl;
               first [ injection Hy as <- | rewrite Hy ]
           end;
    simpl; rewrite ?orb_true_r, ?orb_false_r; reflexivity.
Qed.

Lemma fold_bin_eval (op : binop) (a b : expr) :
  eval T rho (fold_bin op a b) = eval T rho (Bin op a b).
Proof.
  unfold fold_bin.
  destruct (as_val a) eqn:Ha, (as_val b) eqn:Hb;
    try (destruct op; try reflexivity; apply fold_or_eval).
  destruct (compute_bin op v v0) eqn:Hc; [|reflexivity].
  rewrite eval_of_val_cast. simpl.
  rewrite (as_val_eval _ _ Ha), (as_val_eval _ _ Hb).
  unfold apply_bin. now rewrite Hc.
Qed.

(** [simplify] preserves the value of a term under every valuation and
    every interpretation of the rounding operators. *)
Lemma eval_simplify (e : expr) : eval T rho (simplify e) = eval T rho e.
Proof.
  induction e; simpl; try reflexivity.
  - now rewrite wrap_wrap.
  - now rewrite fnorm_idem.
  - rewrite fold_un_eval. simpl. now rewrite simplify_sort, IHe.
  - rewrite fold_bin_eval. simpl. now rewrite simplify_sort, IHe1, IHe2.
Qed.

(** Adding a constraint: the models of [s.add(e)] are the models of [s]
    that satisfy [e]. *)
Lemma models_add (s : Z3.solver) (e : expr) :
  models T rho (Z3.add s e) <-> models T rho s /\ holds T rho e.
Proof.
  unfold models, Z3.add. rewrite Forall_app. split.
  - intros [H1 H2]. split; [assumption|]. now inversion H2.
  - intros [H1 H2]. split; [assumption|]. now constructor.
Qed.

(** A Boolean term and its negation: exactly one of them holds. *)
Lemma holds_Not (e : expr) :
  Z3.is_bool e = true -> (holds T rho (Not e) <-> ~ holds T rho e).
Proof.
  intros Hb. destruct (eval_bool T rho e Hb) as [b Hv].
  unfold holds. simpl. rewrite Hv. simpl.
  destruct b; simpl; split; intros H; congruence.
Qed.

End Soundness.
End Z3Facts.

(* ===================================================================== *)
(** * Branching: [br_if] and [if]                                         *)
(* ===================================================================== *)

Section BranchForking.
Import Py Z3 VM ControlInstructions.

Variable cfg : Configuration.
Variable readable : string -> string.
Variable check : Z3.solver -> expr -> CheckSatResult.
Variables c_emul go_emul wasi_emul : string -> State -> string -> string -> outcome.
Variable assert_fail : Z.

(** What [br_if] and [if] do once the condition has been popped. *)
Lemma emulate_branch (i : Instruction) (st : State) (analyzer : Analyzer)
    (a op : expr) (rest : list pyval) :
  instr_name i = "br_if" \/ instr_name i = "if" ->
  symbolic_stack st = PyExpr a :: rest ->
  (exists w, get_sort a = BitVecSort w /\ op = simplify (ne_int a w 0))
  \/ (Z3.is_bool a = true /\ op = a) ->
  emulate cfg readable check c_emul go_emul wasi_emul assert_fail i st analyzer
  = branch check op (set_symbolic_stack rest st).
Proof.
  intros Hname Hstack Hop.
  assert (Hdispatch :
    emulate cfg readable check c_emul go_emul wasi_emul assert_fail i st analyzer
    = run ('(op, st) ← pop st;
           Py.assert (VM.is_bv op || VM.is_bool op)
             "the type of op popped from stack in `br_if`/`if` is not bv or bool";;
           a ← the_expr op;
           op ← (if VM.is_bv op then w ← VM.size op; Ok (simplify (ne_int a w 0)) else Ok a);
           Ok (branch check op st))).
  { unfold emulate. destruct Hname as [-> | ->]; reflexivity. }
  rewrite Hdispatch. unfold pop. rewrite Hstack. cbn.
  destruct Hop as [[w [Hs ->]] | [Hb ->]].
  - unfold Z3.is_bv. rewrite Hs. cbn. reflexivity.
  - unfold Z3.is_bool in Hb. unfold Z3.is_bv, Z3.is_bool.
    destruct (get_sort a); try discriminate. reflexivity.
Qed.

(** C1. When [br_if] or [if] pops a condition that is neither literally
    true nor literally false and neither satisfiability query comes back
    [unsat], [emulate] returns exactly two states: both are the parent
    state with the condition popped, one with the condition added to its
    solver (edge [conditional_true_0]), the other with its negation (edge
    [conditional_false_0]).  Every model of the parent's path constraint is
    a model of exactly one of the two successors' constraints. *)
Theorem br_if_symbolic_forks (T : theory) (i : Instruction) (st : State)
    (analyzer : Analyzer) (a op : expr) (rest : list pyval) :
  instr_name i = "br_if" \/ instr_name i = "if" ->
  symbolic_stack st = PyExpr a :: rest ->
  (exists w, get_sort a = BitVecSort w /\ op = simplify (ne_int a w 0))
  \/ (Z3.is_bool a = true /\ op = a) ->
  is_true op = false ->
  is_false op = false ->
  check (solver st) op <> unsat ->
  check (solver st) (Not op) <> unsat ->
  let parent := set_symbolic_stack rest st in
  let st_true := solver_add op (set_edge_type "conditional_true_0" parent) in
  let st_false := solver_add (Not op) (set_edge_type "conditional_false_0" parent) in
  emulate cfg readable check c_emul go_emul wasi_emul assert_fail i st analyzer
  = Returns [st_true; st_false]
  /\ forall rho, models T rho (solver st) ->
       (models T rho (solver st_true) \/ models T rho (solver st_false))
       /\ ~ (models T rho (solver st_true) /\ models T rho (solver st_false)).
Proof.
  intros Hname Hstack Hop Ht Hf Hsat Hsatn parent st_true st_false.
  assert (Hbool : Z3.is_bool op = true).
  { destruct Hop as [[w [Hs ->]] | [Hb ->]]; [|assumption].
    unfold Z3.is_bool. now rewrite simplify_sort. }
  split.
  - rewrite (emulate_branch i st analyzer a op rest Hname Hstack Hop).
    unfold branch. rewrite Ht, Hf. cbn.
    destruct (check (solver st) op); try congruence;
      destruct (check (solver st) (Not op)); try congruence; reflexivity.
  - intros rho Hm.
    change (solver st_true) with (Z3.add (solver st) op).
    change (solver st_false) with (Z3.add (solver st) (Not op)).
    rewrite !models_add, (holds_Not T rho op Hbool).
    split.
    + destruct (eval T rho op) eqn:Hv; unfold holds; rewrite Hv;
        try (right; split; [assumption | congruence]).
      destruct b; [left | right]; split; auto; congruence.
    + intros [[_ H1] [_ H2]]. now apply H2.
Qed.

(** C2 (as amended). When the condition of [br_if] or [if] is symbolic and
    both satisfiability queries come back [unsat], [emulate] raises
    nothing: it returns the empty list of successor states. *)
Theorem br_if_infeasible_returns_no_state (i : Instruction) (st : State)
    (analyzer : Analyzer) (a op : expr) (rest : list pyval) :
  instr_name i = "br_if" \/ instr_name i = "if" ->
  symbolic_stack st = PyExpr a :: rest ->
  (exists w, get_sort a = BitVecSort w /\ op = simplify (ne_int a w 0))
  \/ (Z3.is_bool a = true /\ op = a) ->
  is_true op = false ->
  is_false op = false ->
  check (solver st) op = unsat ->
  check (solver st) (Not op) = unsat ->
  emulate cfg readable check c_emul go_emul wasi_emul assert_fail i st analyzer
  = Returns [].
Proof.
  intros Hname Hstack Hop Ht Hf Hu Hun.
  rewrite (emulate_branch i st analyzer a op rest Hname Hstack Hop).
  unfold branch. rewrite Ht, Hf. cbn. rewrite Hu, Hun. reflexivity.
Qed.

End BranchForking.

(* ===================================================================== *)
(** * The sample solver is sound                                          *)
(* ===================================================================== *)

Section SampleSolver.
Import Py Z3 VM.

Lemma bindings_In (s : Z3.solver) (x : string) (w : N) (c : Z) :
  In (x, w, c) (Sample.bindings s) ->
  exists c', In (Bin OEq (BitVec x w) (BitVecVal c' w)) s /\ c = wrap w c'.
Proof.
  induction s as [|e s IH]; simpl; [tauto|].
  assert (Htail : In (x, w, c) (Sample.bindings s) ->
    exists c', (e = Bin OEq (BitVec x w) (BitVecVal c' w)
                \/ In (Bin OEq (BitVec x w) (BitVecVal c' w)) s) /\ c = wrap w c').
  { intros H. destruct (IH H) as [c' [Hin Hc]]. eauto. }
  destruct e as [| | | | | | |op a b]; try exact Htail.
  destruct op; try exact Htail.
  destruct a as [|y wy| | | | | |]; try exact Htail.
  destruct b as [cv wc| | | | | | |]; try exact Htail.
  destruct (N.eqb wy wc) eqn:Hw; [|exact Htail].
  apply N.eqb_eq in Hw. subst wc.
  intros [Heq | Hin]; [|now apply Htail].
  injection Heq as -> -> <-. eauto.
Qed.

Lemma holds_binding (T : theory) (rho : valuation) (x : string) (w : N) (c : Z) :
  holds T rho (Bin OEq (BitVec x w) (BitVecVal c w)) ->
  wrap w (bv_of rho x w) = wrap w c.
Proof.
  unfold holds. simpl. unfold apply_bin. simpl.
  rewrite N.eqb_refl. simpl.
  destruct (Z.eqb_spec (wrap w (bv_of rho x w)) (wrap w c)); [auto | discriminate].
Qed.

(** An [unsat] answer is right under every interpretation. *)
Lemma sample_unsat_sound (s : Z3.solver) (con : expr) :
  Sample.one_time_query_cache s con = unsat ->
  forall T rho, ~ models T rho (Z3.add s con).
Proof.
  unfold Sample.one_time_query_cache. intros H T rho Hm.
  destruct (Sample.contradictory (add s con)) eqn:Hc.
  2:{ destruct (existsb _ Sample.candidates); discriminate. }
  clear H. unfold models in Hm. rewrite List.Forall_forall in Hm.
  unfold Sample.contradictory in Hc. apply orb_true_iff in Hc.
  destruct Hc as [Hc | Hc]; apply existsb_exists in Hc.
  - destruct Hc as [e [Hin Hf]]. apply is_false_inv in Hf. subst e.
    specialize (Hm _ Hin). discriminate Hm.
  - destruct Hc as [[[x1 w1] c1] [Hin1 Hc]]. apply existsb_exists in Hc.
    destruct Hc as [[[x2 w2] c2] [Hin2 Hc]]. simpl in Hc.
    apply andb_true_iff in Hc. destruct Hc as [Hc Hne].
    apply andb_true_iff in Hc. destruct Hc as [Hx Hw].
    apply String.eqb_eq in Hx. apply N.eqb_eq in Hw. subst x2 w2.
    destruct (bindings_In _ _ _ _ Hin1) as [d1 [Hd1 ->]].
    destruct (bindings_In _ _ _ _ Hin2) as [d2 [Hd2 ->]].
    apply Hm, holds_binding in Hd1. apply Hm, holds_binding in Hd2.
    rewrite Hd1 in Hd2. rewrite Hd2, Z.eqb_refl in Hne. discriminate.
Qed.

(** A [sat] answer comes with a model. *)
Lemma sample_sat_sound (s : Z3.solver) (con : expr) :
  Sample.one_time_query_cache s con = sat ->
  exists rho, models Sample.theory rho (Z3.add s con).
Proof.
  unfold Sample.one_time_query_cache. intros H.
  destruct (Sample.contradictory (add s con)); [discriminate|].
  destruct (existsb _ Sample.candidates) eqn:He; [|discriminate].
  apply existsb_exists in He. destruct He as [rho [_ Hall]].
  exists rho. unfold models. rewrite List.Forall_forall. intros e Hin.
  rewrite forallb_forall in Hall. specialize (Hall e Hin).
  unfold holdsb in Hall. unfold holds.
  destruct (eval Sample.theory rho e) as [[]| |]; congruence.
Qed.

End SampleSolver.

(* ===================================================================== *)
(** * Branching on concrete inputs                                        *)
(* ===================================================================== *)

Section BranchExamples.
Import Py Z3 VM.

(** C1, on an input: [br_if] on the unconstrained 32-bit symbol [x]. *)
Lemma br_if_symbolic_forks_witness :
  let i := {| instr_name := "br_if"; instr_operand := []; instr_string := "br_if 0" |} in
  let st := set_symbolic_stack [PyExpr Sample.x32] Sample.init in
  let op := Bin ODistinct Sample.x32 (BitVecVal 0 32) in
  let st_true := solver_add op (set_edge_type "conditional_true_0" Sample.init) in
  let st_false := solver_add (Not op) (set_edge_type "conditional_false_0" Sample.init) in
  Sample.control i st Sample.no_analyzer = Returns [st_true; st_false]
  /\ forall rho, models Sample.theory rho (solver st) ->
       (models Sample.theory rho (solver st_true)
        \/ models Sample.theory rho (solver st_false))
       /\ ~ (models Sample.theory rho (solver st_true)
             /\ models Sample.theory rho (solver st_false)).
Proof.
  apply (br_if_symbolic_forks Sample.cfg (fun n => n) Sample.one_time_query_cache
           Sample.lib_emul Sample.lib_emul Sample.lib_emul 1 Sample.theory
           {| instr_name := "br_if"; instr_operand := []; instr_string := "br_if 0" |}
           (set_symbolic_stack [PyExpr Sample.x32] Sample.init) Sample.no_analyzer
           Sample.x32 (Bin ODistinct Sample.x32 (BitVecVal 0 32)) []).
  - left; reflexivity.
  - reflexivity.
  - left. exists 32%N. split; reflexivity.
  - reflexivity.
  - reflexivity.
  - vm_compute. discriminate.
  - vm_compute. discriminate.
Defined.

(** C2, as stated, fails: with the path constraint [x == 0, x == 1] (as
    two [br_table] instructions on the same operand leave it) and the
    symbolic condition [c], both queries are [unsat], and [br_if] returns
    the empty list of states instead of raising. *)
Lemma br_if_infeasible_not_an_error :
  let i := {| instr_name := "br_if"; instr_operand := []; instr_string := "br_if 0" |} in
  let pc := [Bin OEq Sample.x32 (BitVecVal 0 32); Bin OEq Sample.x32 (BitVecVal 1 32)] in
  let c := BoolSym "c" in
  let st := set_solver pc (set_symbolic_stack [PyExpr c] Sample.init) in
  is_true c = false /\ is_false c = false
  /\ Sample.one_time_query_cache (solver st) c = unsat
  /\ Sample.one_time_query_cache (solver st) (Not c) = unsat
  /\ Sample.control i st Sample.no_analyzer = Returns []
  /\ ~ exists e, Sample.control i st Sample.no_analyzer = Raises e.
Proof.
  cbv zeta. repeat split; try reflexivity.
  intros [e He]. vm_compute in He. discriminate.
Qed.

(** C2 as amended, on that input. *)
Lemma br_if_infeasible_returns_no_state_witness :
  Sample.control
    {| instr_name := "br_if"; instr_operand := []; instr_string := "br_if 0" |}
    (set_solver [Bin OEq Sample.x32 (BitVecVal 0 32); Bin OEq Sample.x32 (BitVecVal 1 32)]
       (set_symbolic_stack [PyExpr (BoolSym "c")] Sample.init))
    Sample.no_analyzer
  = Returns [].
Proof.
  apply (br_if_infeasible_returns_no_state Sample.cfg (fun n => n)
           Sample.one_time_query_cache Sample.lib_emul Sample.lib_emul Sample.lib_emul 1
           _ _ _ (BoolSym "c") (BoolSym "c") []).
  - left; reflexivity.
  - reflexivity.
  - right. split; reflexivity.
  - reflexivity.
  - reflexivity.
  - reflexivity.
  - reflexivity.
Defined.

(** The path constraint of that input arises from two [br_table]
    instructions on the same symbolic index: the successor for table
    index 0 of the first, then the successor for table index 1 of the
    second. *)
Lemma br_table_twice_reaches_infeasible_state :
  let table := {| instr_name := "br_table"; instr_operand := [2; 7; 8; 0];
                  instr_string := "br_table 7 8 0" |} in
  let st := set_symbolic_stack [PyExpr Sample.x32] Sample.init in
  let first := nth 0 (successors (Sample.control table st Sample.no_analyzer)) st in
  let second :=
    nth 1 (successors (Sample.control table (push (PyExpr Sample.x32) first)
                         Sample.no_analyzer)) st in
  solver second
  = [Bin OEq Sample.x32 (BitVecVal 0 32); Bin OEq Sample.x32 (BitVecVal 1 32)].
Proof. reflexivity. Qed.

End BranchExamples.

(* ===================================================================== *)
(** * [select] when neither side is feasible                              *)
(* ===================================================================== *)

Section SelectInfeasible.
Import Py Z3 VM.

(** With a symbolic condition and both queries [unsat], the [pass] branch
    of [select] falls off the end of [emulate]: the call returns [None],
    not a list of states. *)
Lemma select_infeasible_returns_None
    (check : Z3.solver -> expr -> CheckSatResult)
    (operand : list Z) (text : string) (st : State)
    (a : expr) (w : N) (v1 v2 : pyval) (rest : list pyval) (op : expr) :
  symbolic_stack st = PyExpr a :: v1 :: v2 :: rest ->
  get_sort a = BitVecSort w ->
  op = simplify (eq_int a w 0) ->
  is_true op = false ->
  is_false op = false ->
  check (solver st) op = unsat ->
  check (solver st) (Not op) = unsat ->
  ParametricInstructions.emulate check
    {| instr_name := "select"; instr_operand := operand; instr_string := text |} st
  = ReturnsNone.
Proof.
  intros Hst Hs -> Ht Hf Hu Hun.
  unfold ParametricInstructions.emulate. cbn [instr_name].
  change (String.eqb "select" "drop") with false.
  change (String.eqb "select" "select") with true. cbv iota.
  unfold pop. rewrite Hst.
  cbn [symbolic_stack set_symbolic_stack mbind res_bind Py.bind].
  unfold VM.is_bv, Z3.is_bv, VM.size. rewrite Hs.
  cbn [orb Py.assert mbind res_bind Py.bind the_expr].
  rewrite Ht, Hf. cbn [negb andb solver set_symbolic_stack]. rewrite Hu, Hun. reflexivity.
Qed.

Lemma select_infeasible_returns_None_witness :
  ParametricInstructions.emulate Sample.one_time_query_cache
    {| instr_name := "select"; instr_operand := []; instr_string := "select" |}
    (set_solver [Bin OEq Sample.x32 (BitVecVal 0 32); Bin OEq Sample.x32 (BitVecVal 1 32)]
       (set_symbolic_stack
          [PyExpr (BitVec "y" 32); PyExpr (BitVecVal 5 32); PyExpr (BitVecVal 9 32)]
          Sample.init))
  = ReturnsNone.
Proof.
  apply (select_infeasible_returns_None Sample.one_time_query_cache [] "select" _
           (BitVec "y" 32) 32 (PyExpr (BitVecVal 5 32)) (PyExpr (BitVecVal 9 32)) []
           (Bin OEq (BitVec "y" 32) (BitVecVal 0 32)));
    reflexivity.
Defined.

End SelectInfeasible.

(* ===================================================================== *)
(** * [br_table]: the groups are the distinct targets                     *)
(* ===================================================================== *)

Section BranchTable.
Import Py Z3 VM ControlInstructions.

Lemma group_add_fst (t i : Z) (g : list (Z * list Z)) :
  (group_add t i g).*1 = if decide (t ∈ g.*1) then g.*1 else (g.*1 ++ [t])%list.
Proof.
  induction g as [|[t' l] g IH]; cbn [group_add].
  - rewrite decide_False by apply not_elem_of_nil. reflexivity.
  - destruct (Z.eqb_spec t' t) as [->|Hne].
    + rewrite decide_True by (rewrite fmap_cons, elem_of_cons; now left). reflexivity.
    + rewrite !fmap_cons, IH. cbn [fst].
      destruct (decide (t ∈ g.*1)) as [Hin|Hnin].
      * rewrite decide_True by (rewrite elem_of_cons; now right). reflexivity.
      * rewrite decide_False; [reflexivity|].
        rewrite elem_of_cons. intros [->|H]; [now apply Hne | now apply Hnin].
Qed.

Lemma group_add_NoDup (t i : Z) (g : list (Z * list Z)) :
  NoDup g.*1 -> NoDup (group_add t i g).*1.
Proof.
  intros H. rewrite group_add_fst. destruct (decide _) as [Hin|Hnin]; [assumption|].
  rewrite NoDup_app. repeat split; [assumption| |apply NoDup_singleton].
  intros x Hx. rewrite list_elem_of_singleton. intros ->. contradiction.
Qed.

Lemma group_add_elem (t i k : Z) (g : list (Z * list Z)) :
  k ∈ (group_add t i g).*1 <-> k = t \/ k ∈ g.*1.
Proof.
  rewrite group_add_fst. destruct (decide _) as [Hin|Hnin].
  - split; [now right|]. intros [->|H]; assumption.
  - rewrite elem_of_app, list_elem_of_singleton. tauto.
Qed.

Lemma fold_group_add (ps : list (Z * Z)) (g : list (Z * list Z)) :
  NoDup g.*1 ->
  let r := fold_left (fun g '(index, target) => group_add target index g) ps g in
  NoDup r.*1 /\ forall k, k ∈ r.*1 <-> k ∈ g.*1 \/ k ∈ ps.*2.
Proof.
  revert g. induction ps as [|[index target] ps IH]; intros g Hg; cbv zeta.
  - split; [assumption|]. intros k. rewrite elem_of_nil. tauto.
  - cbn [fold_left].
    destruct (IH (group_add target index g) (group_add_NoDup _ _ _ Hg)) as [H1 H2].
    split; [assumption|]. intros k. rewrite H2, group_add_elem, fmap_cons, elem_of_cons.
    cbn [snd]. tauto.
Qed.

Lemma snd_combine_range (l : list Z) :
  (combine (range 0 (Z.of_nat (length l))) l).*2 = l.
Proof.
  assert (H : length (range 0 (Z.of_nat (length l))) = length l).
  { unfold range. rewrite length_map, length_seq. lia. }
  revert H. generalize (range 0 (Z.of_nat (length l))). intros r. revert r.
  induction l as [|x l IH]; intros [|y r] H; try discriminate; [reflexivity|].
  cbn [combine]. rewrite fmap_cons. cbn [snd]. f_equal. apply IH. now injection H.
Qed.

(** [target_branch2index] has one group per distinct target of the
    table, and no other. *)
Lemma target_branch2index_targets (br_lis : list Z) :
  NoDup (target_branch2index br_lis).*1
  /\ forall t, t ∈ (target_branch2index br_lis).*1 <-> t ∈ br_lis.
Proof.
  unfold target_branch2index.
  destruct (fold_group_add (combine (range 0 (Z.of_nat (length br_lis))) br_lis) [])
    as [H1 H2]; [apply NoDup_nil_2|].
  split; [assumption|]. intros t. rewrite H2, snd_combine_range, elem_of_nil. tauto.
Qed.

End BranchTable.

(* ===================================================================== *)
(** * How many states an emulator returns                                 *)
(* ===================================================================== *)

Section StateCount.
Import Py Z3 VM Core.

Lemma at_most_run_bind {A : Type} (n : nat) (m : res A) (k : A -> res outcome) :
  (forall a, at_most n (run (k a))) -> at_most n (run (m ≫= k)).
Proof. intros H. destruct m; [apply H | exact I]. Qed.

Lemma at_most_Returns (n : nat) (o : outcome) :
  at_most n o <-> forall l, o = Returns l -> (length l <= n)%nat.
Proof.
  split.
  - intros H l ->. exact H.
  - intros H. destruct o; simpl; auto.
Qed.

(** Walks through the binds and the case distinctions of an emulator down
    to its [return] statements; [leaf] closes what is left there. *)
Ltac count_states leaf :=
  repeat first
    [ leaf
    | apply at_most_run_bind; intros
    | match goal with
      | |- at_most _ (run (let '(_, _) := ?p in _)) => destruct p
      | |- at_most _ (run (if ?c then _ else _)) => destruct c
      | |- at_most _ (if ?c then _ else _) => destruct c
      | |- at_most _ (run (match ?x with _ => _ end)) => destruct x
      | |- at_most _ (match ?x with _ => _ end) => destruct x
      | |- at_most _ (run (Ok (Returns _))) => simpl; lia
      | |- at_most _ (Returns _) => simpl; lia
      | |- at_most _ (run (Ok ReturnsNone)) => exact I
      | |- at_most _ (run (Err _)) => exact I
      | |- at_most _ (Raises _) => exact I
      | |- at_most ?n (run (Ok ?o)) => change (at_most n o)
      end ].

Lemma arithmetic_at_most (str : expr -> string) (i : Instruction) (st : State) :
  at_most 1 (ArithmeticInstructions.emulate str i st).
Proof.
  unfold ArithmeticInstructions.emulate,
    ArithmeticInstructions.do_emulate_arithmetic_int_instruction,
    ArithmeticInstructions.do_emulate_arithmetic_float_instruction.
  cbv zeta. count_states fail.
Qed.

Lemma bitwise_at_most (str : expr -> string) (i : Instruction) (st : State) :
  at_most 1 (BitwiseInstructions.emulate str i st).
Proof. unfold BitwiseInstructions.emulate. cbv zeta. count_states fail. Qed.

Lemma constant_at_most (T : theory) (i : Instruction) (st : State) :
  at_most 1 (ConstantInstructions.emulate T i st).
Proof. unfold ConstantInstructions.emulate. cbv zeta. count_states fail. Qed.

Lemma conversion_at_most (i : Instruction) (st : State) :
  at_most 1 (ConversionInstructions.emulate i st).
Proof. unfold ConversionInstructions.emulate. count_states fail. Qed.

Lemma parametric_at_most (check : Z3.solver -> expr -> CheckSatResult)
    (i : Instruction) (st : State) :
  at_most 2 (ParametricInstructions.emulate check i st).
Proof. unfold ParametricInstructions.emulate. cbv zeta. count_states fail. Qed.

Lemma variable_at_most (ld gd : option pyval) (i : Instruction) (st : State) :
  at_most 1 (VariableInstructions.emulate ld gd i st).
Proof. unfold VariableInstructions.emulate. cbv zeta. count_states fail. Qed.

Lemma at_most_mono (n n' : nat) (o : outcome) :
  (n <= n')%nat -> at_most n o -> at_most n' o.
Proof. destruct o; simpl; lia. Qed.

Lemma table_states_length (a : expr) (w : N) (st : State) (groups : list (Z * list Z)) :
  (length (ControlInstructions.table_states a w st groups) <= length groups)%nat.
Proof.
  unfold ControlInstructions.table_states.
  induction groups as [|[target index_list] groups IH]; [simpl; lia|].
  cbn [flat_map]. rewrite length_app.
  match goal with
  | |- context [if is_false ?c then _ else _] =>
      destruct (is_false c); [|destruct (is_true c)]
  end; cbn [length]; lia.
Qed.

Lemma default_states_length (a : expr) (w : N) (n_br : Z) (st : State) :
  (length (ControlInstructions.default_states a w n_br st) <= 1)%nat.
Proof.
  unfold ControlInstructions.default_states. cbv zeta.
  destruct (is_false _); simpl; [lia|].
  destruct (is_true _); simpl; lia.
Qed.

Section Control.
Variable E : Env.
Hypothesis Hlib : lib_bounded 2 E.

Lemma deal_with_call_at_most (st : State) (f_offset : Z) :
  at_most 2
    (ControlInstructions.deal_with_call (env_cfg E) (env_readable E)
       (env_c_emul E) (env_go_emul E) (env_wasi_emul E) (env_assert_fail E)
       st f_offset (env_analyzer E)).
Proof.
  unfold ControlInstructions.deal_with_call. cbv zeta.
  count_states ltac:(
    idtac; match goal with
    | |- at_most 2 (run (Ok (?emul ?n ?s ?p ?r))) =>
        apply at_most_Returns; intros l Hl; apply (Hlib emul) in Hl; [exact Hl | tauto]
    end).
Qed.

Lemma control_at_most (i : Instruction) (st : State) :
  at_most (max_successors Control i) (Core.emulate E Control i st).
Proof.
  unfold max_successors, Core.emulate.
  destruct (String.eqb (instr_name i) "br_table") eqn:Hname.
  - apply String.eqb_eq in Hname.
    unfold ControlInstructions.emulate. rewrite Hname. cbn [instr_name].
    change (in_list "br_table" ControlInstructions.skip_command) with false.
    change (in_list "br_table" ControlInstructions.term_command) with false.
    cbv iota. simpl String.eqb. cbv iota. simpl orb. cbv iota.
    count_states ltac:(
      idtac; match goal with
      | |- at_most _ (run (Ok (Returns (_ ++ _)))) =>
          simpl; rewrite length_app;
          match goal with
          | |- context [ControlInstructions.table_states ?a ?w ?s ?g] =>
              pose proof (table_states_length a w s g)
          end;
          match goal with
          | |- context [ControlInstructions.default_states ?a ?w ?n ?s] =>
              pose proof (default_states_length a w n s)
          end; lia
      end).
  - unfold ControlInstructions.emulate, ControlInstructions.branch. cbv zeta.
    rewrite Hname.
    count_states ltac:(
      idtac; match goal with
      | |- at_most 2 (run (Ok (ControlInstructions.deal_with_call _ _ _ _ _ _ ?s ?f _))) =>
          apply (deal_with_call_at_most s f)
      end).
Qed.

End Control.

(** C3 (as amended). Whatever the instruction and the state, the list an
    [emulate] operation returns has at most two states, except for
    [br_table], whose list has at most one state per group of table
    targets plus one for the default; this holds provided the external
    library models a call may dispatch to return at most two states. *)
Theorem emulate_successor_bound (E : Env) (c : instruction_class)
    (i : Instruction) (st : State) (states : list State) :
  lib_bounded 2 E ->
  Core.emulate E c i st = Returns states ->
  (length states <= max_successors c i)%nat.
Proof.
  intros Hlib Hret.
  assert (H : at_most (max_successors c i) (Core.emulate E c i st)).
  { destruct c; unfold max_successors.
    - apply (at_most_mono 1); [lia | apply arithmetic_at_most].
    - apply (at_most_mono 1); [lia | apply bitwise_at_most].
    - apply (at_most_mono 1); [lia | apply constant_at_most].
    - apply (at_most_mono 1); [lia | apply conversion_at_most].
    - apply parametric_at_most.
    - apply (at_most_mono 1); [lia | apply variable_at_most].
    - now apply control_at_most. }
  rewrite Hret in H. exact H.
Qed.

End StateCount.

(* ===================================================================== *)
(** * State counts on concrete inputs                                     *)
(* ===================================================================== *)

Section StateCountExamples.
Import Py Z3 VM Core.

Lemma sample_lib_bounded : lib_bounded 2 Sample.env.
Proof.
  intros emul Hemul name st p r states Hret.
  assert (Heq : emul = Sample.lib_emul)
    by (destruct Hemul as [H|[H|H]]; rewrite H; reflexivity).
  subst emul. injection Hret as <-. simpl. lia.
Qed.

(** C3, as stated, fails: [br_table] with the three targets 1, 2, 3
    (default 0) on an unconstrained 32-bit index returns four states. *)
Lemma br_table_returns_four_states :
  let i := {| instr_name := "br_table"; instr_operand := [3; 1; 2; 3; 0];
              instr_string := "br_table 1 2 3 0" |} in
  let st := set_symbolic_stack [PyExpr Sample.x32] Sample.init in
  exists states,
    Core.emulate Sample.env Control i st = Returns states
    /\ length states = 4%nat
    /\ ~ (length states <= 2)%nat.
Proof.
  cbv zeta. eexists. split; [vm_compute; reflexivity|].
  split; [reflexivity | simpl; lia].
Qed.

(** C3 as amended, on that input: three groups, hence at most four
    states. *)
Lemma emulate_successor_bound_witness :
  let i := {| instr_name := "br_table"; instr_operand := [3; 1; 2; 3; 0];
              instr_string := "br_table 1 2 3 0" |} in
  let st := set_symbolic_stack [PyExpr Sample.x32] Sample.init in
  (length (successors (Core.emulate Sample.env Control i st)) <= 4)%nat.
Proof.
  cbv zeta.
  apply (emulate_successor_bound Sample.env Control
           {| instr_name := "br_table"; instr_operand := [3; 1; 2; 3; 0];
              instr_string := "br_table 1 2 3 0" |}
           (set_symbolic_stack [PyExpr Sample.x32] Sample.init)).
  - exact sample_lib_bounded.
  - vm_compute. reflexivity.
Defined.

End StateCountExamples.

(* ===================================================================== *)
(** * [select], [clz], [ctz], [popcnt]                                    *)
(* ===================================================================== *)

Section StackInstructions.
Import Py Z3 VM.

(** C7. With 9 pushed first, 5 pushed second and the concrete 32-bit
    condition 0 pushed last, [select] returns exactly one state, and its
    stack is the original one with the constant 5 on top. *)
Theorem select_concrete_zero_pushes_five
    (check : Z3.solver -> expr -> CheckSatResult)
    (operand : list Z) (text : string) (st : State) :
  let i := {| instr_name := "select"; instr_operand := operand; instr_string := text |} in
  let st0 := push (PyExpr (BitVecVal 0 32))
               (push (PyExpr (BitVecVal 5 32))
                  (push (PyExpr (BitVecVal 9 32)) st)) in
  ParametricInstructions.emulate check i st0
  = Returns [push (PyExpr (BitVecVal 5 32)) st].
Proof. reflexivity. Qed.

(** C10. Whatever value is popped, [i32.clz] and [i32.ctz] push the 32-bit
    constant 32, [i64.clz] and [i64.ctz] the 64-bit constant 64,
    [i32.popcnt] the 32-bit constant 0 and [i64.popcnt] the 64-bit
    constant 0; the popped operand does not enter the result. *)
Theorem clz_ctz_popcnt_ignore_operand
    (str : expr -> string) (operand : list Z) (text : string)
    (v : pyval) (st : State) :
  let emu := fun name =>
    ArithmeticInstructions.emulate str
      {| instr_name := name; instr_operand := operand; instr_string := text |}
      (push v st) in
  emu "i32.clz" = Returns [push (PyExpr (BitVecVal 32 32)) st]
  /\ emu "i32.ctz" = Returns [push (PyExpr (BitVecVal 32 32)) st]
  /\ emu "i64.clz" = Returns [push (PyExpr (BitVecVal 64 64)) st]
  /\ emu "i64.ctz" = Returns [push (PyExpr (BitVecVal 64 64)) st]
  /\ emu "i32.popcnt" = Returns [push (PyExpr (BitVecVal 0 32)) st]
  /\ emu "i64.popcnt" = Returns [push (PyExpr (BitVecVal 0 64)) st].
Proof. cbv zeta. repeat split; reflexivity. Qed.

End StackInstructions.

(* ===================================================================== *)
(** * [get_local] on an uninitialised index                               *)
(* ===================================================================== *)

Section GetLocal.
Import Py Z3 VM VariableInstructions.

Section AnyMapping.
Variable local_default : option pyval.
Variable global_default : option pyval.





End AnyMapping.



End GetLocal.

(* ===================================================================== *)
(** * Bit-pattern reinterpretation                                        *)
(* ===================================================================== *)

Section Reinterpret.
Import Py Z3 VM ConversionInstructions.

Lemma fp_of_bits_wrap (e m : N) (z : Z) :
  fp_of_bits e m (wrap (e + m) z) = fp_of_bits e m z.
Proof. unfold fp_of_bits. now rewrite wrap_wrap. Qed.

Lemma fp_of_bits_small (e m : N) (b : Z) :
  0 <= b < 2 ^ Z.of_N (e + m) ->
  is_nan_bits e m b = false ->
  fp_of_bits e m b = FBits b.
Proof.
  intros Hb Hnan. unfold fp_of_bits.
  rewrite (wrap_small _ _ Hb), Hnan. reflexivity.
Qed.

Lemma simplify_fpBVToFP (b : Z) :
  simplify (Un (OfpBVToFP 8 24) (BitVecVal b 32)) = FPVal (fp_of_bits 8 24 b) 8 24.
Proof.
  cbn [simplify]. unfold fold_un.
  cbn [as_val compute_un un_sort get_sort cast of_val].
  change (N.eqb 8 8 && N.eqb 24 24) with true. cbv iota.
  rewrite fnorm_fp_of_bits.
  now rewrite (fp_of_bits_wrap 8 24), (fp_of_bits_wrap 8 24).
Qed.

Lemma simplify_fpToIEEEBV_bits (b : Z) :
  0 <= b < 2 ^ 32 ->
  is_nan_bits 8 24 b = false ->
  simplify (fpToIEEEBV (FPVal (FBits b) 8 24)) = BitVecVal b 32.
Proof.
  intros Hb Hnan.
  assert (Hfb : fp_of_bits 8 24 b = FBits b) by now apply fp_of_bits_small.
  cbn [simplify fnorm]. rewrite Hfb. unfold fold_un.
  cbn [as_val fnorm]. rewrite Hfb.
  cbn [compute_un un_sort get_sort cast of_val].
  change (N.eqb (8 + 24) (8 + 24)) with true. cbv iota.
  change (8 + 24)%N with 32%N.
  now rewrite (wrap_small 32 b Hb).
Qed.

(** The single NaN has no bit pattern of its own: the term stays as it
    is. *)
Lemma simplify_fpToIEEEBV_nan :
  simplify (fpToIEEEBV (FPVal FNaN 8 24)) = fpToIEEEBV (FPVal FNaN 8 24).
Proof. reflexivity. Qed.

Lemma assert_size_ok (e : expr) (w : N) (msg : string) :
  get_sort e = BitVecSort w -> assert_size (PyExpr e) w msg = Ok tt.
Proof.
  intros H. unfold assert_size, VM.size. rewrite H.
  cbn [mbind res_bind Py.bind]. now rewrite N.eqb_refl.
Qed.

Lemma assert_shape_ok (e : expr) (eb sb : N) (msg : string) :
  get_sort e = FPSort eb sb -> assert_shape (PyExpr e) eb sb msg = Ok tt.
Proof.
  intros H. unfold assert_shape, VM.ebits, VM.sbits. rewrite H.
  cbn [mbind res_bind Py.bind]. rewrite !N.eqb_refl. reflexivity.
Qed.

Lemma emulate_f32_reinterpret_i32 (operand : list Z) (text : string) (b : Z) (st : State) :
  emulate {| instr_name := "f32.reinterpret/i32"; instr_operand := operand;
             instr_string := text |} (push (PyExpr (BitVecVal b 32)) st)
  = Returns [push (PyExpr (FPVal (fp_of_bits 8 24 b) 8 24)) st].
Proof.
  unfold emulate.
  cbn [pop push symbolic_stack set_symbolic_stack instr_name mbind res_bind Py.bind].
  change (convert "f32.reinterpret/i32" (PyExpr (BitVecVal b 32)))
    with (from_bv "f32.reinterpret/i32" (PyExpr (BitVecVal b 32)) 32
            (Un (OfpBVToFP 8 24)) (fp_post 8 24)).
  unfold from_bv, fp_post.
  rewrite (assert_size_ok (BitVecVal b 32) 32) by reflexivity.
  cbn [mbind res_bind Py.bind the_expr].
  rewrite simplify_fpBVToFP.
  rewrite (assert_shape_ok (FPVal (fp_of_bits 8 24 b) 8 24) 8 24) by reflexivity.
  reflexivity.
Qed.

Lemma emulate_i32_reinterpret_f32 (operand : list Z) (text : string)
    (f : fpnum) (st : State) :
  emulate {| instr_name := "i32.reinterpret/f32"; instr_operand := operand;
             instr_string := text |} (push (PyExpr (FPVal f 8 24)) st)
  = Returns [push (PyExpr (simplify (fpToIEEEBV (FPVal f 8 24)))) st].
Proof.
  unfold emulate.
  cbn [pop push symbolic_stack set_symbolic_stack instr_name mbind res_bind Py.bind].
  change (convert "i32.reinterpret/f32" (PyExpr (FPVal f 8 24)))
    with (from_fp "i32.reinterpret/f32" (PyExpr (FPVal f 8 24)) 8 24
            (fun a => fpToIEEEBV a) (bv_post 32)).
  unfold from_fp, bv_post.
  rewrite (assert_shape_ok (FPVal f 8 24) 8 24) by reflexivity.
  cbn [mbind res_bind Py.bind the_expr].
  rewrite (assert_size_ok (simplify (fpToIEEEBV (FPVal f 8 24))) 32)
    by (rewrite simplify_sort; reflexivity).
  reflexivity.
Qed.

(** C8 (as amended). For every 32-bit pattern [b] that does not encode a
    NaN, [f32.reinterpret/i32] followed by [i32.reinterpret/f32] pushes
    exactly [b] again. *)
Theorem reinterpret_roundtrip_non_nan (b : Z) (st : State) :
  0 <= b < 2 ^ 32 ->
  is_nan_bits 8 24 b = false ->
  Core.reinterpret_roundtrip b st = Returns [push (PyExpr (BitVecVal b 32)) st].
Proof.
  intros Hb Hnan. unfold Core.reinterpret_roundtrip.
  rewrite emulate_f32_reinterpret_i32.
  rewrite (fp_of_bits_small 8 24 b Hb Hnan).
  cbn [and_then]. rewrite emulate_i32_reinterpret_f32.
  now rewrite simplify_fpToIEEEBV_bits.
Qed.

(** Every NaN pattern ends as the same term, whatever its payload. *)
Lemma reinterpret_roundtrip_nan (b : Z) (st : State) :
  is_nan_bits 8 24 (wrap 32 b) = true ->
  Core.reinterpret_roundtrip b st
  = Returns [push (PyExpr (fpToIEEEBV (FPVal FNaN 8 24))) st].
Proof.
  intros Hnan. unfold Core.reinterpret_roundtrip.
  rewrite emulate_f32_reinterpret_i32.
  unfold fp_of_bits. change (8 + 24)%N with 32%N. rewrite Hnan.
  cbn [and_then]. now rewrite emulate_i32_reinterpret_f32.
Qed.

(** C8 as amended, on an input: the pattern of the float 1.0. *)
Lemma reinterpret_roundtrip_non_nan_witness :
  Core.reinterpret_roundtrip 0x3F800000 Sample.init
  = Returns [push (PyExpr (BitVecVal 0x3F800000 32)) Sample.init].
Proof.
  apply (reinterpret_roundtrip_non_nan 0x3F800000 Sample.init).
  - lia.
  - reflexivity.
Defined.

(** C8, as stated, fails: the quiet NaN with payload 1 ([0x7FC00001]) does
    not come back; the value pushed is the unevaluated [fpToIEEEBV(NaN)],
    the same for every NaN pattern (e.g. [0x7FC00002]). *)
Lemma reinterpret_roundtrip_loses_nan_payload :
  Core.reinterpret_roundtrip 0x7FC00001 Sample.init
  = Returns [push (PyExpr (fpToIEEEBV (FPVal FNaN 8 24))) Sample.init]
  /\ Core.reinterpret_roundtrip 0x7FC00001 Sample.init
     <> Returns [push (PyExpr (BitVecVal 0x7FC00001 32)) Sample.init]
  /\ Core.reinterpret_roundtrip 0x7FC00001 Sample.init
     = Core.reinterpret_roundtrip 0x7FC00002 Sample.init.
Proof.
  repeat split.
  vm_compute. discriminate.
Qed.

End Reinterpret.

(* ===================================================================== *)
(** * [copysign]                                                          *)
(* ===================================================================== *)

Section Copysign.
Import Py Z3 VM ArithmeticInstructions.

Variable str : expr -> string.

Lemma check_shape_ok (t : string) (e : expr) (eb sb : N) (msg : string) :
  helper_map t = Ok (HList eb sb) ->
  get_sort e = FPSort eb sb ->
  check_shape t (PyExpr e) msg = Ok tt.
Proof.
  intros Ht Hs. unfold check_shape, helper_shape, VM.ebits, VM.sbits.
  rewrite Ht, Hs. cbn [mbind res_bind Py.bind]. rewrite !N.eqb_refl. reflexivity.
Qed.

(** [f64.copysign]: the guard of the copysign branch compares the
    instruction name with ['f32.copysign'], so no branch assigns [result]
    and the use of [result] raises. *)
Lemma f64_copysign_result_unbound (operand : list Z) (text : string)
    (a1 a2 : expr) (st : State) :
  get_sort a1 = FPSort 11 53 ->
  get_sort a2 = FPSort 11 53 ->
  emulate str {| instr_name := "f64.copysign"; instr_operand := operand;
                 instr_string := text |}
    (push (PyExpr a1) (push (PyExpr a2) st))
  = Raises (UnboundLocalError "result").
Proof.
  intros H1 H2. unfold emulate. cbn [instr_name].
  change (String.eqb (take 1 "f64.copysign") "i") with false. cbv iota.
  unfold do_emulate_arithmetic_float_instruction. cbn [instr_name]. cbv zeta.
  change (take 3 "f64.copysign") with "f64".
  match goal with
  | |- context [in_list "f64.copysign" ?l] => change (in_list "f64.copysign" l) with true
  end.
  cbv iota.
  cbn [pop push symbolic_stack set_symbolic_stack mbind res_bind Py.bind].
  rewrite (check_shape_ok "f64" a1 11 53), (check_shape_ok "f64" a2 11 53)
    by (assumption || reflexivity).
  reflexivity.
Qed.

(** [f32.copysign] on two numerals. *)
Lemma f32_copysign_numerals (operand : list Z) (text : string)
    (f1 f2 : fpnum) (st : State) :
  emulate str {| instr_name := "f32.copysign"; instr_operand := operand;
                 instr_string := text |}
    (push (PyExpr (FPVal f1 8 24)) (push (PyExpr (FPVal f2 8 24)) st))
  = if xorb (fp_isPositive 8 24 (fnorm 8 24 f2)) (fp_isPositive 8 24 (fnorm 8 24 f1))
    then Returns [push (PyExpr (simplify (fpNeg (FPVal f1 8 24)))) st]
    else Raises (UnboundLocalError "result").
Proof.
  unfold emulate. cbn [instr_name].
  change (String.eqb (take 1 "f32.copysign") "i") with false. cbv iota.
  unfold do_emulate_arithmetic_float_instruction. cbn [instr_name]. cbv zeta.
  change (take 3 "f32.copysign") with "f32".
  match goal with
  | |- context [in_list "f32.copysign" ?l] => change (in_list "f32.copysign" l) with true
  end.
  cbv iota.
  cbn [pop push symbolic_stack set_symbolic_stack mbind res_bind Py.bind].
  rewrite (check_shape_ok "f32" (FPVal f1 8 24) 8 24),
    (check_shape_ok "f32" (FPVal f2 8 24) 8 24) by reflexivity.
  cbn [mbind res_bind Py.bind the_expr VM.isPositive].
  change (contains ".add" "f32.copysign") with false.
  change (contains ".sub" "f32.copysign") with false.
  change (contains ".mul" "f32.copysign") with false.
  change (contains ".div" "f32.copysign") with false.
  change (contains ".min" "f32.copysign") with false.
  change (contains ".max" "f32.copysign") with false.
  change (contains ".copysign" "f32.copysign" && String.eqb "f32.copysign" "f32.copysign")
    with true.
  cbv iota. cbn [mbind res_bind Py.bind].
  now destruct (xorb _ _).
Qed.

End Copysign.

(** C4, where the code departs from it.  [f64.copysign] on [1.0]
    (first popped) and [-2.0] raises instead of pushing [-1.0]; so does
    [f32.copysign] on [1.0] and [2.0], whose signs agree, instead of
    pushing [1.0] unchanged.  Only [f32.copysign] on operands of different
    sign transfers the sign: on [1.0] and [-2.0] it pushes [-1.0]. *)
Theorem copysign_result_unbound :
  let emu := fun name top below =>
    ArithmeticInstructions.emulate Sample.expr_str
      {| VM.instr_name := name; VM.instr_operand := []; VM.instr_string := name |}
      (VM.push (VM.PyExpr top) (VM.push (VM.PyExpr below) Sample.init)) in
  let f64 := fun bits => Z3.FPVal (Z3.FBits bits) 11 53 in
  let f32 := fun bits => Z3.FPVal (Z3.FBits bits) 8 24 in
  emu "f64.copysign" (f64 0x3FF0000000000000) (f64 0xC000000000000000)
  = VM.Raises (Py.UnboundLocalError "result")
  /\ emu "f32.copysign" (f32 0x3F800000) (f32 0x40000000)
     = VM.Raises (Py.UnboundLocalError "result")
  /\ emu "f32.copysign" (f32 0x3F800000) (f32 0xC0000000)
     = VM.Returns [VM.push (VM.PyExpr (f32 0xBF800000)) Sample.init].
Proof. cbv zeta. repeat split; vm_compute; reflexivity. Qed.

(* ===================================================================== *)
(** * Calls and returns                                                   *)
(* ===================================================================== *)

Section CallReturn.
Import Py Z3 VM ControlInstructions.

Lemma popn_app (args rest : list pyval) (st : State) :
  symbolic_stack st = (args ++ rest)%list ->
  popn (length args) st = Ok (args, set_symbolic_stack rest st).
Proof.
  revert st. induction args as [|a args IH]; intros st Hst.
  - simpl in *. unfold set_symbolic_stack. rewrite <- Hst. now destruct st.
  - cbn [length popn]. unfold pop. rewrite Hst.
    cbn [app mbind res_bind Py.bind].
    rewrite (IH (set_symbolic_stack (args ++ rest) st)) by reflexivity.
    reflexivity.
Qed.

(** The state [store_context] leaves behind when the stack holds enough
    arguments. *)
Lemma store_context_ok (param_str return_str callee : string) (st : State)
    (args rest : list pyval) :
  length args = num_params param_str ->
  symbolic_stack st = (args ++ rest)%list ->
  store_context param_str return_str st callee
  = Ok {| symbolic_stack := rest;
          local_var :=
            clear_locals (Z.of_nat (length args))
              (assign_args (Z.of_nat (length args)) args (local_var st));
          globals := globals st;
          solver := solver st;
          context_stack :=
            {| caller_func_name := current_func_name st;
               return_block := cur_bb (instr st);
               saved_stack := rest;
               saved_locals := local_var st;
               require_return := truthy return_str |} :: context_stack st;
          current_func_name := callee;
          current_bb_name := current_bb_name st;
          edge_type := edge_type st;
          instr := instr st;
          call_indirect_callee := call_indirect_callee st |}.
Proof.
  intros Hlen Hst. unfold store_context, num_params in *.
  destruct (truthy param_str).
  - cbv zeta. rewrite <- Hlen, (popn_app args rest st Hst).
    reflexivity.
  - destruct args; [|discriminate]. simpl in Hst.
    cbn [mbind res_bind Py.bind length]. unfold set_context_stack, set_local_var,
      set_current_func_name. cbn. rewrite Hst. reflexivity.
Qed.

Section Dispatch.
Variable cfg : Configuration.
Variable readable : string -> string.
Variable check : Z3.solver -> expr -> CheckSatResult.
Variables c_emul go_emul wasi_emul : string -> State -> string -> string -> outcome.
Variable assert_fail : Z.

(** An ordinary internal callee goes through [store_context]. *)
Lemma deal_with_call_internal (st : State) (f_offset : Z) (analyzer : Analyzer)
    (target : prototype) :
  getitem (func_prototypes analyzer) f_offset = Ok target ->
  is_ordinary_internal cfg (readable (proto_name target)) = true ->
  deal_with_call cfg readable c_emul go_emul wasi_emul assert_fail st f_offset analyzer
  = run (st' ← store_context (proto_param_str target) (proto_return_str target) st
                 (readable (proto_name target));
         Ok (Returns [st'])).
Proof.
  intros Hget Hord. unfold deal_with_call. rewrite Hget.
  cbn [mbind res_bind Py.bind]. cbv zeta.
  unfold is_ordinary_internal, modeled_in in Hord.
  repeat (apply andb_true_iff in Hord; destruct Hord as [Hord ?]).
  repeat match goal with
         | H : negb _ = true |- _ => apply negb_true_iff in H
         end.
  rewrite Hord.
  unfold Utils.is_modeled in *.
  cbn [Utils.MODELED_FUNCS String.eqb Ascii.eqb Bool.eqb mbind res_bind Py.bind] in *.
  destruct (String.eqb (get_source_type cfg) "c");
    destruct (String.eqb (get_source_type cfg) "go");
    destruct (String.eqb (get_source_type cfg) "rust");
    cbn [andb mbind res_bind Py.bind] in *;
    repeat match goal with
           | H : ?b = false |- context [?b] => rewrite H
           end;
    cbn [mbind res_bind Py.bind]; reflexivity.
Qed.

(** C6. A [call] into an ordinary internal function with [P] parameters
    and a declared return value, followed by that function's return (the
    [nop] at its exit, which restores the saved frame): whatever the callee
    did to its own stack and locals, the stack afterwards is the pre-call
    stack with the [P] arguments replaced by the one value the callee left
    on top, and the locals are the pre-call locals. *)
Theorem call_return_roundtrip (call ret : Instruction) (st : State)
    (analyzer : Analyzer) (f_offset : Z) (target : prototype)
    (args rest : list pyval) :
  instr_name call = "call" ->
  call_offset (instr_string call) = Ok f_offset ->
  getitem (func_prototypes analyzer) f_offset = Ok target ->
  is_ordinary_internal cfg (readable (proto_name target)) = true ->
  length args = num_params (proto_param_str target) ->
  truthy (proto_return_str target) = true ->
  symbolic_stack st = (args ++ rest)%list ->
  instr_name ret = "nop" ->
  exists st_in,
    emulate cfg readable check c_emul go_emul wasi_emul assert_fail call st analyzer
    = Returns [st_in]
    /\ forall (st_out : State) (return_val : pyval) (below : list pyval),
         context_stack st_out = context_stack st_in ->
         symbolic_stack st_out = return_val :: below ->
         xref (instr st_out) <> [] ->
         exists st_back,
           emulate cfg readable check c_emul go_emul wasi_emul assert_fail ret st_out analyzer
           = Returns [st_back]
           /\ symbolic_stack st_back = return_val :: rest
           /\ local_var st_back = local_var st
           /\ current_func_name st_back = current_func_name st
           /\ context_stack st_back = context_stack st.
Proof.
  intros Hcall Hoff Hget Hord Hlen Hret Hst Hnop.
  eexists. split.
  - unfold emulate. rewrite Hcall.
    change (in_list "call" skip_command) with false.
    change (in_list "call" term_command) with false.
    cbn [String.eqb Ascii.eqb Bool.eqb orb]. cbv iota.
    rewrite Hoff. cbn [mbind res_bind Py.bind run].
    rewrite (deal_with_call_internal st f_offset analyzer target Hget Hord).
    rewrite (store_context_ok _ _ _ st args rest Hlen Hst).
    reflexivity.
  - intros st_out return_val below Hctx Hstack Hxref.
    unfold emulate. rewrite Hnop.
    change (in_list "nop" skip_command) with false.
    change (in_list "nop" term_command) with false.
    cbn [String.eqb Ascii.eqb Bool.eqb orb]. cbv iota.
    destruct (xref (instr st_out)) as [|x xs]; [congruence|].
    unfold restore_context. rewrite Hctx.
    cbn [context_stack require_return]. rewrite Hret.
    unfold pop. cbn [symbolic_stack set_context_stack]. rewrite Hstack.
    cbn [mbind res_bind Py.bind run].
    eexists. split; [reflexivity|]. cbn. auto.
Qed.

End Dispatch.

(** C6, on an input: [call 0] into [f(i32, i32) -> i32] with the stack
    [2, 1, 7] (top first) and local 0 holding 9; the callee returns with
    [3] on top of its stack. *)
Lemma call_return_roundtrip_witness :
  let f := {| proto_name := "f"; proto_param_str := "i32 i32";
              proto_return_str := "i32"; proto_type := "" |} in
  let analyzer := {| func_prototypes := [f]; elements := [] |} in
  let n := fun z => PyExpr (BitVecVal z 32) in
  let st := set_local_var (<[0 := n 9]> ∅) (set_symbolic_stack [n 2; n 1; n 7] Sample.init) in
  exists st_in,
    Sample.control {| instr_name := "call"; instr_operand := []; instr_string := "call 0" |}
      st analyzer = Returns [st_in]
    /\ forall (st_out : State) (return_val : pyval) (below : list pyval),
         context_stack st_out = context_stack st_in ->
         symbolic_stack st_out = return_val :: below ->
         xref (instr st_out) <> [] ->
         exists st_back,
           Sample.control {| instr_name := "nop"; instr_operand := []; instr_string := "nop" |}
             st_out analyzer = Returns [st_back]
           /\ symbolic_stack st_back = [return_val; n 7]
           /\ local_var st_back = local_var st
           /\ current_func_name st_back = current_func_name st
           /\ context_stack st_back = context_stack st.
Proof.
  cbv zeta.
  apply (call_return_roundtrip Sample.cfg (fun n => n) Sample.one_time_query_cache
           Sample.lib_emul Sample.lib_emul Sample.lib_emul 1
           {| instr_name := "call"; instr_operand := []; instr_string := "call 0" |}
           {| instr_name := "nop"; instr_operand := []; instr_string := "nop" |}
           _ _ 0
           {| proto_name := "f"; proto_param_str := "i32 i32";
              proto_return_str := "i32"; proto_type := "" |}
           [PyExpr (BitVecVal 2 32); PyExpr (BitVecVal 1 32)]
           [PyExpr (BitVecVal 7 32)]);
    reflexivity.
Defined.

End CallReturn.

(* ===================================================================== *)
(** * The callee's locals                                                 *)
(* ===================================================================== *)

Section CalleeLocals.
Import Py Z3 VM ControlInstructions.

Lemma range_nil (a b : Z) : b <= a -> range a b = [].
Proof.
  intros H. unfold range.
  replace (Z.to_nat (b - a)) with O by lia. reflexivity.
Qed.

Lemma range_cons (a b : Z) : a < b -> range a b = a :: range (a + 1) b.
Proof.
  intros H. unfold range.
  replace (Z.to_nat (b - a)) with (S (Z.to_nat (b - (a + 1)))) by lia.
  cbn [seq map]. f_equal; [lia|].
  rewrite <- seq_shift, map_map. apply map_ext. intros k. lia.
Qed.

Lemma In_range (a b k : Z) : In k (range a b) <-> a <= k < b.
Proof.
  unfold range. rewrite in_map_iff. split.
  - intros [j [<- Hj]]. apply in_seq in Hj. lia.
  - intros H. exists (Z.to_nat (k - a)). split; [lia|]. apply in_seq. lia.
Qed.

Lemma lookup_delete_all_None (l : list Z) (m : gmap Z pyval) (k : Z) :
  m !! k = None -> fold_left (fun m x => delete x m) l m !! k = None.
Proof.
  revert m. induction l as [|x l IH]; intros m Hm; [exact Hm|].
  cbn [fold_left]. apply IH.
  destruct (decide (x = k)) as [->|Hne];
    [apply lookup_delete_eq | now rewrite lookup_delete_ne].
Qed.

Lemma lookup_delete_all_in (l : list Z) (m : gmap Z pyval) (k : Z) :
  In k l -> fold_left (fun m x => delete x m) l m !! k = None.
Proof.
  revert m. induction l as [|x l IH]; intros m Hin; [destruct Hin|].
  cbn [fold_left]. destruct Hin as [->|Hin]; [|now apply IH].
  apply lookup_delete_all_None, lookup_delete_eq.
Qed.

Lemma lookup_delete_all_out (l : list Z) (m : gmap Z pyval) (k : Z) :
  ~ In k l -> fold_left (fun m x => delete x m) l m !! k = m !! k.
Proof.
  revert m. induction l as [|x l IH]; intros m Hin; [reflexivity|].
  cbn [fold_left]. rewrite IH by (intros H; apply Hin; now right).
  apply lookup_delete_ne. intros ->. apply Hin. now left.
Qed.

(** What the clearing loop removes: the keys from [num_arg] up to, but
    not including, the number of entries of the map. *)
Lemma clear_locals_lookup (num_arg : Z) (l : gmap Z pyval) (k : Z) :
  clear_locals num_arg l !! k
  = if decide (num_arg <= k < Z.of_nat (base.size l)) then None else l !! k.
Proof.
  unfold clear_locals. destruct (decide _) as [H|H].
  - apply lookup_delete_all_in. now apply In_range.
  - apply lookup_delete_all_out. now rewrite In_range.
Qed.

Lemma assign_fold (n : Z) (args : list pyval) (x : Z) (m : gmap Z pyval) :
  let r := fold_left (fun m '(x, a) => <[n - 1 - x := a]> m)
             (combine (range x (x + Z.of_nat (length args))) args) m in
  (forall j, (j < length args)%nat -> r !! (n - 1 - (x + Z.of_nat j)) = args !! j)
  /\ (forall k, k < n - x - Z.of_nat (length args) \/ n - 1 - x < k -> r !! k = m !! k).
Proof.
  revert x m. induction args as [|a args IH]; intros x m; cbv zeta.
  - split; [intros j Hj; simpl in Hj; lia|].
    intros k _. rewrite range_nil by (cbn [length]; lia). reflexivity.
  - rewrite range_cons by (cbn [length]; lia).
    replace (x + Z.of_nat (length (a :: args)))
      with (x + 1 + Z.of_nat (length args)) by (cbn [length]; lia).
    cbn [combine fold_left].
    destruct (IH (x + 1) (<[n - 1 - x := a]> m)) as [IH1 IH2].
    split.
    + intros [|j] Hj.
      * replace (n - 1 - (x + Z.of_nat 0)) with (n - 1 - x) by lia.
        rewrite IH2 by lia. cbn. apply lookup_insert_eq.
      * replace (n - 1 - (x + Z.of_nat (S j))) with (n - 1 - (x + 1 + Z.of_nat j)) by lia.
        cbn [length] in Hj. rewrite IH1 by lia. reflexivity.
    + intros k Hk. cbn [length] in Hk. rewrite IH2 by lia.
      apply lookup_insert_ne. lia.
Qed.

(** Parameter [i] of the callee is the argument popped [(N - i)]-th. *)
Lemma assign_args_param (args : list pyval) (l : gmap Z pyval) (i : nat) :
  (i < length args)%nat ->
  assign_args (Z.of_nat (length args)) args l !! Z.of_nat i
  = args !! (length args - 1 - i)%nat.
Proof.
  intros Hi. unfold assign_args.
  destruct (assign_fold (Z.of_nat (length args)) args 0 l) as [H _].
  cbn [Z.add] in H.
  specialize (H (length args - 1 - i)%nat ltac:(lia)).
  rewrite <- H. f_equal. lia.
Qed.

Lemma assign_args_other (args : list pyval) (l : gmap Z pyval) (k : Z) :
  Z.of_nat (length args) <= k ->
  assign_args (Z.of_nat (length args)) args l !! k = l !! k.
Proof.
  intros Hk. unfold assign_args.
  destruct (assign_fold (Z.of_nat (length args)) args 0 l) as [_ H].
  cbn [Z.add] in H. apply H. lia.
Qed.

Lemma assign_args_size (n : Z) (args : list pyval) (l : gmap Z pyval) :
  (base.size l <= base.size (assign_args n args l))%nat.
Proof.
  unfold assign_args.
  generalize (combine (range 0 n) args). intros ps. revert l.
  induction ps as [|[x a] ps IH]; intros l; [reflexivity|].
  cbn [fold_left]. etransitivity; [|apply IH].
  rewrite map_size_insert. destruct (l !! (n - 1 - x)); simpl; lia.
Qed.

(** The locals of the callee, entry by entry.  Parameter [i] is the
    argument popped [(N - i)]-th; keys from [N] up to the number of entries
    the map has once the parameters are stored are removed; keys beyond
    that number stay as the caller left them. *)
Lemma store_context_locals (param_str return_str callee : string)
    (st st' : State) (args rest : list pyval) :
  length args = num_params param_str ->
  symbolic_stack st = (args ++ rest)%list ->
  store_context param_str return_str st callee = Ok st' ->
  let N := length args in
  let bound := Z.of_nat (base.size (assign_args (Z.of_nat N) args (local_var st))) in
  (forall i, (i < N)%nat -> local_var st' !! Z.of_nat i = args !! (N - 1 - i)%nat)
  /\ (forall k, Z.of_nat N <= k < bound -> local_var st' !! k = None)
  /\ (forall k, Z.of_nat N <= k -> bound <= k -> local_var st' !! k = local_var st !! k).
Proof.
  intros Hlen Hst Hok. rewrite (store_context_ok _ _ _ st args rest Hlen Hst) in Hok.
  injection Hok as <-. cbv zeta. cbn [local_var].
  repeat split.
  - intros i Hi. rewrite clear_locals_lookup.
    destruct (decide _) as [H|H]; [lia|]. now apply assign_args_param.
  - intros k Hk. rewrite clear_locals_lookup.
    destruct (decide _) as [H|H]; [reflexivity | lia].
  - intros k Hk Hb. rewrite clear_locals_lookup.
    destruct (decide _) as [H|H]; [lia|]. now apply assign_args_other.
Qed.

(** When the keys of the caller's map are the indices below its size (no
    gaps), nothing at or above [N] survives the call. *)
Lemma store_context_clears_dense_locals (param_str return_str callee : string)
    (st st' : State) (args rest : list pyval) :
  length args = num_params param_str ->
  symbolic_stack st = (args ++ rest)%list ->
  store_context param_str return_str st callee = Ok st' ->
  (forall k v, local_var st !! k = Some v -> 0 <= k < Z.of_nat (base.size (local_var st))) ->
  forall k, Z.of_nat (length args) <= k -> local_var st' !! k = None.
Proof.
  intros Hlen Hst Hok Hdense k Hk.
  rewrite (store_context_ok _ _ _ st args rest Hlen Hst) in Hok.
  injection Hok as <-. cbn [local_var].
  pose proof (assign_args_size (Z.of_nat (length args)) args (local_var st)) as Hsz.
  rewrite clear_locals_lookup. destruct (decide _) as [H|H]; [reflexivity|].
  rewrite assign_args_other by assumption.
  destruct (local_var st !! k) eqn:Hl; [|reflexivity].
  apply Hdense in Hl. lia.
Qed.

(** The callee's locals on an input: [f(i32, i32)] called from
    [Sample.caller]. *)
Lemma store_context_locals_witness :
  let st' := match store_context "i32 i32" "i32" Sample.caller "f" with
             | Ok s => s
             | Err _ => Sample.caller
             end in
  (forall i, (i < 2)%nat ->
     local_var st' !! Z.of_nat i = [Sample.num 2; Sample.num 1] !! (2 - 1 - i)%nat)
  /\ (forall k, 2 <= k < 3 -> local_var st' !! k = None)
  /\ (forall k, 2 <= k -> 3 <= k -> local_var st' !! k = local_var Sample.caller !! k).
Proof.
  exact (store_context_locals "i32 i32" "i32" "f" Sample.caller
           (match store_context "i32 i32" "i32" Sample.caller "f" with
            | Ok s => s
            | Err _ => Sample.caller
            end)
           [Sample.num 2; Sample.num 1] [Sample.num 7]
           eq_refl eq_refl eq_refl).
Defined.

(** C5, where the code departs from it.  A function stores into local 3
    only ([set_local 3]), pushes one argument and calls [f(i32)]: the
    caller's map is [{3: 9}], the callee gets [{0: 5, 3: 9}].  Index 0
    holds the argument, but index 3, which is not below the parameter
    count 1, is still there: the clearing loop stops at the number of
    entries of the map (2). *)
Theorem call_keeps_local_beyond_entry_count :
  let n := fun z => PyExpr (BitVecVal z 32) in
  let f := {| proto_name := "f"; proto_param_str := "i32";
              proto_return_str := ""; proto_type := "" |} in
  let analyzer := {| func_prototypes := [f]; elements := [] |} in
  let set_local_3 := {| instr_name := "set_local"; instr_operand := [3];
                        instr_string := "set_local 3" |} in
  let call_0 := {| instr_name := "call"; instr_operand := []; instr_string := "call 0" |} in
  exists caller callee,
    VariableInstructions.emulate Sample.local_default None set_local_3
      (push (n 9) Sample.init) = Returns [caller]
    /\ local_var caller = <[3 := n 9]> ∅
    /\ Sample.control call_0 (push (n 5) caller) analyzer = Returns [callee]
    /\ local_var callee !! 0 = Some (n 5)
    /\ local_var callee !! 3 = Some (n 9).
Proof.
  cbv zeta. eexists. eexists.
  split; [vm_compute; reflexivity|].
  split; [reflexivity|].
  split; [vm_compute; reflexivity|].
  split; reflexivity.
Qed.

End CalleeLocals.

(* ===================================================================== *)
(** * Integer literals and splitting                                      *)
(* ===================================================================== *)

Section Literals.
Import Py Z3 VM Inv.

Lemma digits_of_uint_acc (d : Decimal.uint) (acc : positive) :
  digits 10 (Z.pos acc) (NilEmpty.string_of_uint d) = Some (Z.pos (Pos.of_uint_acc d acc)).
Proof.
  revert acc. induction d; intros acc; cbn [NilEmpty.string_of_uint digits Pos.of_uint_acc];
    [reflexivity | ..];
    match goal with
    | |- context [digit_of 10 ?c] =>
        let v := eval vm_compute in (digit_of 10 c) in change (digit_of 10 c) with v
    end; cbv iota;
    match goal with
    | |- digits 10 ?a _ = Some (Z.pos (Pos.of_uint_acc _ ?b)) =>
        replace a with (Z.pos b) by lia
    end; apply IHd.
Qed.

Lemma digits_of_uint (d : Decimal.uint) :
  digits 10 0 (NilEmpty.string_of_uint d) = Some (Z.of_N (Pos.of_uint d)).
Proof.
  induction d; cbn [NilEmpty.string_of_uint digits Pos.of_uint];
    [reflexivity | ..];
    match goal with
    | |- context [digit_of 10 ?c] =>
        let v := eval vm_compute in (digit_of 10 c) in change (digit_of 10 c) with v
    end; cbv iota; [exact IHd | ..];
    match goal with
    | |- digits 10 ?a _ = Some (Z.of_N (N.pos (Pos.of_uint_acc _ ?b))) =>
        change a with (Z.pos b)
    end; apply digits_of_uint_acc.
Qed.

Lemma unsigned_lit_to_uint (p : positive) :
  unsigned_lit 10 (NilZero.string_of_uint (Pos.to_uint p)) = Some (Z.pos p).
Proof.
  pose proof (DecimalPos.Unsigned.to_uint_nonnil p) as Hnn.
  pose proof (DecimalPos.Unsigned.of_to p) as Hof.
  pose proof (digits_of_uint (Pos.to_uint p)) as Hd.
  rewrite Hof in Hd.
  destruct (Pos.to_uint p); [congruence | ..]; exact Hd.
Qed.

(** Reading back a printed integer gives the integer. *)
Lemma signed_lit_str_of_int (z : Z) : signed_lit 10 (str_of_int z) = Some z.
Proof.
  unfold str_of_int. destruct z as [|p|p]; cbn [Z.to_int NilZero.string_of_int].
  - reflexivity.
  - pose proof (unsigned_lit_to_uint p) as H.
    pose proof (DecimalPos.Unsigned.to_uint_nonnil p) as Hnn.
    destruct (Pos.to_uint p); [congruence | ..]; exact H.
  - cbn [signed_lit]. rewrite unsigned_lit_to_uint. reflexivity.
Qed.

Lemma split_lacks (sep : ascii) (s : string) :
  lacks sep s = true -> split sep s = [s].
Proof.
  unfold lacks. induction s as [|c s IH]; [reflexivity|].
  cbn [list_ascii_of_string forallb split]. intros H.
  apply andb_true_iff in H. destruct H as [Hc Hs].
  apply negb_true_iff in Hc. rewrite Hc, (IH Hs). reflexivity.
Qed.

Lemma split_app (sep : ascii) (p s : string) :
  lacks sep p = true ->
  split sep (p +:+ String sep s) = p :: split sep s.
Proof.
  unfold lacks. induction p as [|c p IH]; cbn [list_ascii_of_string forallb].
  - intros _. change ("" +:+ String sep s) with (String sep s).
    cbn [split]. now rewrite Ascii.eqb_refl.
  - intros H. apply andb_true_iff in H. destruct H as [Hc Hp].
    apply negb_true_iff in Hc.
    change (String c p +:+ String sep s) with (String c (p +:+ String sep s)).
    cbn [split]. rewrite Hc, (IH Hp). reflexivity.
Qed.

Lemma digits_lacks (base acc : Z) (s : string) (z : Z) (c : ascii) :
  digit_of base c = None -> digits base acc s = Some z -> lacks c s = true.
Proof.
  intros Hc. unfold lacks. revert acc.
  induction s as [|x s IH]; intros acc; [reflexivity|].
  cbn [digits list_ascii_of_string forallb].
  destruct (digit_of base x) eqn:Hx; [|discriminate].
  intros H. rewrite (IH _ H), andb_true_r.
  apply negb_true_iff. destruct (Ascii.eqb_spec x c); [congruence | reflexivity].
Qed.

Lemma signed_lit_lacks (s : string) (z : Z) (c : ascii) :
  digit_of 10 c = None -> c <> "-"%char -> c <> "+"%char ->
  signed_lit 10 s = Some z -> lacks c s = true.
Proof.
  intros Hc Hm Hp H.
  assert (Hu : forall s' v, unsigned_lit 10 s' = Some v -> lacks c s' = true).
  { intros s' v Hv. destruct s'; [reflexivity|]. exact (digits_lacks 10 0 _ v c Hc Hv). }
  assert (Hcons : forall x s', x <> c -> lacks c s' = true -> lacks c (String x s') = true).
  { intros x s' Hx Hs. unfold lacks in *. cbn [list_ascii_of_string forallb].
    rewrite Hs, andb_true_r. apply negb_true_iff.
    destruct (Ascii.eqb_spec x c); [contradiction | reflexivity]. }
  destruct s as [|x s]; [reflexivity|].
  destruct (Ascii.eqb_spec x "-") as [->|Hnm].
  { cbn [signed_lit] in H. destruct (unsigned_lit 10 s) eqn:Hv; [|discriminate].
    apply Hcons; [congruence | eauto]. }
  destruct (Ascii.eqb_spec x "+") as [->|Hnp].
  { cbn [signed_lit] in H. apply Hcons; [congruence | eauto]. }
  assert (Hsame : signed_lit 10 (String x s) = unsigned_lit 10 (String x s)).
  { unfold signed_lit.
    destruct x as [[] [] [] [] [] [] [] []]; try reflexivity; congruence. }
  rewrite Hsame in H. eauto.
Qed.

End Literals.

(* ===================================================================== *)
(** * Constants                                                           *)
(* ===================================================================== *)

Section Constants.
Import Py Z3 VM Inv ConstantInstructions.

Variable T : theory.

Lemma str_of_int_lacks_space (n : Z) : lacks " " (str_of_int n) = true.
Proof.
  apply (signed_lit_lacks _ n); [reflexivity | discriminate | discriminate |].
  apply signed_lit_str_of_int.
Qed.

(** The pieces of an instruction text made of a mnemonic and one operand
    without blanks. *)
Lemma split_mnemonic_operand (mnemonic operand : string) :
  lacks " " mnemonic = true ->
  lacks " " operand = true ->
  split " " (mnemonic +:+ String " " operand) = [mnemonic; operand].
Proof.
  intros Hm Ho. now rewrite (split_app " " mnemonic operand Hm), (split_lacks " " operand Ho).
Qed.

(** [i32.const] and [i64.const] with a decimal operand, negative ones
    included, push the operand reduced modulo two to the width. *)
Theorem int_const_pushes_operand_modulo_width
    (name : string) (operand : list Z) (n : Z) (st : State) :
  let emu := fun text =>
    emulate T {| instr_name := name; instr_operand := operand; instr_string := text |} st in
  emu ("i32.const " +:+ str_of_int n) = Returns [push (numeral 32 (n mod 2 ^ 32)) st]
  /\ emu ("i64.const " +:+ str_of_int n) = Returns [push (numeral 64 (n mod 2 ^ 64)) st].
Proof.
  cbv zeta. unfold emulate. cbn [instr_string].
  change ("i32.const " +:+ str_of_int n) with ("i32.const" +:+ String " " (str_of_int n)).
  change ("i64.const " +:+ str_of_int n) with ("i64.const" +:+ String " " (str_of_int n)).
  rewrite !split_mnemonic_operand by (reflexivity || apply str_of_int_lacks_space).
  cbn [hd last_piece List.last].
  change (split "." "i32.const") with ["i32"; "const"].
  change (split "." "i64.const") with ["i64"; "const"].
  cbv iota.
  change (String.eqb "i32" "i32") with true.
  change (String.eqb "i64" "i32") with false.
  change (String.eqb "i64" "i64") with true.
  cbv iota. unfold BitVecVal_of_str. rewrite signed_lit_str_of_int.
  split; reflexivity.
Qed.

Lemma digits_zeros (n : nat) (h : string) :
  digits 16 0 (zeros n +:+ h) = digits 16 0 h.
Proof.
  induction n as [|n IH]; [reflexivity|].
  change (zeros (S n) +:+ h) with (String "0" (zeros n +:+ h)).
  cbn [digits]. change (digit_of 16 "0") with (Some 0). exact IH.
Qed.

Lemma length_zeros_app (n : nat) (h : string) :
  String.length (zeros n +:+ h) = (n + String.length h)%nat.
Proof.
  induction n as [|n IH]; [reflexivity|].
  change (zeros (S n) +:+ h) with (String "0" (zeros n +:+ h)).
  cbn [String.length]. now rewrite IH.
Qed.

Lemma match_here_lacks (s : string) : lacks ";" s = true -> match_here s = None.
Proof.
  destruct s as [|c s]; [reflexivity|]. unfold lacks.
  cbn [list_ascii_of_string forallb]. intros H.
  apply andb_true_iff in H. destruct H as [Hc _]. apply negb_true_iff in Hc.
  unfold match_here.
  destruct c as [[] [] [] [] [] [] [] []]; try reflexivity; discriminate.
Qed.

(** Without a semicolon there is no annotation to find. *)
Lemma re_search_lacks (s : string) : lacks ";" s = true -> re_search s = None.
Proof.
  induction s as [|c s IH]; [reflexivity|]. intros H.
  cbn [re_search]. rewrite (match_here_lacks _ H).
  apply IH. unfold lacks in *. cbn [list_ascii_of_string forallb] in H.
  apply andb_true_iff in H. tauto.
Qed.

Lemma hex_operand_lacks (c : ascii) (h : string) (z : Z) :
  digit_of 16 c = None -> c <> "x"%char ->
  digits 16 0 h = Some z -> lacks c ("0x" +:+ h) = true.
Proof.
  intros Hc Hx Hd.
  change ("0x" +:+ h) with (String "0" (String "x" h)).
  unfold lacks. cbn [list_ascii_of_string forallb].
  fold (lacks c h). rewrite (digits_lacks 16 0 h z c Hc Hd), andb_true_r.
  apply andb_true_iff. split; apply negb_true_iff.
  - destruct (Ascii.eqb_spec "0" c) as [<-|]; [discriminate Hc | reflexivity].
  - destruct (Ascii.eqb_spec "x" c) as [<-|]; [congruence | reflexivity].
Qed.

(** What [bytes.fromhex] and [unpack] make of the zero-padded digits. *)
Lemma unpack_hex_padded (nbytes : nat) (h : string) (z : Z) :
  digits 16 0 h = Some z ->
  unpack_hex nbytes (zeros (2 * nbytes - String.length h) +:+ h)
  = if (String.length h <=? 2 * nbytes)%nat then Ok z
    else if Nat.even (String.length h) then Err StructError else Err ValueError.
Proof.
  intros Hd. unfold unpack_hex. rewrite digits_zeros, Hd, length_zeros_app.
  destruct (Nat.leb_spec (String.length h) (2 * nbytes)) as [Hle|Hgt].
  - replace (2 * nbytes - String.length h + String.length h)%nat with (2 * nbytes)%nat by lia.
    rewrite Nat.eqb_refl.
    replace (Nat.even (2 * nbytes)) with true; [reflexivity|].
    symmetry. apply Nat.even_spec. now exists nbytes.
  - replace (2 * nbytes - String.length h + String.length h)%nat with (String.length h) by lia.
    destruct (Nat.even (String.length h)); [|reflexivity].
    destruct (Nat.eqb_spec (String.length h) (2 * nbytes)); [lia | reflexivity].
Qed.

(** [f32.const] and [f64.const] whose operand is [0x] followed by
    hexadecimal digits (and no annotation): the digits, padded with zeros
    on the left to 8 (16) of them, are read as the IEEE-754 bit pattern
    of the constant.  More digits than that are rejected, by [unpack] when
    their number is even and by [bytes.fromhex] when it is odd. *)
Theorem float_const_hex_is_bit_pattern
    (name : string) (operand : list Z) (h : string) (z : Z) (st : State) :
  digits 16 0 h = Some z ->
  let emu := fun text =>
    emulate T {| instr_name := name; instr_operand := operand; instr_string := text |} st in
  emu ("f32.const 0x" +:+ h)
  = (if (String.length h <=? 8)%nat
     then Returns [push (PyExpr (FPVal (fp_of_bits 8 24 z) 8 24)) st]
     else if Nat.even (String.length h) then Raises StructError else Raises ValueError)
  /\ emu ("f64.const 0x" +:+ h)
     = (if (String.length h <=? 16)%nat
        then Returns [push (PyExpr (FPVal (fp_of_bits 11 53 z) 11 53)) st]
        else if Nat.even (String.length h) then Raises StructError else Raises ValueError).
Proof.
  intros Hd. cbv zeta. unfold emulate. cbn [instr_string].
  change ("f32.const 0x" +:+ h) with ("f32.const" +:+ String " " ("0x" +:+ h)).
  change ("f64.const 0x" +:+ h) with ("f64.const" +:+ String " " ("0x" +:+ h)).
  rewrite !split_mnemonic_operand
    by (reflexivity || (apply (hex_operand_lacks _ h z); [reflexivity | discriminate | exact Hd])).
  cbn [hd last_piece List.last].
  change (split "." "f32.const") with ["f32"; "const"].
  change (split "." "f64.const") with ["f64"; "const"].
  cbv iota.
  change (String.eqb "f32" "i32") with false. change (String.eqb "f32" "i64") with false.
  change (String.eqb "f64" "i32") with false. change (String.eqb "f64" "i64") with false.
  change (String.eqb "f32" "f32") with true. change (String.eqb "f64" "f32") with false.
  change (String.eqb "f64" "f64") with true.
  cbn [orb]. cbv iota.
  rewrite (re_search_lacks ("0x" +:+ h))
    by (apply (hex_operand_lacks _ h z); [reflexivity | discriminate | exact Hd]).
  assert (Htake : take 2 ("0x" +:+ h) = "0x") by (unfold take; now destruct h).
  rewrite Htake. change (String.eqb "0x" "0x") with true. cbv iota zeta.
  change (Py.drop 2 ("0x" +:+ h)) with h.
  pose proof (unpack_hex_padded 4 h z Hd) as H4. change (2 * 4)%nat with 8%nat in H4.
  pose proof (unpack_hex_padded 8 h z Hd) as H8. change (2 * 8)%nat with 16%nat in H8.
  rewrite H4, H8.
  split.
  - destruct (String.length h <=? 8)%nat; [reflexivity|].
    now destruct (Nat.even (String.length h)).
  - destruct (String.length h <=? 16)%nat; [reflexivity|].
    now destruct (Nat.even (String.length h)).
Qed.

End Constants.

(** On an input: [f32.const 0x3f800000] pushes the float [1.0]. *)
Lemma float_const_hex_is_bit_pattern_witness :
  let emu := fun text =>
    ConstantInstructions.emulate Sample.theory
      {| VM.instr_name := "f32.const"; VM.instr_operand := []; VM.instr_string := text |}
      Sample.init in
  emu ("f32.const 0x" +:+ "3f800000")
  = VM.Returns [VM.push (VM.PyExpr (Z3.FPVal (Z3.fp_of_bits 8 24 0x3F800000) 8 24))
                  Sample.init]
  /\ emu ("f64.const 0x" +:+ "3f800000")
     = VM.Returns [VM.push (VM.PyExpr (Z3.FPVal (Z3.fp_of_bits 11 53 0x3F800000) 11 53))
                     Sample.init].
Proof.
  exact (float_const_hex_is_bit_pattern Sample.theory "f32.const" [] "3f800000"
           0x3F800000 Sample.init eq_refl).
Defined.

(* ===================================================================== *)
(** * Locals and globals: writing, then reading                           *)
(* ===================================================================== *)

Section VariableRoundTrips.
Import Py Z3 VM Inv VariableInstructions.

Variable local_default : option pyval.
Variable global_default : option pyval.

Lemma subscript_insert (default : option pyval) (d : gmap Z pyval) (k : Z) (v : pyval) :
  subscript default (<[k := v]> d) k = Ok (v, <[k := v]> d).
Proof. unfold subscript. now rewrite lookup_insert_eq. Qed.

Ltac run_variable :=
  unfold emulate; cbn [instr_name instr_operand];
  cbn [String.eqb Ascii.eqb Bool.eqb]; cbv iota;
  cbn [pop push symbolic_stack set_symbolic_stack local_var set_local_var globals
       set_globals mbind res_bind Py.bind run and_then].

(** [set_local k] followed by [get_local k] leaves the value that was on
    top of the stack both in local [k] and on top of the stack, whatever
    the value and whatever the mapping class of the locals; [tee_local k]
    does the same in one step. *)
Theorem set_local_then_get_local (operand : list Z) (text : string) (v : pyval) (st : State) :
  let k := from_bytes_little (strip_marker operand) in
  let ins := fun name =>
    {| instr_name := name; instr_operand := operand; instr_string := text |} in
  let emu := emulate local_default global_default in
  let after := push v (set_local_var (<[k := v]> (local_var st)) st) in
  and_then (emu (ins "set_local") (push v st)) (emu (ins "get_local")) = Returns [after]
  /\ emu (ins "tee_local") (push v st) = Returns [after].
Proof.
  cbv zeta. split.
  - run_variable.
    match goal with
    | |- context [get_is_not_None ?m ?k] => destruct (get_is_not_None m k)
    end; rewrite subscript_insert; reflexivity.
  - run_variable. reflexivity.
Qed.

(** [set_global k] followed by [get_global k]: a bit-vector term comes
    back as it was stored; a term of any other sort (a float, a Boolean)
    is stored without complaint and cannot be read back.  A global holding
    a Python integer is read as a 32-bit numeral. *)
Theorem set_global_then_get_global (operand : list Z) (text : string)
    (e : expr) (z : Z) (st : State) :
  let k := from_bytes_little (strip_marker operand) in
  let ins := fun name =>
    {| instr_name := name; instr_operand := operand; instr_string := text |} in
  let emu := emulate local_default global_default in
  and_then (emu (ins "set_global") (push (PyExpr e) st)) (emu (ins "get_global"))
  = (if Z3.is_bv e
     then Returns [push (PyExpr e) (set_globals (<[k := PyExpr e]> (globals st)) st)]
     else Raises UnsupportGlobalTypeError)
  /\ emu (ins "get_global") (set_globals (<[k := PyInt z]> (globals st)) st)
     = Returns [push (numeral 32 (z mod 2 ^ 32))
                  (set_globals (<[k := PyInt z]> (globals st)) st)].
Proof.
  cbv zeta. split.
  - run_variable. rewrite subscript_insert.
    cbn [mbind res_bind Py.bind VM.is_bv VM.is_bv_value].
    destruct (Z3.is_bv e) eqn:Hbv; cbn [orb]; [reflexivity|].
    assert (Hval : Z3.is_bv_value e = false).
    { destruct e; try reflexivity. discriminate Hbv. }
    rewrite Hval. reflexivity.
  - run_variable. rewrite subscript_insert. reflexivity.
Qed.

End VariableRoundTrips.

(* ===================================================================== *)
(** * [select] and [drop]                                                 *)
(* ===================================================================== *)

Section Select.
Import Py Z3 VM Inv ParametricInstructions.

Variable check : Z3.solver -> expr -> CheckSatResult.

(** The condition [select] tests, for a bit-vector numeral. *)
Lemma simplify_eq_zero_numeral (c : Z) (w : N) :
  simplify (eq_int (BitVecVal c w) w 0) = BoolVal (c mod 2 ^ Z.of_N w =? 0).
Proof.
  unfold eq_int, bv. cbn [simplify]. unfold fold_bin. cbn [as_val].
  unfold compute_bin. cbn [val_sort sort_eqb]. rewrite N.eqb_refl.
  cbn [bin_sort cast of_val val_eqb]. rewrite N.eqb_refl.
  rewrite !wrap_wrap, !wrap_0. reflexivity.
Qed.

(** [select] on a concrete condition returns one state: the condition and
    the two operands are popped, and the operand popped second (the one
    pushed last) is pushed back when the condition is zero, the operand
    popped third otherwise.  No constraint is added. *)
Theorem select_concrete_condition
    (operand : list Z) (text : string) (c : Z) (w : N) (v1 v2 : pyval) (st : State) :
  emulate check {| instr_name := "select"; instr_operand := operand; instr_string := text |}
    (push (numeral w c) (push v1 (push v2 st)))
  = Returns [push (if c mod 2 ^ Z.of_N w =? 0 then v1 else v2) st].
Proof.
  unfold emulate, numeral. cbn [instr_name String.eqb Ascii.eqb Bool.eqb]. cbv iota.
  cbn [pop push symbolic_stack set_symbolic_stack mbind res_bind Py.bind
       VM.is_bv Z3.is_bv get_sort orb Py.assert the_expr VM.size].
  rewrite simplify_eq_zero_numeral.
  destruct (c mod 2 ^ Z.of_N w =? 0); reflexivity.
Qed.

(** A Boolean condition passes the assertion of [select] (which admits
    [bv or bool]) but [op] is assigned for bit-vectors only: the test that
    follows raises [UnboundLocalError]. *)
Theorem select_boolean_condition_unbound
    (operand : list Z) (text : string) (c : expr) (v1 v2 : pyval) (st : State) :
  Z3.is_bool c = true ->
  emulate check {| instr_name := "select"; instr_operand := operand; instr_string := text |}
    (push (PyExpr c) (push v1 (push v2 st)))
  = Raises (UnboundLocalError "op").
Proof.
  intros Hb. unfold emulate. cbn [instr_name String.eqb Ascii.eqb Bool.eqb]. cbv iota.
  cbn [pop push symbolic_stack set_symbolic_stack mbind res_bind Py.bind
       VM.is_bv VM.is_bool].
  assert (Hbv : Z3.is_bv c = false).
  { unfold Z3.is_bool in Hb. unfold Z3.is_bv. now destruct (get_sort c). }
  rewrite Hb, Hbv. reflexivity.
Qed.

End Select.

(** On an input: the Boolean symbol [b] as condition. *)
Lemma select_boolean_condition_unbound_witness :
  ParametricInstructions.emulate Sample.one_time_query_cache
    {| VM.instr_name := "select"; VM.instr_operand := []; VM.instr_string := "select" |}
    (VM.push (VM.PyExpr (Z3.BoolSym "b"))
       (VM.push (Sample.num 5) (VM.push (Sample.num 9) Sample.init)))
  = VM.Raises (Py.UnboundLocalError "op").
Proof.
  exact (select_boolean_condition_unbound Sample.one_time_query_cache [] "select"
           (Z3.BoolSym "b") (Sample.num 5) (Sample.num 9) Sample.init eq_refl).
Defined.

(* ===================================================================== *)
(** * No feasible path is lost                                            *)
(* ===================================================================== *)

Section FeasiblePaths.
Import Py Z3 VM Inv.

Variable T : theory.
Variable rho : valuation.

Lemma eval_bv_inv (a : expr) (w : N) :
  get_sort a = BitVecSort w -> exists z, eval T rho a = VBV w z.
Proof.
  intros Hs. pose proof (eval_sort T rho a) as H. rewrite Hs in H.
  destruct (eval T rho a); try discriminate. injection H as ->. eauto.
Qed.

Lemma eval_eq_int (a : expr) (w : N) (z k : Z) :
  eval T rho a = VBV w z ->
  eval T rho (eq_int a w k) = VBool (z =? k mod 2 ^ Z.of_N w).
Proof.
  intros Ha. unfold eq_int, bv. cbn [eval get_sort bin_sort]. rewrite Ha.
  unfold apply_bin, compute_bin. cbn [val_sort sort_eqb]. rewrite N.eqb_refl.
  cbn [cast val_eqb]. rewrite N.eqb_refl, wrap_wrap. reflexivity.
Qed.

Lemma eval_ne_int (a : expr) (w : N) (z k : Z) :
  eval T rho a = VBV w z ->
  eval T rho (ne_int a w k) = VBool (negb (z =? k mod 2 ^ Z.of_N w)).
Proof.
  intros Ha. unfold ne_int, bv. cbn [eval get_sort bin_sort]. rewrite Ha.
  unfold apply_bin, compute_bin. cbn [val_sort sort_eqb]. rewrite N.eqb_refl.
  cbn [cast val_eqb]. rewrite N.eqb_refl, wrap_wrap. reflexivity.
Qed.

Lemma eval_Not (e : expr) (b : bool) :
  eval T rho e = VBool b -> eval T rho (Not e) = VBool (negb b).
Proof. intros H. cbn [eval]. rewrite H. reflexivity. Qed.

(** A constraint the valuation satisfies is not reported [unsat] by a
    sound check. *)
Lemma sound_check_not_unsat (check : Z3.solver -> expr -> CheckSatResult)
    (s : Z3.solver) (e : expr) :
  sound_check T check -> models T rho s -> eval T rho e = VBool true ->
  is_unsat (check s e) = false.
Proof.
  intros Hsound Hm He. destruct (check s e) eqn:Hc; try reflexivity.
  exfalso. apply (Hsound s e Hc rho). apply models_add. split; assumption.
Qed.

(** [select] with a bit-vector condition and a sound satisfiability
    check: every valuation that satisfies the path constraint of the state
    satisfies the path constraint of one of the returned states, and that
    state has on top of its stack the operand the valuation selects (the
    one popped second when the condition is zero under the valuation, the
    one popped third otherwise). *)
Theorem select_follows_every_model
    (check : Z3.solver -> expr -> CheckSatResult)
    (operand : list Z) (text : string) (a : expr) (w : N) (v1 v2 : pyval) (st : State) :
  sound_check T check ->
  get_sort a = BitVecSort w ->
  models T rho (solver st) ->
  exists st',
    In st' (successors
              (ParametricInstructions.emulate check
                 {| instr_name := "select"; instr_operand := operand; instr_string := text |}
                 (push (PyExpr a) (push v1 (push v2 st)))))
    /\ models T rho (solver st')
    /\ symbolic_stack st'
       = (if unsigned_value T rho a =? 0 then v1 else v2) :: symbolic_stack st.
Proof.
  intros Hsound Hs Hm.
  destruct (eval_bv_inv a w Hs) as [z Hz].
  unfold unsigned_value. rewrite Hz.
  unfold ParametricInstructions.emulate.
  cbn [instr_name String.eqb Ascii.eqb Bool.eqb]. cbv iota.
  cbn [pop push symbolic_stack set_symbolic_stack mbind res_bind Py.bind
       VM.is_bv VM.is_bool VM.size the_expr].
  unfold Z3.is_bv. rewrite Hs. cbn [orb Py.assert mbind res_bind Py.bind].
  set (op := simplify (eq_int a w 0)).
  assert (Hop : eval T rho op = VBool (z =? 0)).
  { unfold op. rewrite eval_simplify, (eval_eq_int a w z 0 Hz). reflexivity. }
  destruct (is_true op) eqn:Ht.
  { apply is_true_inv in Ht. rewrite Ht in Hop. injection Hop as <-.
    eexists. split; [left; reflexivity|]. split; [exact Hm | reflexivity]. }
  destruct (is_false op) eqn:Hf.
  { apply is_false_inv in Hf. rewrite Hf in Hop. injection Hop as <-.
    eexists. split; [left; reflexivity|]. split; [exact Hm | reflexivity]. }
  cbn [negb andb solver set_symbolic_stack push].
  destruct (z =? 0) eqn:Hz0.
  - rewrite (sound_check_not_unsat check (solver st) op Hsound Hm Hop).
    cbn [andb negb].
    assert (Hadd : models T rho (Z3.add (solver st) op))
      by (apply models_add; split; assumption).
    destruct (is_unsat (check (solver st) (Not op)));
      (eexists; split; [left; reflexivity|]; split; [exact Hadd | reflexivity]).
  - pose proof (eval_Not op _ Hop) as Hnot. cbn [negb] in Hnot.
    rewrite (sound_check_not_unsat check (solver st) (Not op) Hsound Hm Hnot).
    assert (Hadd : models T rho (Z3.add (solver st) (Not op)))
      by (apply models_add; split; assumption).
    destruct (is_unsat (check (solver st) op)); cbn [andb negb].
    + eexists; split; [left; reflexivity|]; split; [exact Hadd | reflexivity].
    + eexists; split; [right; left; reflexivity|]; split; [exact Hadd | reflexivity].
Qed.

(** The branch taken by [br_if] / [if] once the condition is a Boolean
    term whose value under the valuation is known. *)
Lemma branch_follows_model (check : Z3.solver -> expr -> CheckSatResult)
    (op : expr) (t : bool) (st : State) :
  sound_check T check ->
  eval T rho op = VBool t ->
  models T rho (solver st) ->
  exists st',
    In st' (successors (ControlInstructions.branch check op st))
    /\ models T rho (solver st')
    /\ edge_type st' = (if t then "conditional_true_0" else "conditional_false_0")
    /\ symbolic_stack st' = symbolic_stack st.
Proof.
  intros Hsound Hop Hm. unfold ControlInstructions.branch.
  destruct (is_true op) eqn:Ht.
  { apply is_true_inv in Ht. rewrite Ht in Hop. injection Hop as <-.
    eexists. split; [left; reflexivity|]. repeat split. exact Hm. }
  destruct (is_false op) eqn:Hf.
  { apply is_false_inv in Hf. rewrite Hf in Hop. injection Hop as <-.
    eexists. split; [left; reflexivity|]. repeat split. exact Hm. }
  cbn [negb andb].
  destruct t.
  - rewrite (sound_check_not_unsat check (solver st) op Hsound Hm Hop).
    cbn [andb negb].
    assert (Hadd : models T rho (Z3.add (solver st) op))
      by (apply models_add; split; assumption).
    destruct (is_unsat (check (solver st) (Not op)));
      (eexists; split; [left; reflexivity|]; repeat split; exact Hadd).
  - pose proof (eval_Not op _ Hop) as Hnot. cbn [negb] in Hnot.
    rewrite (sound_check_not_unsat check (solver st) (Not op) Hsound Hm Hnot).
    assert (Hadd : models T rho (Z3.add (solver st) (Not op)))
      by (apply models_add; split; assumption).
    destruct (is_unsat (check (solver st) op)); cbn [andb negb].
    + eexists; split; [left; reflexivity|]; repeat split; exact Hadd.
    + eexists; split; [right; left; reflexivity|]; repeat split; exact Hadd.
Qed.

(** [br_if] / [if] with a sound satisfiability check: every valuation
    that satisfies the path constraint of the state satisfies the path
    constraint of one of the returned states, and the edge of that state
    is the one the valuation takes ([conditional_true_0] when the
    condition is non-zero or true under it, [conditional_false_0]
    otherwise). *)
Theorem branch_follows_every_model
    (cfg : ControlInstructions.Configuration) (readable : string -> string)
    (check : Z3.solver -> expr -> CheckSatResult)
    (c_emul go_emul wasi_emul : string -> State -> string -> string -> outcome)
    (assert_fail : Z) (i : Instruction) (analyzer : ControlInstructions.Analyzer)
    (a : expr) (st : State) :
  sound_check T check ->
  instr_name i = "br_if" \/ instr_name i = "if" ->
  Z3.is_bv a = true \/ Z3.is_bool a = true ->
  models T rho (solver st) ->
  exists st',
    In st' (successors
              (ControlInstructions.emulate cfg readable check c_emul go_emul wasi_emul
                 assert_fail i (push (PyExpr a) st) analyzer))
    /\ models T rho (solver st')
    /\ edge_type st' = (if taken T rho a then "conditional_true_0" else "conditional_false_0")
    /\ symbolic_stack st' = symbolic_stack st.
Proof.
  intros Hsound Hname Hsort Hm.
  assert (Hop : exists op,
    ((exists w, get_sort a = BitVecSort w /\ op = simplify (ne_int a w 0))
     \/ (Z3.is_bool a = true /\ op = a))
    /\ eval T rho op = VBool (taken T rho a)).
  { destruct Hsort as [Hbv | Hb].
    - unfold Z3.is_bv in Hbv. destruct (get_sort a) as [|w|] eqn:Hs; try discriminate.
      destruct (eval_bv_inv a w Hs) as [z Hz].
      exists (simplify (ne_int a w 0)). split; [left; eauto|].
      rewrite eval_simplify, (eval_ne_int a w z 0 Hz). unfold taken. rewrite Hz.
      reflexivity.
    - destruct (eval_bool T rho a Hb) as [b Hv].
      exists a. split; [right; auto|]. unfold taken. now rewrite Hv. }
  destruct Hop as [op [Hshape Hev]].
  rewrite (emulate_branch cfg readable check c_emul go_emul wasi_emul assert_fail
             i (push (PyExpr a) st) analyzer a op (symbolic_stack st) Hname eq_refl Hshape).
  exact (branch_follows_model check op (taken T rho a)
           (set_symbolic_stack (symbolic_stack st) (push (PyExpr a) st)) Hsound Hev Hm).
Qed.

(** ** [br_table] *)















End FeasiblePaths.

(** The sample solver is a sound check. *)
Lemma sample_check_sound : Inv.sound_check Sample.theory Sample.one_time_query_cache.
Proof. intros s e H rho. exact (sample_unsat_sound s e H Sample.theory rho). Qed.

(** On an input: [select] on the unconstrained symbol [x] over 5 and 9,
    under the valuation that sends [x] to 0. *)
Lemma select_follows_every_model_witness :
  exists st',
    In st' (VM.successors
              (ParametricInstructions.emulate Sample.one_time_query_cache
                 {| VM.instr_name := "select"; VM.instr_operand := [];
                    VM.instr_string := "select" |}
                 (VM.push (VM.PyExpr Sample.x32)
                    (VM.push (Sample.num 5) (VM.push (Sample.num 9) Sample.init)))))
    /\ Z3.models Sample.theory (Sample.const_valuation 0) (VM.solver st')
    /\ VM.symbolic_stack st'
       = (if Inv.unsigned_value Sample.theory (Sample.const_valuation 0) Sample.x32 =? 0
          then Sample.num 5 else Sample.num 9) :: VM.symbolic_stack Sample.init.
Proof.
  exact (select_follows_every_model Sample.theory (Sample.const_valuation 0)
           Sample.one_time_query_cache [] "select" Sample.x32 32
           (Sample.num 5) (Sample.num 9) Sample.init
           sample_check_sound eq_refl (List.Forall_nil _)).
Defined.

(** On an input: [br_if] on the unconstrained symbol [x], under the
    valuation that sends [x] to 1. *)
Lemma branch_follows_every_model_witness :
  exists st',
    In st' (VM.successors
              (Sample.control
                 {| VM.instr_name := "br_if"; VM.instr_operand := [];
                    VM.instr_string := "br_if 0" |}
                 (VM.push (VM.PyExpr Sample.x32) Sample.init) Sample.no_analyzer))
    /\ Z3.models Sample.theory (Sample.const_valuation 1) (VM.solver st')
    /\ VM.edge_type st'
       = (if Inv.taken Sample.theory (Sample.const_valuation 1) Sample.x32
          then "conditional_true_0" else "conditional_false_0")
    /\ VM.symbolic_stack st' = VM.symbolic_stack Sample.init.
Proof.
  exact (branch_follows_every_model Sample.theory (Sample.const_valuation 1)
           Sample.cfg (fun n => n) Sample.one_time_query_cache
           Sample.lib_emul Sample.lib_emul Sample.lib_emul 1
           {| VM.instr_name := "br_if"; VM.instr_operand := [];
              VM.instr_string := "br_if 0" |}
           Sample.no_analyzer Sample.x32 Sample.init
           sample_check_sound (or_introl eq_refl) (or_introl eq_refl) (List.Forall_nil _)).
Defined.


(* ===================================================================== *)
(** * Integer arithmetic on numerals                                      *)
(* ===================================================================== *)

(** Evaluates the tests an emulator makes on a literal instruction
    name. *)
Ltac decide_names :=
  repeat match goal with
         | |- context [Py.contains ?a ?b] =>
             let v := eval vm_compute in (Py.contains a b) in
             change (Py.contains a b) with v
         | |- context [Py.take ?n ?b] =>
             let v := eval vm_compute in (Py.take n b) in change (Py.take n b) with v
         | |- context [String.eqb ?a ?b] =>
             let v := eval vm_compute in (String.eqb a b) in change (String.eqb a b) with v
         | |- context [VM.in_list ?a ?b] =>
             let v := eval vm_compute in (VM.in_list a b) in change (VM.in_list a b) with v
         end.

Section IntegerArithmetic.
Import Py Z3 VM Inv.

(** [simplify] on a binary bit-vector operator applied to two numerals. *)
Lemma simplify_bv_bin (op : binop) (w : N) (x y r : Z) :
  bin_sort op (BitVecSort w) = BitVecSort w ->
  bv_bin op w (wrap w x) (wrap w y) = Some (VBV w r) ->
  simplify (Bin op (BitVecVal x w) (BitVecVal y w)) = BitVecVal (wrap w r) w.
Proof.
  intros Hsort Hbin.
  assert (Hcomp : compute_bin op (VBV w (wrap w x)) (VBV w (wrap w y))
                  = bv_bin op w (wrap w x) (wrap w y)).
  { destruct op; try discriminate Hbin; cbn [compute_bin]; now rewrite N.eqb_refl. }
  cbn [simplify]. unfold fold_bin. cbn [as_val get_sort].
  rewrite !wrap_wrap, Hcomp, Hbin, Hsort. cbn [cast of_val].
  now rewrite N.eqb_refl.
Qed.

(** What a binary integer instruction does to two numerals of its own
    width, given the term it builds. *)
Lemma int_binary_on_numerals (str : expr -> string) (name : string)
    (operand : list Z) (text : string) (op : binop) (w : N) (x y r : Z) (st : State) :
  ArithmeticInstructions.helper_map (take 3 name) = Ok (ArithmeticInstructions.HInt w) ->
  take 1 name = "i" ->
  contains ".clz" name || contains ".ctz" name = false ->
  contains ".popcnt" name = false ->
  (if contains ".sub" name then Ok (Bin Obvsub (BitVecVal x w) (BitVecVal y w))
   else if contains ".add" name then Ok (Bin Obvadd (BitVecVal x w) (BitVecVal y w))
   else if contains ".mul" name then Ok (Bin Obvmul (BitVecVal x w) (BitVecVal y w))
   else if contains ".div_s" name then Ok (Bin Obvsdiv (BitVecVal x w) (BitVecVal y w))
   else if contains ".div_u" name then Ok (UDiv (BitVecVal x w) (BitVecVal y w))
   else if contains ".rem_s" name then Ok (SRem (BitVecVal x w) (BitVecVal y w))
   else if contains ".rem_u" name then Ok (URem (BitVecVal x w) (BitVecVal y w))
   else Err UnsupportInstructionError) = Ok (Bin op (BitVecVal x w) (BitVecVal y w)) ->
  simplify (Bin op (BitVecVal x w) (BitVecVal y w)) = BitVecVal r w ->
  ArithmeticInstructions.emulate str
    {| instr_name := name; instr_operand := operand; instr_string := text |}
    (push (numeral w y) (push (numeral w x) st))
  = Returns [push (numeral w r) st].
Proof.
  intros Hmap Hi Hclz Hpop Hterm Hsimp.
  unfold ArithmeticInstructions.emulate. cbn [instr_name]. rewrite Hi.
  change (String.eqb "i" "i") with true. cbv iota.
  unfold ArithmeticInstructions.do_emulate_arithmetic_int_instruction.
  cbn [instr_name]. cbv zeta. rewrite Hclz, Hpop. unfold numeral.
  cbn [pop push symbolic_stack set_symbolic_stack mbind res_bind Py.bind].
  unfold ArithmeticInstructions.coerce_bool, ArithmeticInstructions.check_size,
    ArithmeticInstructions.helper_width.
  cbn [VM.is_bool Z3.is_bool get_sort VM.size mbind res_bind Py.bind].
  rewrite Hmap. cbn [mbind res_bind Py.bind]. rewrite N.eqb_refl.
  cbn [Py.assert mbind res_bind Py.bind the_expr].
  rewrite Hterm. cbn [mbind res_bind Py.bind]. rewrite Hsimp. reflexivity.
Qed.

Lemma simplify_add_sub_mul (w : N) (x y : Z) :
  simplify (Bin Obvadd (BitVecVal x w) (BitVecVal y w))
  = BitVecVal ((x + y) mod 2 ^ Z.of_N w) w
  /\ simplify (Bin Obvsub (BitVecVal x w) (BitVecVal y w))
     = BitVecVal ((x - y) mod 2 ^ Z.of_N w) w
  /\ simplify (Bin Obvmul (BitVecVal x w) (BitVecVal y w))
     = BitVecVal ((x * y) mod 2 ^ Z.of_N w) w.
Proof.
  repeat split.
  - rewrite (simplify_bv_bin Obvadd w x y (wrap w x + wrap w y)); try reflexivity.
    unfold wrap. now rewrite <- Zplus_mod.
  - rewrite (simplify_bv_bin Obvsub w x y (wrap w x - wrap w y)); try reflexivity.
    unfold wrap. now rewrite <- Zminus_mod.
  - rewrite (simplify_bv_bin Obvmul w x y (wrap w x * wrap w y)); try reflexivity.
    unfold wrap. now rewrite <- Zmult_mod.
Qed.

(** [add], [sub] and [mul] on two numerals push the sum, the difference
    and the product modulo two to the width; the operand pushed first is
    the left one ([x - y] for [x] pushed first and [y] on top). *)
Theorem int_add_sub_mul_on_numerals
    (str : expr -> string) (operand : list Z) (text : string) (x y : Z) (st : State) :
  let emu := fun name w =>
    ArithmeticInstructions.emulate str
      {| instr_name := name; instr_operand := operand; instr_string := text |}
      (push (numeral w y) (push (numeral w x) st)) in
  emu "i32.add" 32%N = Returns [push (numeral 32 ((x + y) mod 2 ^ 32)) st]
  /\ emu "i32.sub" 32%N = Returns [push (numeral 32 ((x - y) mod 2 ^ 32)) st]
  /\ emu "i32.mul" 32%N = Returns [push (numeral 32 ((x * y) mod 2 ^ 32)) st]
  /\ emu "i64.add" 64%N = Returns [push (numeral 64 ((x + y) mod 2 ^ 64)) st]
  /\ emu "i64.sub" 64%N = Returns [push (numeral 64 ((x - y) mod 2 ^ 64)) st]
  /\ emu "i64.mul" 64%N = Returns [push (numeral 64 ((x * y) mod 2 ^ 64)) st].
Proof.
  cbv zeta.
  destruct (simplify_add_sub_mul 32 x y) as [Ha32 [Hs32 Hm32]].
  destruct (simplify_add_sub_mul 64 x y) as [Ha64 [Hs64 Hm64]].
  split; [|split; [|split; [|split; [|split]]]].
  - exact (int_binary_on_numerals str "i32.add" operand text Obvadd 32 x y _ st
             eq_refl eq_refl eq_refl eq_refl eq_refl Ha32).
  - exact (int_binary_on_numerals str "i32.sub" operand text Obvsub 32 x y _ st
             eq_refl eq_refl eq_refl eq_refl eq_refl Hs32).
  - exact (int_binary_on_numerals str "i32.mul" operand text Obvmul 32 x y _ st
             eq_refl eq_refl eq_refl eq_refl eq_refl Hm32).
  - exact (int_binary_on_numerals str "i64.add" operand text Obvadd 64 x y _ st
             eq_refl eq_refl eq_refl eq_refl eq_refl Ha64).
  - exact (int_binary_on_numerals str "i64.sub" operand text Obvsub 64 x y _ st
             eq_refl eq_refl eq_refl eq_refl eq_refl Hs64).
  - exact (int_binary_on_numerals str "i64.mul" operand text Obvmul 64 x y _ st
             eq_refl eq_refl eq_refl eq_refl eq_refl Hm64).
Qed.

Lemma signed_wrap (w : N) (x : Z) : signed w (wrap w x) = signed w x.
Proof. unfold signed. now rewrite wrap_wrap. Qed.

Lemma wrap_ones (w : N) : wrap w (2 ^ Z.of_N w - 1) = 2 ^ Z.of_N w - 1.
Proof.
  apply wrap_small. assert (0 < 2 ^ Z.of_N w) by (apply Z.pow_pos_nonneg; lia). lia.
Qed.

Lemma simplify_division_by_zero (w : N) (x : Z) :
  simplify (UDiv (BitVecVal x w) (BitVecVal 0 w)) = BitVecVal (2 ^ Z.of_N w - 1) w
  /\ simplify (URem (BitVecVal x w) (BitVecVal 0 w)) = BitVecVal (x mod 2 ^ Z.of_N w) w
  /\ simplify (Bin Obvsdiv (BitVecVal x w) (BitVecVal 0 w))
     = BitVecVal (if signed w x <? 0 then 1 mod 2 ^ Z.of_N w else 2 ^ Z.of_N w - 1) w
  /\ simplify (SRem (BitVecVal x w) (BitVecVal 0 w)) = BitVecVal (x mod 2 ^ Z.of_N w) w.
Proof.
  repeat split.
  - rewrite (simplify_bv_bin Obvudiv w x 0 (2 ^ Z.of_N w - 1));
      [now rewrite wrap_ones | reflexivity |].
    cbn [bv_bin]. unfold bv_udiv. now rewrite wrap_0.
  - rewrite (simplify_bv_bin Obvurem w x 0 (wrap w x));
      [now rewrite wrap_wrap | reflexivity |].
    cbn [bv_bin]. unfold bv_urem. now rewrite wrap_0.
  - rewrite (simplify_bv_bin Obvsdiv w x 0
               (if signed w x <? 0 then 1 else 2 ^ Z.of_N w - 1));
      [ | reflexivity | ].
    + destruct (signed w x <? 0); [reflexivity | now rewrite wrap_ones].
    + cbn [bv_bin]. unfold bv_sdiv. now rewrite wrap_0, signed_wrap.
  - rewrite (simplify_bv_bin Obvsrem w x 0 (wrap w x));
      [now rewrite wrap_wrap | reflexivity |].
    cbn [bv_bin]. unfold bv_srem. now rewrite wrap_0.
Qed.

(** Division and remainder by the numeral zero do not trap: the
    emulator returns a state carrying the value the bit-vector theory
    gives the operation (all ones for [div_u]; [1] or all ones, by the
    sign of the dividend, for [div_s]; the dividend for [rem_u] and
    [rem_s]). *)
Theorem int_division_by_zero_returns_a_state
    (str : expr -> string) (operand : list Z) (text : string) (x : Z) (st : State) :
  let emu := fun name =>
    ArithmeticInstructions.emulate str
      {| instr_name := name; instr_operand := operand; instr_string := text |}
      (push (numeral 32 0) (push (numeral 32 x) st)) in
  emu "i32.div_u" = Returns [push (numeral 32 (2 ^ 32 - 1)) st]
  /\ emu "i32.rem_u" = Returns [push (numeral 32 (x mod 2 ^ 32)) st]
  /\ emu "i32.div_s"
     = Returns [push (numeral 32 (if signed 32 x <? 0 then 1 else 2 ^ 32 - 1)) st]
  /\ emu "i32.rem_s" = Returns [push (numeral 32 (x mod 2 ^ 32)) st].
Proof.
  cbv zeta.
  destruct (simplify_division_by_zero 32 x) as [Hdu [Hru [Hds Hrs]]].
  split; [|split; [|split]].
  - exact (int_binary_on_numerals str "i32.div_u" operand text Obvudiv 32 x 0 _ st
             eq_refl eq_refl eq_refl eq_refl eq_refl Hdu).
  - exact (int_binary_on_numerals str "i32.rem_u" operand text Obvurem 32 x 0 _ st
             eq_refl eq_refl eq_refl eq_refl eq_refl Hru).
  - apply (int_binary_on_numerals str "i32.div_s" operand text Obvsdiv 32 x 0 _ st
             eq_refl eq_refl eq_refl eq_refl eq_refl).
    rewrite Hds. now destruct (signed 32 x <? 0).
  - exact (int_binary_on_numerals str "i32.rem_s" operand text Obvsrem 32 x 0 _ st
             eq_refl eq_refl eq_refl eq_refl eq_refl Hrs).
Qed.

End IntegerArithmetic.

(* ===================================================================== *)
(** * Bitwise instructions on numerals                                    *)
(* ===================================================================== *)

Section BitwiseNumerals.
Import Py Z3 VM Inv.

(** What a bitwise instruction does to two numerals of its own width,
    given the simplified term it builds ([y] is on top of the stack). *)
Lemma bitwise_on_numerals (str : expr -> string) (name : string)
    (operand : list Z) (text : string) (w : N) (x y r : Z) (st : State) :
  BitwiseInstructions.helper_map (take 3 name) = Ok w ->
  (let a1 := BitVecVal y w in
   let a2 := BitVecVal x w in
   if contains ".and" name then Ok (simplify (Bin Obvand a1 a2))
   else if contains ".or" name then Ok (simplify (Bin Obvor a1 a2))
   else if contains ".xor" name then Ok (simplify (Bin Obvxor a1 a2))
   else if contains ".shr_s" name then Ok (simplify (Bin Obvashr a2 a1))
   else if contains ".shr_u" name then Ok (simplify (LShR a2 a1))
   else if contains ".shl" name then Ok (simplify (Bin Obvshl a2 a1))
   else if contains ".rotl" name then Ok (simplify (RotateLeft a2 a1))
   else if contains ".rotr" name then Ok (simplify (RotateRight a2 a1))
   else Err UnsupportInstructionError) = Ok (BitVecVal r w) ->
  BitwiseInstructions.emulate str
    {| instr_name := name; instr_operand := operand; instr_string := text |}
    (push (numeral w y) (push (numeral w x) st))
  = Returns [push (numeral w r) st].
Proof.
  cbv zeta. intros Hmap Hterm.
  unfold BitwiseInstructions.emulate, numeral. cbn [instr_name].
  cbn [pop push symbolic_stack set_symbolic_stack mbind res_bind Py.bind].
  unfold BitwiseInstructions.coerce_bool, BitwiseInstructions.check_size.
  cbn [VM.is_bool Z3.is_bool get_sort VM.size mbind res_bind Py.bind].
  rewrite Hmap. cbn [mbind res_bind Py.bind]. rewrite N.eqb_refl.
  cbn [Py.assert mbind res_bind Py.bind the_expr].
  rewrite Hterm. reflexivity.
Qed.

Lemma mod_pow2_land_ones (n a : Z) : 0 <= n -> a mod 2 ^ n = Z.land a (Z.ones n).
Proof. intros H. symmetry. now apply Z.land_ones. Qed.

Lemma land_lor_lxor_mod (n a b : Z) :
  0 <= n ->
  Z.land (a mod 2 ^ n) (b mod 2 ^ n) = Z.land a b mod 2 ^ n
  /\ Z.lor (a mod 2 ^ n) (b mod 2 ^ n) = Z.lor a b mod 2 ^ n
  /\ Z.lxor (a mod 2 ^ n) (b mod 2 ^ n) = Z.lxor a b mod 2 ^ n.
Proof.
  intros H. rewrite !(mod_pow2_land_ones n) by assumption.
  repeat split; apply Z.bits_inj'; intros k Hk;
    rewrite ?Z.land_spec, ?Z.lor_spec, ?Z.lxor_spec, ?Z.land_spec;
    destruct (Z.testbit a k), (Z.testbit b k), (Z.testbit (Z.ones n) k); reflexivity.
Qed.

Lemma simplify_and_or_xor (w : N) (x y : Z) :
  simplify (Bin Obvand (BitVecVal y w) (BitVecVal x w))
  = BitVecVal (Z.land x y mod 2 ^ Z.of_N w) w
  /\ simplify (Bin Obvor (BitVecVal y w) (BitVecVal x w))
     = BitVecVal (Z.lor x y mod 2 ^ Z.of_N w) w
  /\ simplify (Bin Obvxor (BitVecVal y w) (BitVecVal x w))
     = BitVecVal (Z.lxor x y mod 2 ^ Z.of_N w) w.
Proof.
  destruct (land_lor_lxor_mod (Z.of_N w) y x) as [Hand [Hor Hxor]]; [lia|].
  split; [|split].
  - rewrite (simplify_bv_bin Obvand w y x (Z.land (wrap w y) (wrap w x)));
      [|reflexivity|reflexivity].
    unfold wrap. now rewrite Hand, Zmod_mod, Z.land_comm.
  - rewrite (simplify_bv_bin Obvor w y x (Z.lor (wrap w y) (wrap w x)));
      [|reflexivity|reflexivity].
    unfold wrap. now rewrite Hor, Zmod_mod, Z.lor_comm.
  - rewrite (simplify_bv_bin Obvxor w y x (Z.lxor (wrap w y) (wrap w x)));
      [|reflexivity|reflexivity].
    unfold wrap. now rewrite Hxor, Zmod_mod, Z.lxor_comm.
Qed.

(** [and], [or] and [xor] on two numerals push the bitwise conjunction,
    disjunction and exclusive disjunction of the two, modulo two to the
    width. *)
Theorem and_or_xor_on_numerals
    (str : expr -> string) (operand : list Z) (text : string) (x y : Z) (st : State) :
  let emu := fun name w =>
    BitwiseInstructions.emulate str
      {| instr_name := name; instr_operand := operand; instr_string := text |}
      (push (numeral w y) (push (numeral w x) st)) in
  emu "i32.and" 32%N = Returns [push (numeral 32 (Z.land x y mod 2 ^ 32)) st]
  /\ emu "i32.or" 32%N = Returns [push (numeral 32 (Z.lor x y mod 2 ^ 32)) st]
  /\ emu "i32.xor" 32%N = Returns [push (numeral 32 (Z.lxor x y mod 2 ^ 32)) st]
  /\ emu "i64.and" 64%N = Returns [push (numeral 64 (Z.land x y mod 2 ^ 64)) st]
  /\ emu "i64.or" 64%N = Returns [push (numeral 64 (Z.lor x y mod 2 ^ 64)) st]
  /\ emu "i64.xor" 64%N = Returns [push (numeral 64 (Z.lxor x y mod 2 ^ 64)) st].
Proof.
  cbv zeta.
  destruct (simplify_and_or_xor 32 x y) as [Ha32 [Ho32 Hx32]].
  destruct (simplify_and_or_xor 64 x y) as [Ha64 [Ho64 Hx64]].
  split; [|split; [|split; [|split; [|split]]]].
  - apply (bitwise_on_numerals str "i32.and" operand text 32 x y _ st eq_refl).
    cbv zeta. decide_names. cbv iota. now rewrite Ha32.
  - apply (bitwise_on_numerals str "i32.or" operand text 32 x y _ st eq_refl).
    cbv zeta. decide_names. cbv iota. now rewrite Ho32.
  - apply (bitwise_on_numerals str "i32.xor" operand text 32 x y _ st eq_refl).
    cbv zeta. decide_names. cbv iota. now rewrite Hx32.
  - apply (bitwise_on_numerals str "i64.and" operand text 64 x y _ st eq_refl).
    cbv zeta. decide_names. cbv iota. now rewrite Ha64.
  - apply (bitwise_on_numerals str "i64.or" operand text 64 x y _ st eq_refl).
    cbv zeta. decide_names. cbv iota. now rewrite Ho64.
  - apply (bitwise_on_numerals str "i64.xor" operand text 64 x y _ st eq_refl).
    cbv zeta. decide_names. cbv iota. now rewrite Hx64.
Qed.

Lemma signed_range (w : N) (x : Z) :
  0 < Z.of_N w -> - 2 ^ (Z.of_N w - 1) <= signed w x < 2 ^ (Z.of_N w - 1).
Proof.
  intros Hw. unfold signed, wrap.
  assert (Hpow : 2 ^ Z.of_N w = 2 * 2 ^ (Z.of_N w - 1)).
  { rewrite <- Z.pow_succ_r by lia. f_equal. lia. }
  assert (Hpos : 0 < 2 ^ (Z.of_N w - 1)) by (apply Z.pow_pos_nonneg; lia).
  pose proof (Z.mod_pos_bound x (2 ^ Z.of_N w)) as Hb.
  destruct (Z.ltb_spec (x mod 2 ^ Z.of_N w) (2 ^ (Z.of_N w - 1))); lia.
Qed.

Lemma shiftr_signed_by_width (w : N) (x : Z) :
  0 < Z.of_N w ->
  Z.shiftr (signed w x) (Z.of_N w) = if signed w x <? 0 then -1 else 0.
Proof.
  intros Hw. pose proof (signed_range w x Hw) as Hr.
  assert (Hpow : 2 ^ Z.of_N w = 2 * 2 ^ (Z.of_N w - 1)).
  { rewrite <- Z.pow_succ_r by lia. f_equal. lia. }
  rewrite Z.shiftr_div_pow2 by lia.
  destruct (Z.ltb_spec (signed w x) 0).
  - symmetry. apply (Z.div_unique _ _ _ (signed w x + 2 ^ Z.of_N w)); lia.
  - apply Z.div_small. lia.
Qed.

Lemma wrap_minus_one (w : N) : wrap w (-1) = 2 ^ Z.of_N w - 1.
Proof.
  assert (Hpos : 0 < 2 ^ Z.of_N w) by (apply Z.pow_pos_nonneg; lia).
  unfold wrap. symmetry. apply (Z.mod_unique _ _ (-1)); lia.
Qed.

Lemma simplify_shift_by_width_or_more (w : N) (x y : Z) :
  0 < Z.of_N w ->
  Z.of_N w <= y mod 2 ^ Z.of_N w ->
  simplify (Bin Obvshl (BitVecVal x w) (BitVecVal y w)) = BitVecVal 0 w
  /\ simplify (LShR (BitVecVal x w) (BitVecVal y w)) = BitVecVal 0 w
  /\ simplify (Bin Obvashr (BitVecVal x w) (BitVecVal y w))
     = BitVecVal (if signed w x <? 0 then 2 ^ Z.of_N w - 1 else 0) w.
Proof.
  intros Hw Hy.
  assert (Hle : (Z.of_N w <=? wrap w y) = true) by (apply Z.leb_le; exact Hy).
  split; [|split].
  - rewrite (simplify_bv_bin Obvshl w x y 0); [now rewrite wrap_0 | reflexivity |].
    cbn [bv_bin]. unfold bv_shl. now rewrite Hle.
  - rewrite (simplify_bv_bin Obvlshr w x y 0); [now rewrite wrap_0 | reflexivity |].
    cbn [bv_bin]. unfold bv_lshr. now rewrite Hle.
  - rewrite (simplify_bv_bin Obvashr w x y (if signed w x <? 0 then -1 else 0));
      [ | reflexivity | ].
    + destruct (signed w x <? 0); [now rewrite wrap_minus_one | now rewrite wrap_0].
    + cbn [bv_bin]. unfold bv_ashr. rewrite signed_wrap.
      replace (Z.min (wrap w y) (Z.of_N w)) with (Z.of_N w) by (unfold wrap; lia).
      now rewrite shiftr_signed_by_width.
Qed.

(** A shift count of 32 or more is taken as it is, not modulo 32:
    [i32.shl] and [i32.shr_u] then push zero, [i32.shr_s] pushes 32 copies
    of the sign bit. *)
Theorem shift_count_is_not_reduced
    (str : expr -> string) (operand : list Z) (text : string) (x y : Z) (st : State) :
  32 <= y mod 2 ^ 32 ->
  let emu := fun name =>
    BitwiseInstructions.emulate str
      {| instr_name := name; instr_operand := operand; instr_string := text |}
      (push (numeral 32 y) (push (numeral 32 x) st)) in
  emu "i32.shl" = Returns [push (numeral 32 0) st]
  /\ emu "i32.shr_u" = Returns [push (numeral 32 0) st]
  /\ emu "i32.shr_s"
     = Returns [push (numeral 32 (if signed 32 x <? 0 then 2 ^ 32 - 1 else 0)) st].
Proof.
  intros Hy. cbv zeta.
  destruct (simplify_shift_by_width_or_more 32 x y) as [Hshl [Hshr Hsar]];
    [reflexivity | exact Hy |].
  split; [|split].
  - apply (bitwise_on_numerals str "i32.shl" operand text 32 x y _ st eq_refl).
    cbv zeta. decide_names. cbv iota. now rewrite Hshl.
  - apply (bitwise_on_numerals str "i32.shr_u" operand text 32 x y _ st eq_refl).
    cbv zeta. decide_names. cbv iota. now rewrite Hshr.
  - apply (bitwise_on_numerals str "i32.shr_s" operand text 32 x y _ st eq_refl).
    cbv zeta. decide_names. cbv iota. rewrite Hsar.
    now destruct (signed 32 x <? 0).
Qed.

End BitwiseNumerals.

(** On an input: 1 shifted by 32. *)
Lemma shift_count_is_not_reduced_witness :
  let emu := fun name =>
    BitwiseInstructions.emulate Sample.expr_str
      {| VM.instr_name := name; VM.instr_operand := []; VM.instr_string := "" |}
      (VM.push (Inv.numeral 32 32) (VM.push (Inv.numeral 32 1) Sample.init)) in
  emu "i32.shl" = VM.Returns [VM.push (Inv.numeral 32 0) Sample.init]
  /\ emu "i32.shr_u" = VM.Returns [VM.push (Inv.numeral 32 0) Sample.init]
  /\ emu "i32.shr_s"
     = VM.Returns [VM.push (Inv.numeral 32 (if Z3.signed 32 1 <? 0 then 2 ^ 32 - 1 else 0))
                     Sample.init].
Proof.
  apply (shift_count_is_not_reduced Sample.expr_str [] "" 1 32 Sample.init).
  discriminate.
Defined.

(* ===================================================================== *)
(** * Conversions: operand checks and result types                        *)
(* ===================================================================== *)

Section ConversionTypes.
Import Py Z3 VM Inv ConversionInstructions.

(** A branch that converts from a bit-vector: the only assertion that
    can fail is the one on the operand, and the result has the sort the
    term built for an operand of width [w] has. *)
Lemma from_bv_spec (name : string) (v : pyval) (w : N) (build : expr -> expr)
    (post : string -> pyval -> res unit) :
  (forall a, get_sort a = BitVecSort w ->
             get_sort (build a) = get_sort (build (BitVec "" w))) ->
  (forall r, get_sort r = get_sort (build (BitVec "" w)) -> post name (PyExpr r) = Ok tt) ->
  match from_bv name v w build post with
  | Ok r => get_sort r = get_sort (build (BitVec "" w))
  | Err (AssertionError msg) => msg = name +:+ " has wrong arg type"
  | Err _ => True
  end.
Proof.
  intros Hbuild Hpost. unfold from_bv, assert_size, VM.size.
  destruct v as [| | |e]; try exact I.
  destruct (get_sort e) as [|n|] eqn:Hs; try exact I.
  cbn [mbind res_bind Py.bind].
  destruct (N.eqb_spec n w) as [->|Hne]; cbn [Py.assert mbind res_bind Py.bind the_expr];
    [|reflexivity].
  assert (Hr : get_sort (simplify (build e)) = get_sort (build (BitVec "" w)))
    by (rewrite simplify_sort; now apply Hbuild).
  rewrite (Hpost _ Hr). cbn [mbind res_bind Py.bind]. exact Hr.
Qed.

(** The same for a branch that converts from a float. *)
Lemma from_fp_spec (name : string) (v : pyval) (eb sb : N) (build : expr -> expr)
    (post : string -> pyval -> res unit) :
  (forall a, get_sort a = FPSort eb sb ->
             get_sort (build a) = get_sort (build (FP "" eb sb))) ->
  (forall r, get_sort r = get_sort (build (FP "" eb sb)) -> post name (PyExpr r) = Ok tt) ->
  match from_fp name v eb sb build post with
  | Ok r => get_sort r = get_sort (build (FP "" eb sb))
  | Err (AssertionError msg) => msg = name +:+ " has wrong arg type"
  | Err _ => True
  end.
Proof.
  intros Hbuild Hpost. unfold from_fp, assert_shape, VM.ebits, VM.sbits.
  destruct v as [| | |e]; try exact I.
  destruct (get_sort e) as [| |e' m'] eqn:Hs; try exact I.
  cbn [mbind res_bind Py.bind].
  destruct (N.eqb_spec e' eb) as [->|Hne]; cbn [Py.assert mbind res_bind Py.bind];
    [|reflexivity].
  destruct (N.eqb_spec m' sb) as [->|Hne]; cbn [Py.assert mbind res_bind Py.bind the_expr];
    [|reflexivity].
  assert (Hr : get_sort (simplify (build e)) = get_sort (build (FP "" eb sb)))
    by (rewrite simplify_sort; now apply Hbuild).
  rewrite (Hpost _ Hr). cbn [mbind res_bind Py.bind]. exact Hr.
Qed.

Ltac conversion_branch :=
  match goal with
  | |- match from_bv ?n ?v ?w ?b ?p with _ => _ end =>
      let H := fresh "H" in
      assert (H := from_bv_spec n v w b p);
      destruct (from_bv n v w b p) as [r|[]]; try exact I;
      [ rewrite H | apply H ]
  | |- match from_fp ?n ?v ?eb ?sb ?b ?p with _ => _ end =>
      let H := fresh "H" in
      assert (H := from_fp_spec n v eb sb b p);
      destruct (from_fp n v eb sb b p) as [r|[]]; try exact I;
      [ rewrite H | apply H ]
  end;
  try reflexivity;
  try (intros a Ha; cbn [get_sort un_sort bin_sort]; rewrite ?Ha; reflexivity);
  try (intros r' Hr'; unfold no_post, bv_post, fp_post;
       first [ reflexivity
             | apply assert_size_ok; exact Hr'
             | apply assert_shape_ok; exact Hr' ]).

Lemma convert_spec (name : string) (v : pyval) :
  match convert name v with
  | Ok r => sort_of_type (take 3 name) = Some (get_sort r)
  | Err (AssertionError msg) => msg = name +:+ " has wrong arg type"
  | Err _ => True
  end.
Proof.
  unfold convert.
  repeat match goal with
         | |- match (if String.eqb name ?lit then _ else _) with _ => _ end =>
             destruct (String.eqb_spec name lit) as [->|_]; [conversion_branch|]
         end.
  exact I.
Qed.

(** Whenever a conversion returns, it returns one state: the operand on
    top of the stack is replaced by a term whose sort is the one the
    prefix of the mnemonic names ([i32], [i64], [f32] or [f64]), and
    nothing else changes. *)
Theorem conversion_pushes_named_type (i : Instruction) (st : State) (states : list State) :
  emulate i st = Returns states ->
  exists v rest r,
    symbolic_stack st = v :: rest
    /\ states = [set_symbolic_stack (PyExpr r :: rest) st]
    /\ sort_of_type (take 3 (instr_name i)) = Some (get_sort r).
Proof.
  unfold emulate, pop. destruct (symbolic_stack st) as [|v rest] eqn:Hst; [discriminate|].
  cbn [mbind res_bind Py.bind].
  pose proof (convert_spec (instr_name i) v) as Hspec.
  destruct (convert (instr_name i) v) as [r|e]; [|discriminate].
  cbn [mbind res_bind Py.bind run]. intros H. injection H as <-.
  exists v, rest, r. split; [reflexivity|]. split; [|exact Hspec].
  unfold push, set_symbolic_stack. cbn. reflexivity.
Qed.

(** The only assertion of a conversion that can fail is the one on the
    type of the operand: the checks made on the result after [simplify]
    ("convert fail", "conversion fail") never fire. *)
Theorem conversion_asserts_operand_only (i : Instruction) (st : State) (msg : string) :
  emulate i st = Raises (AssertionError msg) ->
  msg = instr_name i +:+ " has wrong arg type".
Proof.
  unfold emulate, pop. destruct (symbolic_stack st) as [|v rest]; [discriminate|].
  cbn [mbind res_bind Py.bind].
  pose proof (convert_spec (instr_name i) v) as Hspec.
  destruct (convert (instr_name i) v) as [r|e]; [discriminate|].
  cbn [mbind res_bind Py.bind run]. intros H. injection H as ->. exact Hspec.
Qed.

End ConversionTypes.

(** On an input: [i32.wrap/i64] on the 64-bit numeral [2^32 + 5]. *)
Lemma conversion_pushes_named_type_witness :
  exists v rest r,
    VM.symbolic_stack (VM.push (Inv.numeral 64 (2 ^ 32 + 5)) Sample.init) = v :: rest
    /\ [VM.push (Inv.numeral 32 5) Sample.init]
       = [VM.set_symbolic_stack (VM.PyExpr r :: rest)
            (VM.push (Inv.numeral 64 (2 ^ 32 + 5)) Sample.init)]
    /\ Inv.sort_of_type (Py.take 3 "i32.wrap/i64") = Some (Z3.get_sort r).
Proof.
  exact (conversion_pushes_named_type
           {| VM.instr_name := "i32.wrap/i64"; VM.instr_operand := [];
              VM.instr_string := "i32.wrap/i64" |}
           (VM.push (Inv.numeral 64 (2 ^ 32 + 5)) Sample.init)
           [VM.push (Inv.numeral 32 5) Sample.init] eq_refl).
Defined.

(** On an input: [i32.wrap/i64] on a 32-bit numeral. *)
Lemma conversion_asserts_operand_only_witness :
  let i := {| VM.instr_name := "i32.wrap/i64"; VM.instr_operand := [];
              VM.instr_string := "i32.wrap/i64" |} in
  let st := VM.push (Inv.numeral 32 5) Sample.init in
  ConversionInstructions.emulate i st
  = VM.Raises (Py.AssertionError "i32.wrap/i64 has wrong arg type")
  /\ "i32.wrap/i64 has wrong arg type" = VM.instr_name i +:+ " has wrong arg type".
Proof.
  cbv zeta. split; [reflexivity|].
  exact (conversion_asserts_operand_only
           {| VM.instr_name := "i32.wrap/i64"; VM.instr_operand := [];
              VM.instr_string := "i32.wrap/i64" |}
           (VM.push (Inv.numeral 32 5) Sample.init)
           "i32.wrap/i64 has wrong arg type" eq_refl).
Defined.

(* ===================================================================== *)
(** * Widening and narrowing integers                                     *)
(* ===================================================================== *)

Section ExtendWrap.
Import Py Z3 VM Inv ConversionInstructions.

Lemma fold_un_numeral (op : unop) (w w' : N) (z r : Z) :
  compute_un op (VBV w (wrap w z)) = Some (VBV w' r) ->
  un_sort op (BitVecSort w) = BitVecSort w' ->
  fold_un op (BitVecVal z w) = BitVecVal (wrap w' r) w'.
Proof.
  intros Hc Hs. unfold fold_un. cbn [as_val get_sort]. rewrite Hc, Hs.
  cbn [cast of_val]. now rewrite N.eqb_refl.
Qed.

Lemma mod_mod_pow2 (a n m : Z) : 0 <= n <= m -> (a mod 2 ^ m) mod 2 ^ n = a mod 2 ^ n.
Proof.
  intros H. apply Z.mod_mod_divide.
  exists (2 ^ (m - n)). rewrite <- Z.pow_add_r by lia. f_equal. lia.
Qed.

(** The signed reading of a bit-vector differs from the value by a
    multiple of two to the width. *)
Lemma signed_mod (w : N) (x : Z) : signed w x mod 2 ^ Z.of_N w = x mod 2 ^ Z.of_N w.
Proof.
  unfold signed, wrap. destruct (_ <? _).
  - apply Zmod_mod.
  - replace (x mod 2 ^ Z.of_N w - 2 ^ Z.of_N w)
      with (x mod 2 ^ Z.of_N w + (-1) * 2 ^ Z.of_N w) by lia.
    rewrite Z_mod_plus_full. apply Zmod_mod.
Qed.

Lemma simplify_zero_ext (b : Z) :
  simplify (ZeroExt 32 (BitVecVal b 32)) = BitVecVal (b mod 2 ^ 32) 64.
Proof.
  cbn [simplify].
  rewrite (fold_un_numeral (OZeroExt 32) 32 64 (wrap 32 b) _ eq_refl eq_refl).
  rewrite !wrap_wrap. f_equal. unfold wrap.
  change (Z.of_N 32) with 32. change (Z.of_N 64) with 64.
  apply Z.mod_small. pose proof (Z.mod_pos_bound b (2 ^ 32)). lia.
Qed.

Lemma simplify_sign_ext (b : Z) :
  simplify (SignExt 32 (BitVecVal b 32)) = BitVecVal (signed 32 b mod 2 ^ 64) 64.
Proof.
  cbn [simplify].
  rewrite (fold_un_numeral (OSignExt 32) 32 64 (wrap 32 b) _ eq_refl eq_refl).
  change (32 + 32)%N with 64%N.
  now rewrite !wrap_wrap, !signed_wrap.
Qed.

Lemma simplify_wrap (v : Z) :
  simplify (Extract 31 0 (Bin Obvsmod (BitVecVal v 64) (bv (2 ^ 32) 64)))
  = BitVecVal (v mod 2 ^ 32) 32.
Proof.
  unfold bv.
  change (fold_un (OExtract 31 0)
            (simplify (Bin Obvsmod (BitVecVal v 64) (BitVecVal (wrap 64 (2 ^ 32)) 64)))
          = BitVecVal (v mod 2 ^ 32) 32).
  set (r := signed 64 v mod 2 ^ 32).
  assert (Hr : 0 <= r < 2 ^ 32) by (apply Z.mod_pos_bound; lia).
  rewrite (simplify_bv_bin Obvsmod 64 v (wrap 64 (2 ^ 32)) r); [|reflexivity|].
  2:{ cbn [bv_bin]. unfold bv_smod. rewrite signed_wrap.
      change (wrap 64 (wrap 64 (2 ^ 32))) with (2 ^ 32).
      change (2 ^ 32 =? 0) with false. cbv iota.
      change (signed 64 (2 ^ 32)) with (2 ^ 32). reflexivity. }
  assert (Hw64 : wrap 64 r = r) by (apply wrap_small; change (Z.of_N 64) with 64; lia).
  rewrite Hw64.
  rewrite (fold_un_numeral (OExtract 31 0) 64 32 r (wrap 32 r)).
  - rewrite wrap_wrap. f_equal. unfold r, wrap. change (Z.of_N 32) with 32.
    rewrite Zmod_mod.
    rewrite <- (mod_mod_pow2 (signed 64 v) 32 64) by lia.
    pose proof (signed_mod 64 v) as Hs. change (Z.of_N 64) with 64 in Hs.
    rewrite Hs. apply mod_mod_pow2. lia.
  - cbn [compute_un]. rewrite Hw64. change (Z.of_N 0) with 0.
    now rewrite Z.shiftr_0_r.
  - reflexivity.
Qed.

Lemma emulate_convert (name : string) (operand : list Z) (text : string)
    (v : pyval) (r : expr) (st : State) :
  convert name v = Ok r ->
  emulate {| instr_name := name; instr_operand := operand; instr_string := text |}
    (push v st)
  = Returns [push (PyExpr r) st].
Proof.
  intros H. unfold emulate.
  cbn [pop push symbolic_stack set_symbolic_stack instr_name mbind res_bind Py.bind].
  rewrite H. reflexivity.
Qed.

Lemma convert_extend_wrap (b : Z) :
  convert "i64.extend_u/i32" (numeral 32 b) = Ok (BitVecVal (b mod 2 ^ 32) 64)
  /\ convert "i64.extend_s/i32" (numeral 32 b) = Ok (BitVecVal (signed 32 b mod 2 ^ 64) 64)
  /\ convert "i32.wrap/i64" (numeral 64 b) = Ok (BitVecVal (b mod 2 ^ 32) 32).
Proof.
  unfold numeral. split; [|split].
  - change (convert "i64.extend_u/i32" (PyExpr (BitVecVal b 32)))
      with (from_bv "i64.extend_u/i32" (PyExpr (BitVecVal b 32)) 32
              (fun a => ZeroExt 32 a) no_post).
    unfold from_bv, no_post. rewrite (assert_size_ok (BitVecVal b 32) 32) by reflexivity.
    cbn [mbind res_bind Py.bind the_expr]. now rewrite simplify_zero_ext.
  - change (convert "i64.extend_s/i32" (PyExpr (BitVecVal b 32)))
      with (from_bv "i64.extend_s/i32" (PyExpr (BitVecVal b 32)) 32
              (fun a => SignExt 32 a) no_post).
    unfold from_bv, no_post. rewrite (assert_size_ok (BitVecVal b 32) 32) by reflexivity.
    cbn [mbind res_bind Py.bind the_expr]. now rewrite simplify_sign_ext.
  - change (convert "i32.wrap/i64" (PyExpr (BitVecVal b 64)))
      with (from_bv "i32.wrap/i64" (PyExpr (BitVecVal b 64)) 64
              (fun a => Extract 31 0 (Bin Obvsmod a (bv (2 ^ 32) 64))) no_post).
    unfold from_bv, no_post. rewrite (assert_size_ok (BitVecVal b 64) 64) by reflexivity.
    cbn [mbind res_bind Py.bind the_expr]. now rewrite simplify_wrap.
Qed.

(** On a 32-bit numeral, [i64.extend_u/i32] pushes the 64-bit numeral of
    the same unsigned value and [i64.extend_s/i32] the one of the same
    signed value; [i32.wrap/i64] after either gives the 32-bit numeral
    back. *)
Theorem extend_then_wrap_is_identity
    (operand : list Z) (text : string) (b : Z) (st : State) :
  let ins := fun name =>
    {| instr_name := name; instr_operand := operand; instr_string := text |} in
  let start := push (numeral 32 b) st in
  emulate (ins "i64.extend_u/i32") start = Returns [push (numeral 64 (b mod 2 ^ 32)) st]
  /\ emulate (ins "i64.extend_s/i32") start
     = Returns [push (numeral 64 (signed 32 b mod 2 ^ 64)) st]
  /\ and_then (emulate (ins "i64.extend_u/i32") start) (emulate (ins "i32.wrap/i64"))
     = Returns [push (numeral 32 (b mod 2 ^ 32)) st]
  /\ and_then (emulate (ins "i64.extend_s/i32") start) (emulate (ins "i32.wrap/i64"))
     = Returns [push (numeral 32 (b mod 2 ^ 32)) st].
Proof.
  cbv zeta.
  destruct (convert_extend_wrap b) as [Hu [Hs _]].
  destruct (convert_extend_wrap (b mod 2 ^ 32)) as [_ [_ Hwu]].
  destruct (convert_extend_wrap (signed 32 b mod 2 ^ 64)) as [_ [_ Hws]].
  rewrite (emulate_convert _ operand text _ _ st Hu),
    (emulate_convert _ operand text _ _ st Hs).
  cbn [and_then]. fold (numeral 64 (b mod 2 ^ 32)). fold (numeral 64 (signed 32 b mod 2 ^ 64)).
  rewrite (emulate_convert _ operand text _ _ st Hwu),
    (emulate_convert _ operand text _ _ st Hws).
  assert (H1 : (b mod 2 ^ 32) mod 2 ^ 32 = b mod 2 ^ 32) by apply Zmod_mod.
  assert (H2 : (signed 32 b mod 2 ^ 64) mod 2 ^ 32 = b mod 2 ^ 32).
  { rewrite (mod_mod_pow2 (signed 32 b) 32 64) by lia. apply (signed_mod 32 b). }
  rewrite H1, H2. unfold numeral. split; [|split; [|split]]; reflexivity.
Qed.

End ExtendWrap.

(* ===================================================================== *)
(** * What an instruction leaves untouched                                *)
(* ===================================================================== *)

Section Frames.
Import Py Z3 VM Inv.

Lemma every_successor_bind {A : Type} (P : State -> Prop) (m : res A)
    (k : A -> res outcome) :
  (forall a, m = Ok a -> every_successor P (run (k a))) ->
  every_successor P (run (m ≫= k)).
Proof. intros H. destruct m; [now apply H | exact I]. Qed.

Lemma pop_inv (st st' : State) (v : pyval) :
  pop st = Ok (v, st') -> exists t, st' = set_symbolic_stack t st.
Proof.
  unfold pop. destruct (symbolic_stack st) as [|x t]; [discriminate|].
  intros H. injection H as _ <-. eauto.
Qed.

(** Walks through an emulator down to its [return] statements, keeping
    track of the states the pops produce; [leaf] closes what is left
    there. *)
Ltac walk leaf :=
  repeat first
    [ leaf
    | apply every_successor_bind; intros ? ?
    | match goal with
      | H : pop _ = Ok (_, _) |- _ => apply pop_inv in H; destruct H as [? ->]
      | |- every_successor _ (run (let '(_, _) := ?p in _)) => destruct p
      | |- every_successor _ (run (if ?c then _ else _)) => destruct c
      | |- every_successor _ (if ?c then _ else _) => destruct c
      | |- every_successor _ (run (match ?x with _ => _ end)) => destruct x
      | |- every_successor _ (match ?x with _ => _ end) => destruct x
      | |- every_successor _ (run (Ok ReturnsNone)) => exact I
      | |- every_successor _ (run (Err _)) => exact I
      | |- every_successor _ (Raises _) => exact I
      | |- every_successor ?P (run (Ok ?o)) => change (every_successor P o)
      end ].

Ltac same_frame :=
  idtac;
  match goal with
  | |- every_successor _ (Returns _) =>
      cbn [every_successor]; repeat constructor
  end.

(** The arithmetic, bitwise, constant, conversion and parametric
    instructions change nothing but the stack (and, for [select], the
    path constraint, which can only gain assertions): locals, globals,
    call stack, function and block names, edge type and the current
    instruction are those of the state they were given. *)
Theorem stack_instructions_keep_the_frame
    (str : expr -> string) (T : theory) (check : Z3.solver -> expr -> CheckSatResult)
    (i : Instruction) (st : State) :
  every_successor (fun st' => frame_kept st st' /\ solver st' = solver st)
    (ArithmeticInstructions.emulate str i st)
  /\ every_successor (fun st' => frame_kept st st' /\ solver st' = solver st)
       (BitwiseInstructions.emulate str i st)
  /\ every_successor (fun st' => frame_kept st st' /\ solver st' = solver st)
       (ConstantInstructions.emulate T i st)
  /\ every_successor (fun st' => frame_kept st st' /\ solver st' = solver st)
       (ConversionInstructions.emulate i st)
  /\ every_successor (fun st' => frame_kept st st' /\ constraint_extends st st')
       (ParametricInstructions.emulate check i st).
Proof.
  split; [|split; [|split; [|split]]].
  - unfold ArithmeticInstructions.emulate,
      ArithmeticInstructions.do_emulate_arithmetic_int_instruction,
      ArithmeticInstructions.do_emulate_arithmetic_float_instruction.
    cbv zeta. walk same_frame.
  - unfold BitwiseInstructions.emulate. cbv zeta. walk same_frame.
  - unfold ConstantInstructions.emulate. cbv zeta. walk same_frame.
  - unfold ConversionInstructions.emulate. walk same_frame.
  - unfold ParametricInstructions.emulate. cbv zeta.
    walk ltac:(idtac; match goal with
               | |- every_successor _ (Returns _) =>
                   cbn [every_successor]; repeat constructor;
                   unfold constraint_extends;
                   cbn [solver push set_symbolic_stack solver_add set_solver];
                   first [ exists (@nil expr); symmetry; apply app_nil_r
                         | eexists; reflexivity ]
               end).
Qed.

(** ** The path constraint only grows *)

Lemma constraint_extends_refl (st st' : State) :
  solver st' = solver st -> constraint_extends st st'.
Proof. intros H. exists (@nil expr). rewrite H. symmetry. apply app_nil_r. Qed.

Lemma constraint_extends_add (st st' : State) (e : expr) :
  solver st' = Z3.add (solver st) e -> constraint_extends st st'.
Proof. intros H. exists [e]. exact H. Qed.

Lemma popn_solver (n : nat) (st st' : State) (vs : list pyval) :
  popn n st = Ok (vs, st') -> solver st' = solver st.
Proof.
  revert st vs. induction n as [|n IH]; intros st vs; cbn [popn].
  - intros H. now injection H as _ <-.
  - unfold pop. destruct (symbolic_stack st) as [|x t]; [discriminate|].
    cbn [mbind res_bind Py.bind].
    destruct (popn n (set_symbolic_stack t st)) as [[vs' st2]|] eqn:Hp; [|discriminate].
    cbn [mbind res_bind Py.bind]. intros H. injection H as _ <-.
    now rewrite (IH _ _ Hp).
Qed.

Lemma store_context_solver (param_str return_str callee : string) (st st' : State) :
  ControlInstructions.store_context param_str return_str st callee = Ok st' ->
  solver st' = solver st.
Proof.
  unfold ControlInstructions.store_context.
  destruct (ControlInstructions.truthy param_str).
  - destruct (popn _ st) as [[arg st1]|] eqn:Hp; [|discriminate].
    cbn [mbind res_bind Py.bind]. intros H. injection H as <-.
    cbn. exact (popn_solver _ _ _ _ Hp).
  - cbn [mbind res_bind Py.bind]. intros H. injection H as <-. reflexivity.
Qed.

Lemma restore_context_solver (st st' : State) :
  ControlInstructions.restore_context st = Ok st' -> solver st' = solver st.
Proof.
  unfold ControlInstructions.restore_context.
  destruct (context_stack st) as [|f rest]; [discriminate|].
  destruct (require_return f).
  - unfold pop. cbn [symbolic_stack set_context_stack].
    destruct (symbolic_stack st) as [|x t]; [discriminate|].
    cbn [mbind res_bind Py.bind]. intros H. injection H as <-. reflexivity.
  - cbn [mbind res_bind Py.bind]. intros H. injection H as <-. reflexivity.
Qed.

Lemma table_states_extend (a : expr) (w : N) (st : State) (groups : list (Z * list Z)) :
  Forall (constraint_extends st) (ControlInstructions.table_states a w st groups).
Proof.
  unfold ControlInstructions.table_states.
  induction groups as [|[target index_list] groups IH]; cbn [flat_map]; [constructor|].
  apply Forall_app. split; [|exact IH].
  match goal with
  | |- context [if is_false ?c then _ else _] =>
      destruct (is_false c); [|destruct (is_true c)]
  end; repeat constructor.
  - now apply constraint_extends_refl.
  - now eapply constraint_extends_add.
Qed.

Lemma default_states_extend (a : expr) (w : N) (n_br : Z) (st : State) :
  Forall (constraint_extends st) (ControlInstructions.default_states a w n_br st).
Proof.
  unfold ControlInstructions.default_states. cbv zeta.
  destruct (is_false _); [constructor|].
  destruct (is_true _); repeat constructor.
  - now apply constraint_extends_refl.
  - now eapply constraint_extends_add.
Qed.

Lemma every_successor_mono (P Q : State -> Prop) (o : outcome) :
  (forall st, P st -> Q st) -> every_successor P o -> every_successor Q o.
Proof.
  intros H. destruct o; cbn [every_successor]; auto.
  intros HP. eapply Forall_impl; eauto.
Qed.

Lemma constraint_extends_from (st0 st st' : State) :
  solver st = solver st0 -> constraint_extends st st' -> constraint_extends st0 st'.
Proof. unfold constraint_extends. intros <-. auto. Qed.

Lemma table_states_extend_from (st0 : State) (a : expr) (w : N) (st : State)
    (groups : list (Z * list Z)) :
  solver st = solver st0 ->
  Forall (constraint_extends st0) (ControlInstructions.table_states a w st groups).
Proof.
  intros Hs. eapply Forall_impl; [apply table_states_extend|].
  intros s'. now apply constraint_extends_from.
Qed.

Lemma default_states_extend_from (st0 : State) (a : expr) (w : N) (n_br : Z) (st : State) :
  solver st = solver st0 ->
  Forall (constraint_extends st0) (ControlInstructions.default_states a w n_br st).
Proof.
  intros Hs. eapply Forall_impl; [apply default_states_extend|].
  intros s'. now apply constraint_extends_from.
Qed.

(** Closes a [return] of states whose path constraint is that of the
    state the emulator started from, possibly with one assertion added. *)
Ltac extends_leaf :=
  idtac;
  match goal with
  | |- every_successor _ (Returns (_ ++ _)) =>
      cbn [every_successor]; apply Forall_app; split;
      [ apply table_states_extend_from; reflexivity
      | apply default_states_extend_from; reflexivity ]
  | |- every_successor _ (Returns _) =>
      cbn [every_successor]; repeat constructor;
      first [ apply constraint_extends_refl;
              first [ reflexivity
                    | eapply restore_context_solver; eassumption
                    | etransitivity;
                      [ eapply store_context_solver; eassumption | assumption ] ]
            | eapply constraint_extends_add; reflexivity ]
  end.

Section Extends.
Variable E : Core.Env.
Hypothesis Hlib : lib_extends E.

Lemma deal_with_call_extends (st0 st : State) (f_offset : Z) :
  solver st = solver st0 ->
  every_successor (constraint_extends st0)
    (ControlInstructions.deal_with_call (Core.env_cfg E) (Core.env_readable E)
       (Core.env_c_emul E) (Core.env_go_emul E) (Core.env_wasi_emul E)
       (Core.env_assert_fail E) st f_offset (Core.env_analyzer E)).
Proof.
  intros Hs. unfold ControlInstructions.deal_with_call. cbv zeta.
  walk ltac:(first
    [ extends_leaf
    | idtac; match goal with
      | |- every_successor _ (run (Ok (?emul ?n st ?p ?r))) =>
          change (every_successor (constraint_extends st0) (emul n st p r));
          apply (every_successor_mono (constraint_extends st));
          [ intros ?; apply constraint_extends_from; exact Hs
          | apply (Hlib emul); tauto ]
      | |- every_successor _ (Returns [st]) =>
          cbn [every_successor]; repeat constructor;
          apply constraint_extends_refl; exact Hs
      end ]).
Qed.

Lemma control_extends (i : Instruction) (st : State) :
  every_successor (constraint_extends st) (Core.emulate E Core.Control i st).
Proof.
  unfold Core.emulate, ControlInstructions.emulate, ControlInstructions.branch.
  cbv zeta.
  walk ltac:(first
    [ extends_leaf
    | idtac; match goal with
      | |- every_successor _
             (run (Ok (ControlInstructions.deal_with_call _ _ _ _ _ _ ?s ?f _))) =>
          apply (deal_with_call_extends st s f); reflexivity
      end ]).
Qed.

End Extends.

(** Whatever the instruction, the path constraint of every returned state
    is the path constraint of the state given, possibly with assertions
    appended: no emulator removes or rewrites an assertion, and returning
    from a call does not restore the caller's constraint.  This holds
    provided the library models a call may dispatch to do the same. *)
Theorem path_constraint_only_grows (E : Core.Env) (c : Core.instruction_class)
    (i : Instruction) (st : State) :
  lib_extends E ->
  every_successor (constraint_extends st) (Core.emulate E c i st).
Proof.
  intros Hlib. destruct c.
  - unfold Core.emulate, ArithmeticInstructions.emulate,
      ArithmeticInstructions.do_emulate_arithmetic_int_instruction,
      ArithmeticInstructions.do_emulate_arithmetic_float_instruction.
    cbv zeta. walk extends_leaf.
  - unfold Core.emulate, BitwiseInstructions.emulate. cbv zeta. walk extends_leaf.
  - unfold Core.emulate, ConstantInstructions.emulate. cbv zeta. walk extends_leaf.
  - unfold Core.emulate, ConversionInstructions.emulate. walk extends_leaf.
  - unfold Core.emulate, ParametricInstructions.emulate. cbv zeta. walk extends_leaf.
  - unfold Core.emulate, VariableInstructions.emulate. cbv zeta. walk extends_leaf.
  - now apply control_extends.
Qed.

End Frames.

(** The sample library models leave the path constraint as it is. *)
Lemma sample_lib_extends : Inv.lib_extends Sample.env.
Proof.
  intros emul Hemul name st p r.
  assert (Heq : emul = Sample.lib_emul)
    by (destruct Hemul as [H|[H|H]]; rewrite H; reflexivity).
  subst emul. cbn. repeat constructor. exists (@nil Z3.expr). symmetry. apply app_nil_r.
Qed.

(** On an input: [br_if] on the unconstrained symbol [x]. *)
Lemma path_constraint_only_grows_witness :
  Inv.every_successor
    (Inv.constraint_extends (VM.push (VM.PyExpr Sample.x32) Sample.init))
    (Core.emulate Sample.env Core.Control
       {| VM.instr_name := "br_if"; VM.instr_operand := []; VM.instr_string := "br_if 0" |}
       (VM.push (VM.PyExpr Sample.x32) Sample.init)).
Proof.
  exact (path_constraint_only_grows Sample.env Core.Control
           {| VM.instr_name := "br_if"; VM.instr_operand := [];
              VM.instr_string := "br_if 0" |}
           (VM.push (VM.PyExpr Sample.x32) Sample.init) sample_lib_extends).
Defined.

(* ===================================================================== *)
(** * Which callee goes where                                             *)
(* ===================================================================== *)

Section CallDispatch.
Import Py Z3 VM Inv ControlInstructions.

Variable cfg : Configuration.
Variable readable : string -> string.
Variables c_emul go_emul wasi_emul : string -> State -> string -> string -> outcome.
Variable assert_fail : Z.

(** A callee named in [TERMINATED_FUNCS] ends the path with
    [ProcFailTermination(ASSERT_FAIL)] without touching the state, except
    that [runtime.divideByZeroPanic] is also in [MODELED_FUNCS['go']]:
    when the source type is [go], the earlier case of the dispatch hands
    it to the Go library model instead. *)
Theorem terminated_callee_dispatch (st : State) (f_offset : Z) (analyzer : Analyzer)
    (target : prototype) :
  getitem (func_prototypes analyzer) f_offset = Ok target ->
  in_list (readable (proto_name target)) TERMINATED_FUNCS = true ->
  deal_with_call cfg readable c_emul go_emul wasi_emul assert_fail st f_offset analyzer
  = if String.eqb (get_source_type cfg) "go"
       && String.eqb (readable (proto_name target)) "runtime.divideByZeroPanic"
    then go_emul (readable (proto_name target)) st
           (proto_param_str target) (proto_return_str target)
    else Raises (ProcFailTermination assert_fail).
Proof.
  intros Hget Hin. unfold deal_with_call. rewrite Hget.
  cbn [mbind res_bind Py.bind]. cbv zeta.
  set (name := readable (proto_name target)) in *.
  assert (Hname : name = "__assert_fail" \/ name = "runtime.divideByZeroPanic").
  { unfold in_list, TERMINATED_FUNCS in Hin. cbn [existsb] in Hin.
    destruct (String.eqb_spec name "__assert_fail"); [now left|].
    destruct (String.eqb_spec name "runtime.divideByZeroPanic"); [now right|].
    discriminate. }
  destruct Hname as [-> | ->].
  - change (startswith "checker" "__assert_fail") with false. rewrite andb_false_r.
    change (String.eqb "__assert_fail" "runtime.divideByZeroPanic") with false.
    rewrite andb_false_r.
    destruct (String.eqb (get_source_type cfg) "c");
      destruct (String.eqb (get_source_type cfg) "go");
      destruct (String.eqb (get_source_type cfg) "rust"); reflexivity.
  - change (startswith "checker" "runtime.divideByZeroPanic") with false.
    rewrite andb_false_r.
    change (String.eqb "runtime.divideByZeroPanic" "runtime.divideByZeroPanic") with true.
    rewrite andb_true_r.
    destruct (String.eqb (get_source_type cfg) "c");
      destruct (String.eqb (get_source_type cfg) "go");
      destruct (String.eqb (get_source_type cfg) "rust"); reflexivity.
Qed.

(** In [MODELED_FUNCS['go']] the literals ['runtime.nilPanic'] and
    ['runtime.slicePanic'] are not separated by a comma, so neither name is
    in the set (their concatenation is): with source type [go], a call to
    either is not handed to the Go library model but enters the callee like
    any internal function. *)
Theorem go_nil_and_slice_panic_are_not_modeled (st : State) (f_offset : Z)
    (analyzer : Analyzer) (target : prototype) :
  get_source_type cfg = "go" ->
  getitem (func_prototypes analyzer) f_offset = Ok target ->
  readable (proto_name target) = "runtime.nilPanic"
  \/ readable (proto_name target) = "runtime.slicePanic" ->
  Utils.is_modeled "go" (readable (proto_name target)) (Some "go") = Ok false
  /\ Utils.is_modeled "go" "runtime.nilPanicruntime.slicePanic" (Some "go") = Ok true
  /\ deal_with_call cfg readable c_emul go_emul wasi_emul assert_fail st f_offset analyzer
     = run (st' ← store_context (proto_param_str target) (proto_return_str target) st
                   (readable (proto_name target));
            Ok (Returns [st'])).
Proof.
  intros Hsrc Hget Hname.
  split; [destruct Hname as [-> | ->]; reflexivity|].
  split; [reflexivity|].
  apply deal_with_call_internal; [exact Hget|].
  unfold is_ordinary_internal. rewrite Hsrc.
  destruct Hname as [-> | ->].
  - change (startswith "checker" "runtime.nilPanic") with false.
    rewrite andb_false_r. reflexivity.
  - change (startswith "checker" "runtime.slicePanic") with false.
    rewrite andb_false_r. reflexivity.
Qed.

End CallDispatch.

(** On an input: a C program calling [__assert_fail]. *)
Lemma terminated_callee_dispatch_witness :
  let f := {| ControlInstructions.proto_name := "__assert_fail";
              ControlInstructions.proto_param_str := "i32 i32 i32 i32";
              ControlInstructions.proto_return_str := "";
              ControlInstructions.proto_type := "" |} in
  let analyzer := {| ControlInstructions.func_prototypes := [f];
                     ControlInstructions.elements := [] |} in
  ControlInstructions.deal_with_call Sample.cfg (fun n => n)
    Sample.lib_emul Sample.lib_emul Sample.lib_emul 1 Sample.init 0 analyzer
  = VM.Raises (Py.ProcFailTermination 1).
Proof.
  exact (terminated_callee_dispatch Sample.cfg (fun n => n)
           Sample.lib_emul Sample.lib_emul Sample.lib_emul 1 Sample.init 0
           {| ControlInstructions.func_prototypes :=
                [{| ControlInstructions.proto_name := "__assert_fail";
                    ControlInstructions.proto_param_str := "i32 i32 i32 i32";
                    ControlInstructions.proto_return_str := "";
                    ControlInstructions.proto_type := "" |}];
              ControlInstructions.elements := [] |}
           _ eq_refl eq_refl).
Defined.

(** On an input: a Go program calling [runtime.nilPanic]. *)
Lemma go_nil_and_slice_panic_are_not_modeled_witness :
  let cfg := {| ControlInstructions.get_dsl_flag := false;
                ControlInstructions.get_source_type := "go";
                ControlInstructions.get_elem_index_to_func := ∅ |} in
  let f := {| ControlInstructions.proto_name := "runtime.nilPanic";
              ControlInstructions.proto_param_str := "";
              ControlInstructions.proto_return_str := "";
              ControlInstructions.proto_type := "" |} in
  let analyzer := {| ControlInstructions.func_prototypes := [f];
                     ControlInstructions.elements := [] |} in
  Utils.is_modeled "go" "runtime.nilPanic" (Some "go") = Py.Ok false
  /\ Utils.is_modeled "go" "runtime.nilPanicruntime.slicePanic" (Some "go") = Py.Ok true
  /\ ControlInstructions.deal_with_call cfg (fun n => n)
       Sample.lib_emul Sample.lib_emul Sample.lib_emul 1 Sample.init 0 analyzer
     = VM.run (st' ← ControlInstructions.store_context "" "" Sample.init "runtime.nilPanic";
               Py.Ok (VM.Returns [st'])).
Proof.
  exact (go_nil_and_slice_panic_are_not_modeled
           {| ControlInstructions.get_dsl_flag := false;
              ControlInstructions.get_source_type := "go";
              ControlInstructions.get_elem_index_to_func := ∅ |}
           (fun n => n) Sample.lib_emul Sample.lib_emul Sample.lib_emul 1 Sample.init 0
           {| ControlInstructions.func_prototypes :=
                [{| ControlInstructions.proto_name := "runtime.nilPanic";
                    ControlInstructions.proto_param_str := "";
                    ControlInstructions.proto_return_str := "";
                    ControlInstructions.proto_type := "" |}];
              ControlInstructions.elements := [] |}
           _ eq_refl eq_refl (or_introl eq_refl)).
Defined.

(* ===================================================================== *)
(** * Parameters of a library call                                        *)
(* ===================================================================== *)

Section ExtractParams.
Import Py Z3 VM Inv.

Lemma split_nonempty (sep : ascii) (s : string) : (1 <= length (split sep s))%nat.
Proof.
  induction s as [|c s IH]; cbn [split]; [simpl; lia|].
  destruct (Ascii.eqb c sep); [simpl; lia|].
  destruct (split sep s); simpl; lia.
Qed.

(** [_extract_params] pops one value per piece of [param_str.split(" ")]
    and returns them in the order popped (the top of the stack first),
    bit-vector numerals as Python integers (reduced modulo two to their
    width) and everything else as it is.  There is always at least one
    piece, so at least one value is popped, also for an empty parameter
    string. *)
Theorem extract_params_pops_one_per_piece
    (param_str : string) (args rest : list pyval) (st : State) :
  length args = length (split " " param_str) ->
  (1 <= length args)%nat
  /\ Utils._extract_params param_str (set_symbolic_stack (args ++ rest)%list st)
     = Ok (map (fun v => match v with
                         | PyExpr (BitVecVal z w) => PyInt (z mod 2 ^ Z.of_N w)
                         | _ => v
                         end) args,
           set_symbolic_stack rest st).
Proof.
  intros Hlen. split; [rewrite Hlen; apply split_nonempty|].
  unfold Utils._extract_params. rewrite <- Hlen.
  rewrite (popn_app args rest (set_symbolic_stack (args ++ rest)%list st)) by reflexivity.
  reflexivity.
Qed.

End ExtractParams.

(** On an input: an empty parameter string and the stack [7, 9] (top
    first); the 7 is popped. *)
Lemma extract_params_pops_one_per_piece_witness :
  (1 <= length [Sample.num 7])%nat
  /\ Utils._extract_params ""
       (VM.set_symbolic_stack ([Sample.num 7] ++ [Sample.num 9])%list Sample.init)
     = Py.Ok (map (fun v => match v with
                            | VM.PyExpr (Z3.BitVecVal z w) => VM.PyInt (z mod 2 ^ Z.of_N w)
                            | _ => v
                            end) [Sample.num 7],
              VM.set_symbolic_stack [Sample.num 9] Sample.init).
Proof.
  exact (extract_params_pops_one_per_piece "" [Sample.num 7] [Sample.num 9] Sample.init
           eq_refl).
Defined.

(* ===================================================================== *)
(** * Where a function returns, and which function [call] enters          *)
(* ===================================================================== *)

Section ReturnPoints.
Import Py Z3 VM Inv ControlInstructions.

Variable cfg : Configuration.
Variable readable : string -> string.
Variable check : Z3.solver -> expr -> CheckSatResult.
Variables c_emul go_emul wasi_emul : string -> State -> string -> string -> outcome.
Variable assert_fail : Z.

(** [return] and [unreachable] (like [loop], [end], [br], [else] and
    [block]) hand the state back as it is: no frame is popped and nothing
    is raised.  The frame is popped by a [nop] whose instruction has cross
    references: with an empty call stack it raises
    [ProcSuccessTermination(0)]; otherwise the caller's stack, locals,
    function and block are restored, and when the callee declares a
    result its top of stack is carried over ([IndexError] if its stack is
    empty); with a frame to pop, what else the callee left on its stack
    is dropped.  A [nop] without cross references changes nothing. *)
Theorem return_points (operand : list Z) (text : string) (st : State)
    (analyzer : Analyzer) :
  let emu := fun name =>
    emulate cfg readable check c_emul go_emul wasi_emul assert_fail
      {| instr_name := name; instr_operand := operand; instr_string := text |}
      st analyzer in
  emu "return" = Returns [st]
  /\ emu "unreachable" = Returns [st]
  /\ emu "nop"
     = match xref (instr st), context_stack st with
       | [], _ => Returns [st]
       | _ :: _, [] => Raises (ProcSuccessTermination 0)
       | _ :: _, f :: frames =>
           let back :=
             {| symbolic_stack := saved_stack f;
                local_var := saved_locals f;
                globals := globals st;
                solver := solver st;
                context_stack := frames;
                current_func_name := caller_func_name f;
                current_bb_name := return_block f;
                edge_type := edge_type st;
                instr := instr st;
                call_indirect_callee := call_indirect_callee st |} in
           if require_return f
           then match symbolic_stack st with
                | [] => Raises IndexError
                | return_val :: _ => Returns [push return_val back]
                end
           else Returns [back]
       end.
Proof.
  cbv zeta. split; [reflexivity|]. split; [reflexivity|].
  unfold emulate. cbn [instr_name].
  change (in_list "nop" skip_command) with false.
  change (in_list "nop" term_command) with false.
  cbn [String.eqb Ascii.eqb Bool.eqb]. cbv iota.
  destruct (xref (instr st)) as [|x xs]; [reflexivity|].
  unfold restore_context.
  destruct (context_stack st) as [|f frames]; [reflexivity|].
  destruct (require_return f).
  - unfold pop. cbn [symbolic_stack set_context_stack].
    destruct (symbolic_stack st) as [|v below]; reflexivity.
  - reflexivity.
Qed.

Lemma getitem_second {A : Type} (x y : A) : getitem [x; y] 1 = Ok y.
Proof. reflexivity. Qed.

(** [call] with a decimal operand [n] dispatches on entry [n] of the
    function prototypes. *)
Theorem call_reads_decimal_operand (operand : list Z) (n : Z) (st : State)
    (analyzer : Analyzer) :
  emulate cfg readable check c_emul go_emul wasi_emul assert_fail
    {| instr_name := "call"; instr_operand := operand;
       instr_string := "call " +:+ str_of_int n |} st analyzer
  = deal_with_call cfg readable c_emul go_emul wasi_emul assert_fail st n analyzer.
Proof.
  unfold emulate. cbn [instr_name instr_string].
  change (in_list "call" skip_command) with false.
  change (in_list "call" term_command) with false.
  cbn [String.eqb Ascii.eqb Bool.eqb orb]. cbv iota.
  unfold call_offset.
  change ("call " +:+ str_of_int n) with ("call" +:+ String " " (str_of_int n)).
  rewrite split_mnemonic_operand by (reflexivity || apply str_of_int_lacks_space).
  rewrite getitem_second. cbn [mbind res_bind Py.bind].
  unfold Py.int. rewrite signed_lit_str_of_int. reflexivity.
Qed.

End ReturnPoints.

(* ===================================================================== *)
(** * Reinterpretation, both ways and both widths                         *)
(* ===================================================================== *)

Section ReinterpretBothWays.
Import Py Z3 VM Inv ConversionInstructions.

Lemma simplify_bits_to_float (e m : N) (b : Z) :
  simplify (Un (OfpBVToFP e m) (BitVecVal b (e + m))) = FPVal (fp_of_bits e m b) e m.
Proof.
  cbn [simplify]. unfold fold_un.
  cbn [as_val compute_un un_sort get_sort cast of_val].
  rewrite !N.eqb_refl. cbn [andb]. rewrite fnorm_fp_of_bits.
  now rewrite !fp_of_bits_wrap.
Qed.

Lemma simplify_float_to_bits (e m : N) (b : Z) :
  0 <= b < 2 ^ Z.of_N (e + m) ->
  is_nan_bits e m b = false ->
  simplify (fpToIEEEBV (FPVal (FBits b) e m)) = BitVecVal b (e + m).
Proof.
  intros Hb Hnan.
  assert (Hfb : fp_of_bits e m b = FBits b) by now apply fp_of_bits_small.
  cbn [simplify fnorm]. rewrite Hfb. unfold fold_un.
  cbn [as_val fnorm]. rewrite Hfb.
  cbn [compute_un un_sort get_sort cast of_val].
  rewrite N.eqb_refl. now rewrite (wrap_small (e + m) b Hb).
Qed.

Lemma convert_reinterpret :
  (forall b, convert "f64.reinterpret/i64" (numeral 64 b)
             = Ok (FPVal (fp_of_bits 11 53 b) 11 53))
  /\ (forall f, convert "i64.reinterpret/f64" (PyExpr (FPVal f 11 53))
                = Ok (simplify (fpToIEEEBV (FPVal f 11 53))))
  /\ (forall b, convert "f32.reinterpret/i32" (numeral 32 b)
                = Ok (FPVal (fp_of_bits 8 24 b) 8 24))
  /\ (forall f, convert "i32.reinterpret/f32" (PyExpr (FPVal f 8 24))
                = Ok (simplify (fpToIEEEBV (FPVal f 8 24)))).
Proof.
  unfold numeral. split; [|split; [|split]].
  - intros b.
    change (convert "f64.reinterpret/i64" (PyExpr (BitVecVal b 64)))
      with (from_bv "f64.reinterpret/i64" (PyExpr (BitVecVal b 64)) 64
              (Un (OfpBVToFP 11 53)) (fp_post 11 53)).
    unfold from_bv, fp_post. rewrite (assert_size_ok (BitVecVal b 64) 64) by reflexivity.
    cbn [mbind res_bind Py.bind the_expr].
    pose proof (simplify_bits_to_float 11 53 b) as Hsimp.
    change (11 + 53)%N with 64%N in Hsimp. rewrite Hsimp.
    now rewrite (assert_shape_ok (FPVal (fp_of_bits 11 53 b) 11 53) 11 53) by reflexivity.
  - intros f.
    change (convert "i64.reinterpret/f64" (PyExpr (FPVal f 11 53)))
      with (from_fp "i64.reinterpret/f64" (PyExpr (FPVal f 11 53)) 11 53
              (fun a => fpToIEEEBV a) (bv_post 64)).
    unfold from_fp, bv_post. rewrite (assert_shape_ok (FPVal f 11 53) 11 53) by reflexivity.
    cbn [mbind res_bind Py.bind the_expr].
    now rewrite (assert_size_ok (simplify (fpToIEEEBV (FPVal f 11 53))) 64)
      by (rewrite simplify_sort; reflexivity).
  - intros b.
    change (convert "f32.reinterpret/i32" (PyExpr (BitVecVal b 32)))
      with (from_bv "f32.reinterpret/i32" (PyExpr (BitVecVal b 32)) 32
              (Un (OfpBVToFP 8 24)) (fp_post 8 24)).
    unfold from_bv, fp_post. rewrite (assert_size_ok (BitVecVal b 32) 32) by reflexivity.
    cbn [mbind res_bind Py.bind the_expr].
    pose proof (simplify_bits_to_float 8 24 b) as Hsimp.
    change (8 + 24)%N with 32%N in Hsimp. rewrite Hsimp.
    now rewrite (assert_shape_ok (FPVal (fp_of_bits 8 24 b) 8 24) 8 24) by reflexivity.
  - intros f.
    change (convert "i32.reinterpret/f32" (PyExpr (FPVal f 8 24)))
      with (from_fp "i32.reinterpret/f32" (PyExpr (FPVal f 8 24)) 8 24
              (fun a => fpToIEEEBV a) (bv_post 32)).
    unfold from_fp, bv_post. rewrite (assert_shape_ok (FPVal f 8 24) 8 24) by reflexivity.
    cbn [mbind res_bind Py.bind the_expr].
    now rewrite (assert_size_ok (simplify (fpToIEEEBV (FPVal f 8 24))) 32)
      by (rewrite simplify_sort; reflexivity).
Qed.

(** For bit patterns that do not encode a NaN: [f64.reinterpret/i64]
    followed by [i64.reinterpret/f64] gives the 64-bit numeral back, and
    [i32.reinterpret/f32] followed by [f32.reinterpret/i32] gives the
    float numeral back. *)
Theorem reinterpret_roundtrips_without_nan
    (operand : list Z) (text : string) (b64 b32 : Z) (st : State) :
  0 <= b64 < 2 ^ 64 ->
  is_nan_bits 11 53 b64 = false ->
  0 <= b32 < 2 ^ 32 ->
  is_nan_bits 8 24 b32 = false ->
  let ins := fun name =>
    {| instr_name := name; instr_operand := operand; instr_string := text |} in
  and_then (emulate (ins "f64.reinterpret/i64") (push (numeral 64 b64) st))
    (emulate (ins "i64.reinterpret/f64"))
  = Returns [push (numeral 64 b64) st]
  /\ and_then (emulate (ins "i32.reinterpret/f32") (push (PyExpr (FPVal (FBits b32) 8 24)) st))
       (emulate (ins "f32.reinterpret/i32"))
     = Returns [push (PyExpr (FPVal (FBits b32) 8 24)) st].
Proof.
  intros Hb64 Hn64 Hb32 Hn32. cbv zeta.
  destruct convert_reinterpret as [Hf64 [Hi64 [Hf32 Hi32]]].
  split.
  - rewrite (emulate_convert _ operand text _ _ st (Hf64 b64)).
    cbn [and_then].
    rewrite (emulate_convert _ operand text _ _ st (Hi64 (fp_of_bits 11 53 b64))).
    rewrite (fp_of_bits_small 11 53 b64 Hb64 Hn64).
    now rewrite (simplify_float_to_bits 11 53 b64 Hb64 Hn64).
  - rewrite (emulate_convert _ operand text _ _ st (Hi32 (FBits b32))).
    cbn [and_then].
    rewrite (simplify_float_to_bits 8 24 b32 Hb32 Hn32).
    change (PyExpr (BitVecVal b32 (8 + 24))) with (numeral 32 b32).
    rewrite (emulate_convert _ operand text _ _ st (Hf32 b32)).
    now rewrite (fp_of_bits_small 8 24 b32 Hb32 Hn32).
Qed.

End ReinterpretBothWays.

(** On an input: the patterns of the double 1.0 and of the float 1.0. *)
Lemma reinterpret_roundtrips_without_nan_witness :
  let ins := fun name =>
    {| VM.instr_name := name; VM.instr_operand := []; VM.instr_string := "" |} in
  VM.and_then
    (ConversionInstructions.emulate (ins "f64.reinterpret/i64")
       (VM.push (Inv.numeral 64 0x3FF0000000000000) Sample.init))
    (ConversionInstructions.emulate (ins "i64.reinterpret/f64"))
  = VM.Returns [VM.push (Inv.numeral 64 0x3FF0000000000000) Sample.init]
  /\ VM.and_then
       (ConversionInstructions.emulate (ins "i32.reinterpret/f32")
          (VM.push (VM.PyExpr (Z3.FPVal (Z3.FBits 0x3F800000) 8 24)) Sample.init))
       (ConversionInstructions.emulate (ins "f32.reinterpret/i32"))
     = VM.Returns [VM.push (VM.PyExpr (Z3.FPVal (Z3.FBits 0x3F800000) 8 24)) Sample.init].
Proof.
  apply (reinterpret_roundtrips_without_nan [] "" 0x3FF0000000000000 0x3F800000
           Sample.init); (lia || reflexivity).
Defined.

(* ===================================================================== *)
(** * The value pushed by integer arithmetic and bitwise instructions     *)
(* ===================================================================== *)

Section PushedValues.
Import Py Z3 VM Inv.

Variable str : expr -> string.

(** What a binary integer instruction does to two bit-vector terms of its
    own width, given the term it builds ([a1] is on top of the stack). *)
Lemma int_binary_on_terms (name : string) (operand : list Z) (text : string)
    (op : binop) (w : N) (a1 a2 : expr) (st : State) :
  ArithmeticInstructions.helper_map (take 3 name) = Ok (ArithmeticInstructions.HInt w) ->
  take 1 name = "i" ->
  contains ".clz" name || contains ".ctz" name = false ->
  contains ".popcnt" name = false ->
  get_sort a1 = BitVecSort w ->
  get_sort a2 = BitVecSort w ->
  (if contains ".sub" name then Ok (Bin Obvsub a2 a1)
   else if contains ".add" name then Ok (Bin Obvadd a2 a1)
   else if contains ".mul" name then Ok (Bin Obvmul a2 a1)
   else if contains ".div_s" name then Ok (Bin Obvsdiv a2 a1)
   else if contains ".div_u" name then Ok (UDiv a2 a1)
   else if contains ".rem_s" name then Ok (SRem a2 a1)
   else if contains ".rem_u" name then Ok (URem a2 a1)
   else Err UnsupportInstructionError) = Ok (Bin op a2 a1) ->
  ArithmeticInstructions.emulate str
    {| instr_name := name; instr_operand := operand; instr_string := text |}
    (push (PyExpr a1) (push (PyExpr a2) st))
  = Returns [push (PyExpr (simplify (Bin op a2 a1))) st].
Proof.
  intros Hmap Hi Hclz Hpop Hs1 Hs2 Hterm.
  unfold ArithmeticInstructions.emulate. cbn [instr_name]. rewrite Hi.
  change (String.eqb "i" "i") with true. cbv iota.
  unfold ArithmeticInstructions.do_emulate_arithmetic_int_instruction.
  cbn [instr_name]. cbv zeta. rewrite Hclz, Hpop.
  cbn [pop push symbolic_stack set_symbolic_stack mbind res_bind Py.bind].
  unfold ArithmeticInstructions.coerce_bool, ArithmeticInstructions.check_size,
    ArithmeticInstructions.helper_width.
  unfold VM.is_bool, VM.size, Z3.is_bool. rewrite !Hs1, !Hs2.
  cbn [mbind res_bind Py.bind]. rewrite Hmap. cbn [mbind res_bind Py.bind].
  rewrite ?Hs1, ?Hs2. cbn [mbind res_bind Py.bind].
  rewrite N.eqb_refl. cbn [Py.assert mbind res_bind Py.bind the_expr].
  rewrite Hterm. reflexivity.
Qed.

Lemma unsigned_value_simplify_bin (T : theory) (rho : valuation)
    (op : binop) (w : N) (a b : expr) (x y r : Z) :
  bin_sort op (BitVecSort w) = BitVecSort w ->
  bv_bin op w x y = Some (VBV w r) ->
  eval T rho a = VBV w x ->
  eval T rho b = VBV w y ->
  unsigned_value T rho (simplify (Bin op a b)) = r mod 2 ^ Z.of_N w.
Proof.
  intros Hsort Hbin Ha Hb. unfold unsigned_value.
  rewrite eval_simplify. cbn [eval].
  assert (Hsa : get_sort a = BitVecSort w).
  { rewrite <- (eval_sort T rho a), Ha. reflexivity. }
  rewrite Hsa, Hsort, Ha, Hb. unfold apply_bin.
  assert (Hcomp : compute_bin op (VBV w x) (VBV w y) = bv_bin op w x y).
  { destruct op; try discriminate Hbin; cbn [compute_bin]; now rewrite N.eqb_refl. }
  rewrite Hcomp, Hbin. cbn [cast]. now rewrite N.eqb_refl.
Qed.

(** [add], [sub] and [mul] on arbitrary bit-vector terms of the
    instruction's width push a term that, under every valuation, denotes
    the sum, the difference ([a2 - a1] with [a1] on top) and the product of
    the operands' values modulo two to the width. *)
Theorem int_add_sub_mul_denotation
    (operand : list Z) (text : string) (ty : string) (w : N) (a1 a2 : expr) (st : State) :
  (ty = "i32" /\ w = 32%N) \/ (ty = "i64" /\ w = 64%N) ->
  get_sort a1 = BitVecSort w ->
  get_sort a2 = BitVecSort w ->
  let emu := fun suffix =>
    ArithmeticInstructions.emulate str
      {| instr_name := ty +:+ suffix; instr_operand := operand; instr_string := text |}
      (push (PyExpr a1) (push (PyExpr a2) st)) in
  exists r_add r_sub r_mul,
    emu ".add" = Returns [push (PyExpr r_add) st]
    /\ emu ".sub" = Returns [push (PyExpr r_sub) st]
    /\ emu ".mul" = Returns [push (PyExpr r_mul) st]
    /\ forall T rho,
         let x1 := unsigned_value T rho a1 in
         let x2 := unsigned_value T rho a2 in
         unsigned_value T rho r_add = (x2 + x1) mod 2 ^ Z.of_N w
         /\ unsigned_value T rho r_sub = (x2 - x1) mod 2 ^ Z.of_N w
         /\ unsigned_value T rho r_mul = (x2 * x1) mod 2 ^ Z.of_N w.
Proof.
  intros Hty Hs1 Hs2. cbv zeta.
  exists (simplify (Bin Obvadd a2 a1)), (simplify (Bin Obvsub a2 a1)),
    (simplify (Bin Obvmul a2 a1)).
  split; [|split; [|split]].
  - destruct Hty as [[-> ->] | [-> ->]];
      (eapply (int_binary_on_terms _ operand text Obvadd);
       [reflexivity | reflexivity | reflexivity | reflexivity
       | exact Hs1 | exact Hs2 | reflexivity]).
  - destruct Hty as [[-> ->] | [-> ->]];
      (eapply (int_binary_on_terms _ operand text Obvsub);
       [reflexivity | reflexivity | reflexivity | reflexivity
       | exact Hs1 | exact Hs2 | reflexivity]).
  - destruct Hty as [[-> ->] | [-> ->]];
      (eapply (int_binary_on_terms _ operand text Obvmul);
       [reflexivity | reflexivity | reflexivity | reflexivity
       | exact Hs1 | exact Hs2 | reflexivity]).
  - intros T rho.
    destruct (eval_bv_inv T rho a1 w Hs1) as [x1 Hx1].
    destruct (eval_bv_inv T rho a2 w Hs2) as [x2 Hx2].
    assert (Hu1 : unsigned_value T rho a1 = x1) by (unfold unsigned_value; now rewrite Hx1).
    assert (Hu2 : unsigned_value T rho a2 = x2) by (unfold unsigned_value; now rewrite Hx2).
    rewrite Hu1, Hu2.
    split; [|split].
    + now apply (unsigned_value_simplify_bin T rho Obvadd w a2 a1 x2 x1).
    + now apply (unsigned_value_simplify_bin T rho Obvsub w a2 a1 x2 x1).
    + now apply (unsigned_value_simplify_bin T rho Obvmul w a2 a1 x2 x1).
Qed.

End PushedValues.

(** On an input: the 32-bit symbols [x] (on top) and [y]. *)
Lemma int_add_sub_mul_denotation_witness :
  let emu := fun suffix =>
    ArithmeticInstructions.emulate Sample.expr_str
      {| VM.instr_name := "i32" +:+ suffix; VM.instr_operand := []; VM.instr_string := "" |}
      (VM.push (VM.PyExpr Sample.x32) (VM.push (VM.PyExpr (Z3.BitVec "y" 32)) Sample.init)) in
  exists r_add r_sub r_mul,
    emu ".add" = VM.Returns [VM.push (VM.PyExpr r_add) Sample.init]
    /\ emu ".sub" = VM.Returns [VM.push (VM.PyExpr r_sub) Sample.init]
    /\ emu ".mul" = VM.Returns [VM.push (VM.PyExpr r_mul) Sample.init]
    /\ forall T rho,
         let x1 := Inv.unsigned_value T rho Sample.x32 in
         let x2 := Inv.unsigned_value T rho (Z3.BitVec "y" 32) in
         Inv.unsigned_value T rho r_add = (x2 + x1) mod 2 ^ Z.of_N 32
         /\ Inv.unsigned_value T rho r_sub = (x2 - x1) mod 2 ^ Z.of_N 32
         /\ Inv.unsigned_value T rho r_mul = (x2 * x1) mod 2 ^ Z.of_N 32.
Proof.
  exact (int_add_sub_mul_denotation Sample.expr_str [] "" "i32" 32
           Sample.x32 (Z3.BitVec "y" 32) Sample.init
           (or_introl (conj eq_refl eq_refl)) eq_refl eq_refl).
Defined.

(* ===================================================================== *)
(** * The result of a bitwise instruction is a bit-vector                 *)
(* ===================================================================== *)

Section BitwiseResult.
Import Py Z3 VM Inv.

Variable str : expr -> string.



End BitwiseResult.


(* ===================================================================== *)
(** * Float constants with an annotation                                  *)
(* ===================================================================== *)

Section FloatAnnotation.
Import Py Z3 VM Inv ConstantInstructions.

Variable T : theory.

(** Every character of [s] is one of [0-9.-]. *)
Lemma span_num_all (d rest : string) :
  forallb is_num_char (list_ascii_of_string d) = true ->
  match rest with
  | EmptyString => True
  | String c _ => is_num_char c = false
  end ->
  span_num (d +:+ rest) = (d, rest).
Proof.
  intros Hd Hrest. induction d as [|c d IH].
  - change ("" +:+ rest) with rest. destruct rest as [|c r]; [reflexivity|].
    cbn [span_num]. now rewrite Hrest.
  - cbn [list_ascii_of_string forallb] in Hd. apply andb_true_iff in Hd.
    destruct Hd as [Hc Hd].
    change (String c d +:+ rest) with (String c (d +:+ rest)).
    cbn [span_num]. rewrite Hc, (IH Hd). reflexivity.
Qed.

Lemma num_chars_lack (c : ascii) (d : string) :
  is_num_char c = false ->
  forallb is_num_char (list_ascii_of_string d) = true ->
  lacks c d = true.
Proof.
  intros Hc. unfold lacks. induction d as [|x d IH]; [reflexivity|].
  cbn [list_ascii_of_string forallb]. intros H. apply andb_true_iff in H.
  destruct H as [Hx Hd]. rewrite (IH Hd), andb_true_r.
  apply negb_true_iff. destruct (Ascii.eqb_spec x c); [congruence | reflexivity].
Qed.

Lemma lacks_app (c : ascii) (a b : string) :
  lacks c a = true -> lacks c b = true -> lacks c (a +:+ b) = true.
Proof.
  unfold lacks. intros Ha Hb. induction a as [|x a IH]; [exact Hb|].
  change (String x a +:+ b) with (String x (a +:+ b)).
  cbn [list_ascii_of_string forallb] in *. apply andb_true_iff in Ha.
  destruct Ha as [Hx Ha]. now rewrite Hx, (IH Ha).
Qed.

(** The annotation [(;=d;)] for a body [d] made of the characters
    [0-9.-]: the search finds [d]. *)
Lemma re_search_annotation (d : string) :
  d <> EmptyString ->
  forallb is_num_char (list_ascii_of_string d) = true ->
  re_search ("(;=" +:+ d +:+ ";)") = Some d.
Proof.
  intros Hne Hd.
  change ("(;=" +:+ d +:+ ";)") with (String "(" (String ";" (String "=" (d +:+ ";)")))).
  cbn [re_search]. change (match_here (String "(" _)) with (@None string). cbv iota.
  unfold match_here. rewrite (span_num_all d ";)" Hd eq_refl).
  destruct d; [congruence | reflexivity].
Qed.

(** A body that leaves the characters [0-9.-] before its end (an
    exponent, [inf], [nan]) and holds no semicolon: the search fails. *)
Lemma re_search_annotation_fails (d1 d2 : string) (c : ascii) :
  forallb is_num_char (list_ascii_of_string d1) = true ->
  is_num_char c = false ->
  lacks ";" (String c d2) = true ->
  re_search ("(;=" +:+ (d1 +:+ String c d2) +:+ ";)") = None.
Proof.
  intros Hd1 Hc Hd2.
  change ("(;=" +:+ (d1 +:+ String c d2) +:+ ";)")
    with (String "(" (String ";" (String "=" ((d1 +:+ String c d2) +:+ ";)")))).
  assert (Hassoc : (d1 +:+ String c d2) +:+ ";)" = d1 +:+ String c (d2 +:+ ";)")).
  { clear. induction d1 as [|x d1 IH]; [reflexivity|].
    change ((String x d1 +:+ String c d2) +:+ ";)")
      with (String x ((d1 +:+ String c d2) +:+ ";)")).
    now rewrite IH. }
  rewrite Hassoc.
  assert (Hc' : c <> ";"%char).
  { unfold lacks in Hd2. cbn [list_ascii_of_string forallb] in Hd2.
    apply andb_true_iff in Hd2. destruct Hd2 as [Hx _].
    apply negb_true_iff in Hx. intros ->. discriminate. }
  assert (Htail : forall s, lacks ";" s = true -> re_search (s +:+ ";)") = None).
  { clear. intros s. unfold lacks. induction s as [|x s IH]; [intros _; reflexivity|].
    cbn [list_ascii_of_string forallb]. intros H. apply andb_true_iff in H.
    destruct H as [Hx Hs]. apply negb_true_iff in Hx.
    change (String x s +:+ ";)") with (String x (s +:+ ";)")).
    cbn [re_search].
    assert (Hm : match_here (String x (s +:+ ";)")) = None).
    { unfold match_here.
      destruct x as [[] [] [] [] [] [] [] []]; try reflexivity; discriminate. }
    rewrite Hm. now apply IH. }
  cbn [re_search]. change (match_here (String "(" _)) with (@None string). cbv iota.
  assert (Hm : match_here (String ";" (String "=" (d1 +:+ String c (d2 +:+ ";)")))) = None).
  { unfold match_here. rewrite (span_num_all d1 (String c (d2 +:+ ";)")) Hd1 Hc).
    destruct d1; [reflexivity|].
    destruct c as [[] [] [] [] [] [] [] []]; try reflexivity; congruence. }
  rewrite Hm.
  change (re_search (String "=" (d1 +:+ String c (d2 +:+ ";)")))
          = None).
  rewrite <- Hassoc.
  change (String "=" ((d1 +:+ String c d2) +:+ ";)"))
    with (String "=" (d1 +:+ String c d2) +:+ ";)").
  apply Htail.
  change (String "=" (d1 +:+ String c d2)) with ("=" +:+ (d1 +:+ String c d2)).
  apply lacks_app; [reflexivity|].
  apply lacks_app; [|exact Hd2].
  apply num_chars_lack; [reflexivity | exact Hd1].
Qed.

Lemma split_annotated (mnemonic lit ann : string) :
  lacks " " mnemonic = true -> lacks " " lit = true -> lacks " " ann = true ->
  split " " (mnemonic +:+ String " " (lit +:+ String " " ann)) = [mnemonic; lit; ann].
Proof.
  intros Hm Hl Ha.
  now rewrite (split_app " " mnemonic _ Hm), (split_app " " lit _ Hl), (split_lacks " " ann Ha).
Qed.

(** [f32.const] / [f64.const] followed by a literal and an annotation
    [(;=d;)].  When [d] is made of the characters [0-9.-] the constant
    pushed is the reading of [d] as a decimal, whatever the literal is.
    When [d] leaves these characters (an exponent, [inf], [nan]) the
    instruction is rejected as unsupported, also if the literal is a
    hexadecimal one. *)
Theorem float_const_annotation_decides
    (name : string) (operand : list Z) (lit good bad1 bad2 : string) (c : ascii)
    (st : State) :
  lacks " " lit = true ->
  good <> EmptyString ->
  forallb is_num_char (list_ascii_of_string good) = true ->
  forallb is_num_char (list_ascii_of_string bad1) = true ->
  is_num_char c = false ->
  lacks ";" (String c bad2) = true ->
  lacks " " (String c bad2) = true ->
  let emu := fun ty d =>
    emulate T {| instr_name := name; instr_operand := operand;
                 instr_string := ty +:+ ".const " +:+ lit +:+ " (;=" +:+ d +:+ ";)" |} st in
  emu "f32" good = run (e ← FPVal_of_str T good 8 24; Ok (Returns [push (PyExpr e) st]))
  /\ emu "f64" good = run (e ← FPVal_of_str T good 11 53; Ok (Returns [push (PyExpr e) st]))
  /\ emu "f32" (bad1 +:+ String c bad2) = Raises UnsupportInstructionError
  /\ emu "f64" (bad1 +:+ String c bad2) = Raises UnsupportInstructionError.
Proof.
  intros Hlit Hne Hgood Hbad1 Hc Hsemi Hblank. cbv zeta.
  assert (Hann : forall d, lacks " " d = true -> lacks " " ("(;=" +:+ d +:+ ";)") = true).
  { intros d Hd. apply lacks_app; [reflexivity|]. apply lacks_app; [exact Hd | reflexivity]. }
  assert (Hsplit : forall ty d, lacks " " ty = true -> lacks " " d = true ->
            split " " (ty +:+ String " " (lit +:+ String " " ("(;=" +:+ d +:+ ";)")))
            = [ty; lit; "(;=" +:+ d +:+ ";)"]).
  { intros ty d Hty Hd. apply split_annotated; auto. }
  assert (Hg : lacks " " good = true) by (apply num_chars_lack; [reflexivity | exact Hgood]).
  assert (Hb : lacks " " (bad1 +:+ String c bad2) = true).
  { apply lacks_app; [|exact Hblank]. apply num_chars_lack; [reflexivity | exact Hbad1]. }
  unfold emulate. cbn [instr_string].
  change ("f32" +:+ ".const " +:+ lit +:+ " (;=" +:+ good +:+ ";)")
    with ("f32.const" +:+ String " " (lit +:+ String " " ("(;=" +:+ good +:+ ";)"))).
  change ("f64" +:+ ".const " +:+ lit +:+ " (;=" +:+ good +:+ ";)")
    with ("f64.const" +:+ String " " (lit +:+ String " " ("(;=" +:+ good +:+ ";)"))).
  change ("f32" +:+ ".const " +:+ lit +:+ " (;=" +:+ (bad1 +:+ String c bad2) +:+ ";)")
    with ("f32.const" +:+ String " "
            (lit +:+ String " " ("(;=" +:+ (bad1 +:+ String c bad2) +:+ ";)"))).
  change ("f64" +:+ ".const " +:+ lit +:+ " (;=" +:+ (bad1 +:+ String c bad2) +:+ ";)")
    with ("f64.const" +:+ String " "
            (lit +:+ String " " ("(;=" +:+ (bad1 +:+ String c bad2) +:+ ";)"))).
  rewrite !Hsplit by (reflexivity || assumption).
  cbn [hd last_piece List.last].
  change (split "." "f32.const") with ["f32"; "const"].
  change (split "." "f64.const") with ["f64"; "const"].
  cbv iota.
  change (String.eqb "f32" "i32") with false. change (String.eqb "f32" "i64") with false.
  change (String.eqb "f64" "i32") with false. change (String.eqb "f64" "i64") with false.
  change (String.eqb "f32" "f32") with true. change (String.eqb "f64" "f32") with false.
  change (String.eqb "f64" "f64") with true.
  cbn [orb]. cbv iota.
  rewrite (re_search_annotation good Hne Hgood).
  rewrite (re_search_annotation_fails bad1 bad2 c Hbad1 Hc Hsemi).
  assert (Htake : take 2 ("(;=" +:+ (bad1 +:+ String c bad2) +:+ ";)") = "(;")
    by reflexivity.
  rewrite Htake. change (String.eqb "(;" "0x") with false. cbv iota.
  split; [reflexivity|]. split; [reflexivity|]. split; reflexivity.
Qed.

End FloatAnnotation.

(** On an input: the literal [0x1.9p+6] annotated with [100], and with
    [1e+2]. *)
Lemma float_const_annotation_decides_witness :
  let emu := fun ty d =>
    ConstantInstructions.emulate Sample.theory
      {| VM.instr_name := ""; VM.instr_operand := [];
         VM.instr_string := ty +:+ ".const " +:+ "0x1.9p+6" +:+ " (;=" +:+ d +:+ ";)" |}
      Sample.init in
  emu "f32" "100"
  = VM.run (e ← ConstantInstructions.FPVal_of_str Sample.theory "100" 8 24;
            Py.Ok (VM.Returns [VM.push (VM.PyExpr e) Sample.init]))
  /\ emu "f64" "100"
     = VM.run (e ← ConstantInstructions.FPVal_of_str Sample.theory "100" 11 53;
               Py.Ok (VM.Returns [VM.push (VM.PyExpr e) Sample.init]))
  /\ emu "f32" ("1" +:+ String "e" "+2") = VM.Raises Py.UnsupportInstructionError
  /\ emu "f64" ("1" +:+ String "e" "+2") = VM.Raises Py.UnsupportInstructionError.
Proof.
  apply (float_const_annotation_decides Sample.theory "" [] "0x1.9p+6" "100" "1" "+2" "e"
           Sample.init); (reflexivity || discriminate).
Defined.
